(** * Refund agent: the conversation workflow of [Try/agent.py] and its
      transport [Try/main.py], embedded and verified.

    The agent is a LangGraph [StateGraph] over the typed dictionary
    [AgentState].  One inbound HTTP request is merged into the stored
    session by [chat] and then walks the graph
    intent_reviewer -> collector -> image_analyzer -> decision -> finalizer,
    leaving at the first router that answers END.

    Modelling choices, each taken from the source:
    - Python [str] is [string], a sequence of 8-bit characters, and the
      character tables ([\w], [\d], [str.isspace], [str.upper]) are
      those of the code points below 128.  The model is that of the
      code on ASCII text ([PyStr.ascii_text]); beyond it Python's tables
      are those of Unicode and [len] counts code points, not bytes.  A
      theorem whose conclusion rests on the tables or on a length says
      so by a hypothesis on the text.
    - [Optional[str]] fields are [option string]; Python truthiness
      ([not state.get(k)]) is written out by [truthy].
    - the verdict returned by the vision service is a JSON object, a
      [gmap string json] whose values are the JSON scalars; the order
      catalogue [orders_db] is a [gmap string Order].
    - [conversation_history] is declared [Annotated[List[dict], operator.add]]:
      the graph engine combines what a node returns for that key with the
      value already in the channel by list concatenation, every other key
      is overwritten by what the node returns ([apply_writes]).
    - the file [refunds.json], the mails handed to the mail service and
      the calls made to the vision service are the [World]; exceptions are
      the [Raise] outcome of the monad [M].  The ledger file is missing
      or unreadable, a JSON list, or JSON of another type, on which the
      Finalizer raises ([LedgerFile]), as it does on a file it cannot
      write ([ledger_writable]). *)

From Stdlib Require Import ZArith Ascii String.
From stdpp Require Import base option list strings gmap pretty.

Local Open Scope string_scope.
Local Open Scope Z_scope.

(** ** Python string primitives *)

Module PyStr.

Definition code (c : ascii) : N := N_of_ascii c.

Definition in_range (lo hi : N) (c : ascii) : bool :=
  ((lo <=? code c) && (code c <=? hi))%N.

(** [str.isspace] on code points below 128: TAB, LF, VT, FF, CR,
    the separators FS, GS, RS, US, and SPACE.  (Python also counts
    U+0085, U+00A0 and the other Unicode spaces.) *)
Definition isspace (c : ascii) : bool :=
  in_range 9 13 c || in_range 28 32 c.

(** The class [\d] of [re] on code points below 128: the digits 0 to
    9.  (Python also counts the decimal digits of other scripts.) *)
Definition isdigit (c : ascii) : bool := in_range 48 57 c.
Definition isupper (c : ascii) : bool := in_range 65 90 c.
Definition islower (c : ascii) : bool := in_range 97 122 c.

(** The class [\w] of [re] on code points below 128: letters, digits
    and the underscore.  (Python also counts the letters and digits of
    other scripts.) *)
Definition isword (c : ascii) : bool :=
  isdigit c || isupper c || islower c || (code c =? 95)%N.

Definition upper_char (c : ascii) : ascii :=
  if islower c then ascii_of_N (code c - 32) else c.

Fixpoint upper (s : string) : string :=
  match s with
  | EmptyString => EmptyString
  | String c s' => String (upper_char c) (upper s')
  end.

Fixpoint lstrip (s : string) : string :=
  match s with
  | EmptyString => EmptyString
  | String c s' => if isspace c then lstrip s' else s
  end.

Definition rstrip (s : string) : string :=
  String.rev (lstrip (String.rev s)).

(** [s.strip()] *)
Definition strip (s : string) : string := rstrip (lstrip s).

Fixpoint take (n : nat) (s : string) : string :=
  match n, s with
  | S n', String c s' => String c (take n' s')
  | _, _ => EmptyString
  end.

(** [s.startswith(p)] *)
Fixpoint startswith (p s : string) : bool :=
  match p, s with
  | EmptyString, _ => true
  | String a p', String b s' => if ascii_dec a b then startswith p' s' else false
  | String _ _, EmptyString => false
  end.

(** [p in s] *)
Fixpoint contains (p s : string) : bool :=
  startswith p s ||
  match s with
  | EmptyString => false
  | String _ s' => contains p s'
  end.

(** One left-to-right pass of [s.replace(old, "")] for a non-empty
    [old]: [skip] counts the characters of the occurrence being
    dropped. *)
Fixpoint remove_go (old : string) (skip : nat) (s : string) : string :=
  match s with
  | EmptyString => EmptyString
  | String c s' =>
      match skip with
      | S k => remove_go old k s'
      | O =>
          if startswith old s
          then remove_go old (Nat.pred (String.length old)) s'
          else String c (remove_go old O s')
      end
  end.

(** [s.replace(old, "")]; replacing the empty string by the empty
    string leaves [s] as it is. *)
Definition remove (old s : string) : string :=
  match old with
  | EmptyString => s
  | String _ _ => remove_go old O s
  end.

(** [sep.join(l)] *)
Fixpoint join (sep : string) (l : list string) : string :=
  match l with
  | [] => ""
  | [x] => x
  | x :: l' => x +:+ sep +:+ join sep l'
  end.

Definition nl : string := String (ascii_of_N 10) EmptyString.

(** Text of code points below 128 only.  On such text the tables above
    are those of Python, and a character is a byte, so that [len] is
    [String.length]. *)
Fixpoint ascii_text (s : string) : bool :=
  match s with
  | EmptyString => true
  | String c s' => (code c <? 128)%N && ascii_text s'
  end.


End PyStr.

(** ** The two regular expressions of the agent

    [re.search] scans start positions from the left and, at each one,
    runs a backtracking matcher that prefers the longest repetition.
    A matcher is written in continuation style: it gets the character
    before the current position (for [\b]) and the rest of the input,
    and answers the input left after the match. *)

Module Re.

Definition matcher := option ascii -> string -> option string.

Definition accept : matcher := fun _ s => Some s.

(** one character of a class *)
Definition chr (p : ascii -> bool) (k : matcher) : matcher :=
  fun _ s =>
    match s with
    | String c s' => if p c then k (Some c) s' else None
    | EmptyString => None
    end.

(** [p?], greedy *)
Definition opt (p : ascii -> bool) (k : matcher) : matcher :=
  fun prev s =>
    match chr p k prev s with
    | Some r => Some r
    | None => k prev s
    end.

(** [p+], greedy: the longer repetition is tried first *)
Fixpoint plus (p : ascii -> bool) (k : matcher) (prev : option ascii)
    (s : string) : option string :=
  match s with
  | String c s' =>
      if p c then
        match plus p k (Some c) s' with
        | Some r => Some r
        | None => k (Some c) s'
        end
      else None
  | EmptyString => None
  end.

Definition isword_opt (o : option ascii) : bool :=
  match o with Some c => PyStr.isword c | None => false end.

Definition head (s : string) : option ascii :=
  match s with String c _ => Some c | EmptyString => None end.

(** [\b] *)
Definition wordb (k : matcher) : matcher :=
  fun prev s =>
    if xorb (isword_opt prev) (isword_opt (head s)) then k prev s else None.

Definition lit (c : ascii) (x : ascii) : bool := bool_decide (x = c).

(** a letter under [re.IGNORECASE] *)
Definition is_ci (c : ascii) (x : ascii) : bool :=
  bool_decide (PyStr.upper_char x = PyStr.upper_char c).

(** [re.search]: position and text of the leftmost match *)
Fixpoint search_from (m : matcher) (prev : option ascii) (s : string)
    : option (nat * string) :=
  match m prev s with
  | Some rest => Some (O, PyStr.take (String.length s - String.length rest) s)
  | None =>
      match s with
      | EmptyString => None
      | String c s' =>
          match search_from m (Some c) s' with
          | Some (i, t) => Some (S i, t)
          | None => None
          end
      end
  end.

Definition search (m : matcher) (s : string) : option string :=
  snd <$> search_from m None s.

(** [[\w\.-]] *)
Definition mailchar (c : ascii) : bool :=
  PyStr.isword c || lit "."%char c || lit "-"%char c.

(** [r'[\w\.-]+@[\w\.-]+\.\w+'] *)
Definition EMAIL : matcher :=
  plus mailchar (chr (lit "@"%char)
    (plus mailchar (chr (lit "."%char) (plus PyStr.isword accept)))).

(** [r'\bXRD\d{4,6}\b'] with [re.IGNORECASE] *)
Definition ORDER_ID : matcher :=
  let d := chr PyStr.isdigit in
  wordb (chr (is_ci "X"%char) (chr (is_ci "R"%char) (chr (is_ci "D"%char)
    (d (d (d (d (opt PyStr.isdigit (opt PyStr.isdigit (wordb accept))))))))))
  .

End Re.

(** ** Data model *)

(** Values of a JSON object returned by the vision service. *)
Inductive json :=
  | JNull
  | JBool (b : bool)
  | JNum (z : Z)
  | JStr (s : string).

(** [str(v)], as an f-string renders a value. *)
Definition py_str (v : json) : string :=
  match v with
  | JNull => "None"
  | JBool true => "True"
  | JBool false => "False"
  | JNum z => pretty z
  | JStr s => s
  end.

(** [f"{x}"] for an [Optional[str]] *)
Definition fmt_opt (o : option string) : string := default "None" o.

(** [data/orders.json] *)
Record Item := { name : string; quantity : Z; price : Z }.
Record Order := { items : list Item; total_amount : Z }.

(** [{"role": role, "content": content}] *)
Record Entry := { role : string; content : string }.

(** An entry of [refunds.json]. *)
Record RefundLedgerEntry := {
  l_session_id : string;
  l_order_id : option string;
  l_status : string;
  l_email : option string
}.

(** [class AgentState(TypedDict)] *)
Record AgentState := {
  session_id : string;
  user_message : string;
  sentiment_score : Z;
  intent : string;
  language : string;
  order_id : option string;
  complaint : option string;
  image_path : option string;
  image_verdict : option (gmap string json);
  refund_status : string;
  email : option string;
  current_node : string;
  response_message : string;
  needs_input : bool;
  conversation_history : list Entry
}.

(** Item assignment [state[k] = v], one function per key. *)
Definition set_user_message v s := {|
  session_id := session_id s; user_message := v; sentiment_score := sentiment_score s;
  intent := intent s; language := language s; order_id := order_id s;
  complaint := complaint s; image_path := image_path s; image_verdict := image_verdict s;
  refund_status := refund_status s; email := email s; current_node := current_node s;
  response_message := response_message s; needs_input := needs_input s;
  conversation_history := conversation_history s |}.
Definition set_sentiment_score v s := {|
  session_id := session_id s; user_message := user_message s; sentiment_score := v;
  intent := intent s; language := language s; order_id := order_id s;
  complaint := complaint s; image_path := image_path s; image_verdict := image_verdict s;
  refund_status := refund_status s; email := email s; current_node := current_node s;
  response_message := response_message s; needs_input := needs_input s;
  conversation_history := conversation_history s |}.
Definition set_intent v s := {|
  session_id := session_id s; user_message := user_message s; sentiment_score := sentiment_score s;
  intent := v; language := language s; order_id := order_id s;
  complaint := complaint s; image_path := image_path s; image_verdict := image_verdict s;
  refund_status := refund_status s; email := email s; current_node := current_node s;
  response_message := response_message s; needs_input := needs_input s;
  conversation_history := conversation_history s |}.
Definition set_language v s := {|
  session_id := session_id s; user_message := user_message s; sentiment_score := sentiment_score s;
  intent := intent s; language := v; order_id := order_id s;
  complaint := complaint s; image_path := image_path s; image_verdict := image_verdict s;
  refund_status := refund_status s; email := email s; current_node := current_node s;
  response_message := response_message s; needs_input := needs_input s;
  conversation_history := conversation_history s |}.
Definition set_order_id v s := {|
  session_id := session_id s; user_message := user_message s; sentiment_score := sentiment_score s;
  intent := intent s; language := language s; order_id := v;
  complaint := complaint s; image_path := image_path s; image_verdict := image_verdict s;
  refund_status := refund_status s; email := email s; current_node := current_node s;
  response_message := response_message s; needs_input := needs_input s;
  conversation_history := conversation_history s |}.
Definition set_complaint v s := {|
  session_id := session_id s; user_message := user_message s; sentiment_score := sentiment_score s;
  intent := intent s; language := language s; order_id := order_id s;
  complaint := v; image_path := image_path s; image_verdict := image_verdict s;
  refund_status := refund_status s; email := email s; current_node := current_node s;
  response_message := response_message s; needs_input := needs_input s;
  conversation_history := conversation_history s |}.
Definition set_image_path v s := {|
  session_id := session_id s; user_message := user_message s; sentiment_score := sentiment_score s;
  intent := intent s; language := language s; order_id := order_id s;
  complaint := complaint s; image_path := v; image_verdict := image_verdict s;
  refund_status := refund_status s; email := email s; current_node := current_node s;
  response_message := response_message s; needs_input := needs_input s;
  conversation_history := conversation_history s |}.
Definition set_image_verdict v s := {|
  session_id := session_id s; user_message := user_message s; sentiment_score := sentiment_score s;
  intent := intent s; language := language s; order_id := order_id s;
  complaint := complaint s; image_path := image_path s; image_verdict := v;
  refund_status := refund_status s; email := email s; current_node := current_node s;
  response_message := response_message s; needs_input := needs_input s;
  conversation_history := conversation_history s |}.
Definition set_refund_status v s := {|
  session_id := session_id s; user_message := user_message s; sentiment_score := sentiment_score s;
  intent := intent s; language := language s; order_id := order_id s;
  complaint := complaint s; image_path := image_path s; image_verdict := image_verdict s;
  refund_status := v; email := email s; current_node := current_node s;
  response_message := response_message s; needs_input := needs_input s;
  conversation_history := conversation_history s |}.
Definition set_email v s := {|
  session_id := session_id s; user_message := user_message s; sentiment_score := sentiment_score s;
  intent := intent s; language := language s; order_id := order_id s;
  complaint := complaint s; image_path := image_path s; image_verdict := image_verdict s;
  refund_status := refund_status s; email := v; current_node := current_node s;
  response_message := response_message s; needs_input := needs_input s;
  conversation_history := conversation_history s |}.
Definition set_current_node v s := {|
  session_id := session_id s; user_message := user_message s; sentiment_score := sentiment_score s;
  intent := intent s; language := language s; order_id := order_id s;
  complaint := complaint s; image_path := image_path s; image_verdict := image_verdict s;
  refund_status := refund_status s; email := email s; current_node := v;
  response_message := response_message s; needs_input := needs_input s;
  conversation_history := conversation_history s |}.
Definition set_response_message v s := {|
  session_id := session_id s; user_message := user_message s; sentiment_score := sentiment_score s;
  intent := intent s; language := language s; order_id := order_id s;
  complaint := complaint s; image_path := image_path s; image_verdict := image_verdict s;
  refund_status := refund_status s; email := email s; current_node := current_node s;
  response_message := v; needs_input := needs_input s;
  conversation_history := conversation_history s |}.
Definition set_needs_input v s := {|
  session_id := session_id s; user_message := user_message s; sentiment_score := sentiment_score s;
  intent := intent s; language := language s; order_id := order_id s;
  complaint := complaint s; image_path := image_path s; image_verdict := image_verdict s;
  refund_status := refund_status s; email := email s; current_node := current_node s;
  response_message := response_message s; needs_input := v;
  conversation_history := conversation_history s |}.
Definition set_conversation_history v s := {|
  session_id := session_id s; user_message := user_message s; sentiment_score := sentiment_score s;
  intent := intent s; language := language s; order_id := order_id s;
  complaint := complaint s; image_path := image_path s; image_verdict := image_verdict s;
  refund_status := refund_status s; email := email s; current_node := current_node s;
  response_message := response_message s; needs_input := needs_input s;
  conversation_history := v |}.

(** Python truthiness of an [Optional[str]]: [None] and [""] are false. *)
Definition truthy (o : option string) : bool :=
  match o with
  | Some s => negb (bool_decide (s = ""))
  | None => false
  end.

(** Truthiness of an [Optional[dict]]: [None] and [{}] are false. *)
Definition truthy_dict (o : option (gmap string json)) : bool :=
  match o with
  | Some d => negb (bool_decide (d = ∅))
  | None => false
  end.

(** ** Collaborators and the world *)

(** What [SentimentIntentAnalyzer.analyze] returns. *)
Record Analysis := { a_intent : string; a_sentiment_score : Z; a_language : string }.

(** The external services, as one walk sees them: the text classifier,
    the vision verifier and the receipt renderer (whose text carries a
    fresh transaction id and the time). *)
Record Collaborators := {
  analyze : string -> Analysis;
  analyze_product_image : option string -> string -> gmap string json;
  render_receipt : option Order -> gmap string json -> string
}.

Inductive Node := intent_reviewer | collector | image_analyzer | decision | finalizer.

(** A call [send_receipt(recipient, body, order_id)] of the mail service,
    with its arguments in the order of the call. *)
Record Mail := { recipient : option string; body : string; order_ref : string }.

(** What reading [refunds.json] gives: [open] or [json.load] raises,
    for a file that is missing, cannot be read or does not hold JSON
    ([NoLedger]); [json.load] returns a list
    ([Ledger], the only thing the agent itself writes; the rows are read
    as ledger entries); or it returns a JSON value of another type, an
    object, a string, a number or [null] ([NotAList]). *)
Inductive LedgerFile :=
  | NoLedger
  | Ledger (l : list RefundLedgerEntry)
  | NotAList.

(** The rows a ledger file holds. *)
Definition rows (f : LedgerFile) : list RefundLedgerEntry :=
  match f with
  | Ledger l => l
  | NoLedger | NotAList => []
  end.

(** [refunds.json] and whether [open('refunds.json', 'w')] succeeds,
    the paths under [uploads/] at which [open(path, 'wb')] succeeds, the
    mails handed to the mail service, the calls made to the vision
    service, and the nodes the engine has run. *)
Record World := {
  refunds_json : LedgerFile;
  ledger_writable : bool;
  upload_writable : string -> bool;
  outbox : list Mail;
  vision_calls : list (option string * string);
  visited : list Node
}.

Inductive exn := AttributeError | KeyError | OSError | GraphRecursionError.

Inductive outcome (A : Type) :=
  | Ok (a : A) (w : World)
  | Raise (e : exn) (w : World).
Arguments Ok {A} a w.
Arguments Raise {A} e w.

Definition M (A : Type) := World -> outcome A.

Definition ret {A} (a : A) : M A := fun w => Ok a w.
Definition raise {A} (e : exn) : M A := fun w => Raise e w.
Definition bind {A B} (m : M A) (f : A -> M B) : M B :=
  fun w => match m w with
           | Ok a w' => f a w'
           | Raise e w' => Raise e w'
           end.

Notation "'do' x <- m ; k" := (bind m (fun x => k))
  (at level 10, x name, m at level 100, k at level 200).
Notation "'do_' m ; k" := (bind m (fun _ => k))
  (at level 10, m at level 100, k at level 200).

Definition log_vision (p : option string) (ctx : string) : M unit :=
  fun w => Ok tt {| refunds_json := refunds_json w;
                    ledger_writable := ledger_writable w;
                    upload_writable := upload_writable w; outbox := outbox w;
                    vision_calls := vision_calls w ++ [(p, ctx)];
                    visited := visited w |}.

Definition send_receipt (to : option string) (arg2 arg3 : string) : M unit :=
  fun w => Ok tt {| refunds_json := refunds_json w;
                    ledger_writable := ledger_writable w;
                    upload_writable := upload_writable w;
                    outbox := outbox w ++ [{| recipient := to; body := arg2; order_ref := arg3 |}];
                    vision_calls := vision_calls w; visited := visited w |}.

(** [try: refunds = json.load(f) / except: refunds = []]: the value
    bound to [refunds] is the list in the file, the empty list when
    [json.load] raised, and otherwise a value that is no list ([None]). *)
Definition read_refunds : M (option (list RefundLedgerEntry)) :=
  fun w => Ok match refunds_json w with
              | NoLedger => Some []
              | Ledger l => Some l
              | NotAList => None
              end w.

(** [with open('refunds.json', 'w') as f: json.dump(refunds, f)] *)
Definition write_refunds (l : list RefundLedgerEntry) : M unit :=
  fun w => if ledger_writable w
           then Ok tt {| refunds_json := Ledger l; ledger_writable := true;
                         upload_writable := upload_writable w; outbox := outbox w; vision_calls := vision_calls w;
                         visited := visited w |}
           else Raise OSError w.

Definition visit (n : Node) (w : World) : World :=
  {| refunds_json := refunds_json w; ledger_writable := ledger_writable w;
     upload_writable := upload_writable w; outbox := outbox w;
     vision_calls := vision_calls w; visited := visited w ++ [n] |}.

(** The ledger can be appended to: what the file holds is a list, or
    is taken for the empty list, and the file can be written. *)
Definition appendable (w : World) : Prop :=
  refunds_json w <> NotAList /\ ledger_writable w = true.

Definition log_node (n : Node) : M unit := fun w => Ok tt (visit n w).

Global Instance json_eq_dec : EqDecision json.
Proof. solve_decision. Defined.

(** ** The agent: [class RefundAgent] *)

Section RefundAgent.

(** [self.orders_db] and the services the agent holds. *)
Variable orders_db : gmap string Order.
Variable svc : Collaborators.

Definition _update_history (r c : string) : list Entry :=
  [{| role := r; content := c |}].

Definition _is_valid_email (text : option string) : bool :=
  if negb (truthy text) then false
  else bool_decide (is_Some (Re.search Re.EMAIL (default "" text))).

(** The three assignments every re-prompt makes:
    [response_message], a one-entry [conversation_history] and
    [needs_input = True]. *)
Definition reply (msg : string) (state : AgentState) : AgentState :=
  set_needs_input true
    (set_conversation_history (_update_history "assistant" msg)
       (set_response_message msg state)).

(** *** Node 1: intent *)

Definition PROMPT_EMAIL : string := "Please provide a valid email address.".
Definition PROMPT_GENERAL : string :=
  "I can help with refunds or complaints. Do you have an Order ID?".

(** The branch "Email Capture (Only if Approved)": [Some] is the state
    the node returns from inside it, [None] falls through. *)
Definition email_capture (user_msg : string) (state : AgentState)
    : option AgentState :=
  if bool_decide (refund_status state = "approved") then
    match Re.search Re.EMAIL user_msg with
    | Some m => Some (set_intent "finalize_flow" (set_email (Some m) state))
    | None =>
        if negb (truthy (email state)) then Some (reply PROMPT_EMAIL state)
        else None
    end
  else None.

(** "Check Flow Continuity" *)
Definition mid_collection (state : AgentState) : bool :=
  bool_decide (intent state ∈ ["refund"; "quality_complaint"])
  && bool_decide (refund_status state = "").

Definition intent_reviewer_node (state : AgentState) : M AgentState :=
  let state := set_current_node "intent_reviewer" state in
  let user_msg := PyStr.strip (user_message state) in
  let state := set_conversation_history (_update_history "user" user_msg) state in
  match email_capture user_msg state with
  | Some returned => ret returned
  | None =>
      if mid_collection state then ret (set_needs_input false state)
      else
        let analysis := analyze svc user_msg in
        let state :=
          set_language (a_language analysis)
            (set_intent (a_intent analysis)
               (set_sentiment_score (a_sentiment_score analysis) state)) in
        if bool_decide (a_intent analysis = "general") then
          ret (set_needs_input false
                 (set_conversation_history (_update_history "assistant" PROMPT_GENERAL)
                    (set_response_message PROMPT_GENERAL state)))
        else ret (set_needs_input true state)
  end.

Definition route_after_intent (state : AgentState) : string :=
  if bool_decide (intent state = "finalize_flow") then "finalize"
  else if bool_decide (intent state = "general") then "general"
  else "continue".

(** *** Node 2: collector *)

Definition PROMPT_ORDER_ID : string := "Please provide your Order ID (e.g., XRD12345).".
Definition PROMPT_ISSUE : string := "What is the issue with this order?".
Definition PROMPT_IMAGE : string := "Please upload an image of the received items.".
Definition not_found_message (oid : string) : string :=
  "Order '" +:+ oid +:+ "' not found in database.".

(** Step 1 of the collector: [state["order_id"]] after the scan of the
    message for an identifier. *)
Definition bind_order_id (state : AgentState) : AgentState :=
  match Re.search Re.ORDER_ID (user_message state) with
  | Some m => set_order_id (Some (PyStr.upper m)) state
  | None => state
  end.

(** Step 3, once an order and a complaint are there. *)
Definition collect_image (state : AgentState) : AgentState :=
  if negb (truthy (image_path state)) then reply PROMPT_IMAGE state
  else set_response_message "Analyzing..." (set_needs_input false state).

Definition collector_node (state : AgentState) : M AgentState :=
  let state := set_current_node "collector" state in
  let user_msg := user_message state in
  let state := bind_order_id state in
  match order_id state with
  | Some oid =>
      if bool_decide (oid = "") then ret (reply PROMPT_ORDER_ID state)
      else
        match orders_db !! oid with
        | None =>
            ret (set_needs_input true
                   (set_order_id None
                      (set_conversation_history
                         (_update_history "assistant" (not_found_message oid))
                         (set_response_message (not_found_message oid) state))))
        | Some _ =>
            if negb (truthy (complaint state)) then
              let clean_msg := PyStr.strip (PyStr.remove oid user_msg) in
              (* [len(clean_msg) > 10]: characters are bytes on ASCII text *)
              if (10 <? String.length clean_msg)%nat then
                ret (collect_image (set_complaint (Some clean_msg) state))
              else ret (reply PROMPT_ISSUE state)
            else ret (collect_image state)
        end
  | None => ret (reply PROMPT_ORDER_ID state)
  end.

Definition route_after_collector (state : AgentState) : string :=
  if needs_input state then "need_input" else "ready".

(** *** Node 3: vision *)

Definition item_line (i : Item) : string := pretty (quantity i) +:+ "x " +:+ name i.

Definition vision_context (order : Order) (state : AgentState) : string :=
  "Order ID: " +:+ fmt_opt (order_id state) +:+ PyStr.nl
  +:+ "Expected Items: " +:+ PyStr.join ", " (item_line <$> items order) +:+ PyStr.nl
  +:+ "User Complaint: '" +:+ fmt_opt (complaint state) +:+ "'".

Definition image_analyzer_node (state : AgentState) : M AgentState :=
  if truthy_dict (image_verdict state) then ret state
  else
    let state := set_current_node "image_analyzer" state in
    match order_id state ≫= (orders_db !!.) with
    | None => raise KeyError
    | Some order =>
        let ctx := vision_context order state in
        do_ log_vision (image_path state) ctx;
        let verdict := analyze_product_image svc (image_path state) ctx in
        ret (set_image_verdict (Some verdict) state)
    end.

(** *** Node 4: decision *)

Definition MSG_APPROVED_SENDING : string := "Refund approved. Sending receipt...".
Definition MSG_APPROVED_ASK_EMAIL : string :=
  "✅ Refund Approved! Please provide your email address for the receipt.".
Definition denial_message (verdict : gmap string json) : string :=
  "❌ Refund Denied. Analysis: "
  +:+ py_str (default (JStr "Product acceptable") (verdict !! "description")) +:+ ".".

Definition decision_node (state : AgentState) : M AgentState :=
  let state := set_current_node "decision" state in
  match image_verdict state with
  | None => raise AttributeError
  | Some verdict =>
      if bool_decide (verdict !! "status" = Some (JStr "defective")) then
        let state := set_refund_status "approved" state in
        if truthy (email state) && _is_valid_email (email state) then
          ret (set_needs_input false (set_response_message MSG_APPROVED_SENDING state))
        else ret (reply MSG_APPROVED_ASK_EMAIL state)
      else
        let state := set_refund_status "denied" state in
        ret (set_needs_input false
               (set_conversation_history
                  (_update_history "assistant" (denial_message verdict))
                  (set_response_message (denial_message verdict) state)))
  end.

Definition route_after_decision (state : AgentState) : string :=
  if bool_decide (refund_status state = "approved") && negb (truthy (email state))
  then "ask_email" else "finalize".

(** *** Node 5: finalizer *)

Definition PROMPT_EMAIL_AGAIN : string := "I still need a valid email address.".

Definition ledger_entry (state : AgentState) : RefundLedgerEntry :=
  {| l_session_id := session_id state; l_order_id := order_id state;
     l_status := refund_status state; l_email := email state |}.

(** "Log Transaction": read the file, append, write it back.  Only the
    read is inside the [try]: [refunds.append] on a value that is no
    list raises [AttributeError], before the file is opened for
    writing, and a file that cannot be opened for writing raises
    [OSError]. *)
Definition log_transaction (state : AgentState) : M AgentState :=
  do refunds <- read_refunds;
  match refunds with
  | None => raise AttributeError
  | Some refunds =>
      do_ write_refunds (refunds ++ [ledger_entry state]);
      ret (set_needs_input false state)
  end.

Definition finalizer_node (state : AgentState) : M AgentState :=
  if bool_decide (refund_status state = "approved") then
    if negb (_is_valid_email (email state)) then ret (reply PROMPT_EMAIL_AGAIN state)
    else
      let order_data := order_id state ≫= (orders_db !!.) in
      match image_verdict state with
      | None => raise AttributeError
      | Some verdict =>
          let receipt_body := render_receipt svc order_data verdict in
          do_ send_receipt (email state)
                ("Refund: " +:+ fmt_opt (order_id state)) receipt_body;
          let msg := "Success! Receipt sent to " +:+ fmt_opt (email state) +:+ "." in
          log_transaction
            (set_conversation_history (_update_history "assistant" msg)
               (set_response_message msg state))
      end
  else log_transaction state.

(** *** The graph and its engine *)

Definition node_fn (n : Node) : AgentState -> M AgentState :=
  match n with
  | intent_reviewer => intent_reviewer_node
  | collector => collector_node
  | image_analyzer => image_analyzer_node
  | decision => decision_node
  | finalizer => finalizer_node
  end.

(** [None] is [END]. *)
Definition pick (route : string) (targets : list (string * option Node))
    : exn + option Node :=
  match list_find (fun kv => fst kv = route) targets with
  | Some (_, (_, target)) => inr target
  | None => inl KeyError
  end.

(** The edges declared by [_build_graph]. *)
Definition next_node (n : Node) (state : AgentState) : exn + option Node :=
  match n with
  | intent_reviewer =>
      pick (route_after_intent state)
        [("general", None); ("continue", Some collector); ("finalize", Some finalizer)]
  | collector =>
      pick (route_after_collector state)
        [("need_input", None); ("ready", Some image_analyzer)]
  | image_analyzer => inr (Some decision)
  | decision =>
      pick (route_after_decision state)
        [("ask_email", None); ("finalize", Some finalizer)]
  | finalizer => inr None
  end.

(** The engine writes what a node returns into the channels: the
    reducer [operator.add] of [conversation_history] appends it to the
    channel's value, every other key takes the returned value. *)
Definition apply_writes (chan returned : AgentState) : AgentState :=
  set_conversation_history
    (conversation_history chan ++ conversation_history returned) returned.

(** One step per node; the engine gives up after [fuel] steps. *)
Fixpoint run (fuel : nat) (n : Node) (chan : AgentState) : M AgentState :=
  match fuel with
  | O => raise GraphRecursionError
  | S fuel' =>
      do_ log_node n;
      do returned <- node_fn n chan;
      let chan := apply_writes chan returned in
      match next_node n chan with
      | inl e => raise e
      | inr None => ret chan
      | inr (Some n') => run fuel' n' chan
      end
  end.

Definition recursion_limit : nat := 25.

(** [self.graph.invoke(state)]: the input is written into empty
    channels, then the walk starts at the entry point. *)
Definition invoke (input : AgentState) : M AgentState :=
  run recursion_limit intent_reviewer
    (set_conversation_history ([] ++ conversation_history input) input).

End RefundAgent.

(** ** The transport: [Try/main.py] *)

(** An uploaded file: the eight hex digits the server draws for its
    name, and the client's file name. *)
Record Upload := { uuid_hex8 : string; filename : string }.

(** The form of [POST /chat]. *)
Record Form := {
  f_session_id : string;
  f_message : option string;
  f_image : option Upload;
  f_email : option string
}.

Definition initialize_session (sid : string) : AgentState := {|
  session_id := sid; user_message := ""; sentiment_score := 5; intent := "";
  language := "en"; order_id := None; complaint := None; image_path := None;
  image_verdict := None; refund_status := ""; email := None; current_node := "";
  response_message := ""; needs_input := true; conversation_history := [] |}.

(** "Update ONLY the new user message": the message, an order
    identifier found in it, the email field and the stored upload. *)
Definition merge_message (message : option string) (state : AgentState) : AgentState :=
  if truthy message then
    let message := default "" message in
    let state := set_user_message (PyStr.strip message) state in
    match Re.search Re.ORDER_ID message with
    | Some m =>
        let detected_id := PyStr.upper m in
        if negb (truthy (order_id state)) then set_order_id (Some detected_id) state
        else if bool_decide (order_id state ≠ Some detected_id)
             then set_order_id (Some detected_id) state
             else state
    | None => state
    end
  else state.

Definition merge_email (e : option string) (state : AgentState) : AgentState :=
  if truthy e then set_email (Some (PyStr.strip (default "" e))) state else state.

Definition upload_path (sid : string) (u : Upload) : string :=
  "uploads/" +:+ sid +:+ "_" +:+ uuid_hex8 u +:+ "_" +:+ filename u.

Definition merge_image (sid : string) (u : option Upload) (state : AgentState) : AgentState :=
  match u with
  | Some u => set_image_path (Some (upload_path sid u)) state
  | None => state
  end.

Definition merge_form (form : Form) (state : AgentState) : AgentState :=
  merge_image (f_session_id form) (f_image form)
    (merge_email (f_email form) (merge_message (f_message form) state)).

(** The process: the session dictionary and the world outside. *)
Record Server := { sessions : gmap string AgentState; world : World }.

(** [with open(image_path, "wb") as f: f.write(content)], for a request
    that carries an image. *)
Definition save_upload (form : Form) : M unit :=
  match f_image form with
  | Some u =>
      fun w => if upload_writable w (upload_path (f_session_id form) u)
               then Ok tt w else Raise OSError w
  | None => ret tt
  end.

(** What [chat] does with the merged state: the upload is saved, then
    the graph is invoked. *)
Definition save_and_invoke (orders_db : gmap string Order) (svc : Collaborators)
    (form : Form) (state : AgentState) : M AgentState :=
  do_ save_upload form; invoke orders_db svc state.

(** [async def chat]: an upload that cannot be saved or a walk that
    raises answers HTTP 500 and leaves the stored session as it was. *)
Definition chat (orders_db : gmap string Order) (svc : Collaborators)
    (form : Form) (srv : Server) : Server * (exn + AgentState) :=
  let sid := f_session_id form in
  let sessions :=
    match sessions srv !! sid with
    | Some _ => sessions srv
    | None => <[sid := initialize_session sid]> (sessions srv)
    end in
  let state := merge_form form (default (initialize_session sid) (sessions !! sid)) in
  match save_and_invoke orders_db svc form state (world srv) with
  | Ok result w => ({| sessions := <[sid := result]> sessions; world := w |}, inr result)
  | Raise e w => ({| sessions := sessions; world := w |}, inl e)
  end.

(** A sequence of requests, each served with the answers the
    collaborators give at that time. *)
Fixpoint serve (orders_db : gmap string Order)
    (requests : list (Collaborators * Form)) (srv : Server) : Server :=
  match requests with
  | [] => srv
  | (svc, form) :: rest => serve orders_db rest (fst (chat orders_db svc form srv))
  end.

(** The session states the store can hold: a fresh session, and the
    result of a walk over a stored state merged with a request. *)
Inductive stored (orders_db : gmap string Order) : AgentState -> Prop :=
  | stored_fresh sid : stored orders_db (initialize_session sid)
  | stored_walk state svc form w state' w' :
      stored orders_db state ->
      invoke orders_db svc (merge_form form state) w = Ok state' w' ->
      stored orders_db state'.

(** The verdict agrees with the refund status whenever one is set. *)
Definition consistent (state : AgentState) : Prop :=
  (refund_status state = "approved" ->
     exists v, image_verdict state = Some v /\ v !! "status" = Some (JStr "defective"))
  /\ (refund_status state = "denied" ->
     exists v, image_verdict state = Some v /\ v !! "status" <> Some (JStr "defective"))
  /\ (refund_status state = "" \/ refund_status state = "approved"
      \/ refund_status state = "denied").

(** The distance of a node from the entry point. *)
Definition rank (n : Node) : nat :=
  match n with
  | intent_reviewer => 0
  | collector => 1
  | image_analyzer => 2
  | decision => 3
  | finalizer => 4
  end.

(** ** Sample catalogue and collaborators *)

Module Sample.

Definition db : gmap string Order :=
  {[ "XRD12345" := {| items := [{| name := "Gulab Jamun"; quantity := 10; price := 120 |}];
                      total_amount := 120 |} ]}.

Definition w0 : World :=
  {| refunds_json := NoLedger; ledger_writable := true;
     upload_writable := fun _ => true; outbox := [];
     vision_calls := []; visited := [] |}.

Definition classify (i : string) : string -> Analysis :=
  fun _ => {| a_intent := i; a_sentiment_score := 5; a_language := "en" |}.

Definition svc (i : string) (verdict : gmap string json) : Collaborators :=
  {| analyze := classify i;
     analyze_product_image := fun _ _ => verdict;
     render_receipt := fun _ _ => "receipt" |}.

Definition defective : gmap string json :=
  {[ "status" := JStr "defective"; "description" := JStr "crushed box" ]}.
Definition acceptable : gmap string json :=
  {[ "status" := JStr "acceptable" ]}.

Definition form (m : string) : Form :=
  {| f_session_id := "s1"; f_message := Some m; f_image := None; f_email := None |}.
Definition form_img (m : string) : Form :=
  {| f_session_id := "s1"; f_message := Some m;
     f_image := Some {| uuid_hex8 := "0a1b2c3d"; filename := "box.jpg" |};
     f_email := None |}.

End Sample.


(** What holds of the channels after a step, given where the router
    sends the walk: [Q] at END, the precondition [J] of the next node
    otherwise. *)
Definition after_step (J : Node -> AgentState -> Prop) (Q : AgentState -> Prop)
    (n : Node) (chan : AgentState) : Prop :=
  match next_node n chan with
  | inr None => Q chan
  | inr (Some n') => J n' chan
  | inl _ => False
  end.

(** What each node needs on entry for the walk to end in a state whose
    verdict and status agree. *)
Definition entry_condition (orders_db : gmap string Order) (n : Node)
    (chan : AgentState) : Prop :=
  match n with
  | intent_reviewer | collector | finalizer => consistent chan
  | image_analyzer =>
      truthy_dict (image_verdict chan) = true
      \/ is_Some (order_id chan ≫= (orders_db !!.))
  | decision => is_Some (image_verdict chan)
  end.

(** A decided claim: status [r] with the non-empty verdict [v] that
    dictates it. *)
Definition settled (r : string) (v : gmap string json) (state : AgentState) : Prop :=
  refund_status state = r /\ image_verdict state = Some v /\ v <> ∅
  /\ (v !! "status" = Some (JStr "defective") -> r = "approved")
  /\ (v !! "status" <> Some (JStr "defective") -> r = "denied").

(** ** Sample sessions *)

Module Trace.
Import Sample.

Definition state_of (o : outcome AgentState) : AgentState :=
  match o with Ok s _ => s | Raise _ _ => initialize_session "" end.
Definition world_of (o : outcome AgentState) : World :=
  match o with Ok _ w => w | Raise _ w => w end.
Definition returned (o : outcome AgentState) : bool :=
  match o with Ok _ _ => true | Raise _ _ => false end.

Definition empty_verdict : gmap string json := ∅.

(** One request does it all: order, complaint and photo. *)
Definition claim_form : Form := form_img "XRD12345 the box was crushed".

(** The vision service answers [{}]: the claim is denied. *)
Definition denied_walk : outcome AgentState :=
  invoke db (svc "refund" empty_verdict) (merge_form claim_form (initialize_session "s1")) w0.
Definition denied_empty : AgentState := state_of denied_walk.

(** The vision service answers "defective": approved, email wanted. *)
Definition approved_walk : outcome AgentState :=
  invoke db (svc "refund" defective) (merge_form claim_form (initialize_session "s1")) w0.
Definition approved_no_email : AgentState := state_of approved_walk.

(** The vision service answers "acceptable": denied and filed. *)
Definition rejected_walk : outcome AgentState :=
  invoke db (svc "refund" acceptable) (merge_form claim_form (initialize_session "s1")) w0.
Definition denied_acceptable : AgentState := state_of rejected_walk.

(** A first message that only names the order. *)
Definition order_only_walk : outcome AgentState :=
  invoke db (svc "refund" defective) (merge_form (form "XRD12345") (initialize_session "s1")) w0.
Definition order_only : AgentState := state_of order_only_walk.

(** The request after the denial on [{}]. *)
Definition flip_walk : outcome AgentState :=
  invoke db (svc "refund" defective) (merge_form (form "hello again") denied_empty) w0.

(** The request after the approval, with no email in it. *)
Definition reprompt_walk : outcome AgentState :=
  invoke db (svc "refund" defective) (merge_form (form "hello") approved_no_email) w0.

(** A greeting as the first message of a session. *)
Definition greeting_walk : outcome AgentState :=
  invoke db (svc "general" acceptable) (merge_form (form "hello") (initialize_session "s1")) w0.

(** The request after the approval, naming an order that is not in the
    catalogue. *)
Definition other_order_walk : outcome AgentState :=
  invoke db (svc "refund" defective)
    (merge_form (form "and my other order XRD99999?") approved_no_email) w0.

(** The complaint sent after the order was named. *)
Definition complaint_form : Form := form "XRD1XRD123452345 is broken and bad".
Definition complaint_walk : outcome AgentState :=
  invoke db (svc "refund" defective) (merge_form complaint_form order_only) w0.

(** A world whose [refunds.json] holds a JSON object, [{}]. *)
Definition w_object : World :=
  {| refunds_json := NotAList; ledger_writable := true;
     upload_writable := fun _ => true; outbox := [];
     vision_calls := []; visited := [] |}.

(** The denied claim of the sample, in that world. *)
Definition unfiled_denial : outcome AgentState :=
  invoke db (svc "refund" acceptable) (merge_form claim_form (initialize_session "s1"))
    w_object.

(** The address sent after the approval, in that world. *)
Definition unfiled_approval : outcome AgentState :=
  invoke db (svc "refund" defective)
    (merge_form (form "send it to a.b@mail.example.org please") approved_no_email) w_object.

End Trace.

(** ** The rest of the transport *)

(** The routes through the graph of [_build_graph], from the entry
    point to END. *)
Definition routes : list (list Node) :=
  [ [intent_reviewer];
    [intent_reviewer; finalizer];
    [intent_reviewer; collector];
    [intent_reviewer; collector; image_analyzer; decision];
    [intent_reviewer; collector; image_analyzer; decision; finalizer] ].

(** An answer of an endpoint: the body, or [HTTPException(404)]. *)
Inductive http (A : Type) :=
  | OK200 (body : A)
  | NotFound404.
Arguments OK200 {A} body.
Arguments NotFound404 {A}.

(** [GET /session/{session_id}] *)
Definition get_session (sid : string) (srv : Server) : http AgentState :=
  match sessions srv !! sid with
  | Some state => OK200 state
  | None => NotFound404
  end.

(** [DELETE /session/{session_id}] *)
Definition delete_session (sid : string) (srv : Server) : Server * http string :=
  match sessions srv !! sid with
  | Some _ => ({| sessions := delete sid (sessions srv); world := world srv |},
               OK200 "Session cleared")
  | None => (srv, NotFound404)
  end.

(** [GET /health]: the number of active sessions. *)
Definition health_check (srv : Server) : string * nat :=
  ("healthy", size (sessions srv)).

(** The process at start-up: no session, and the world as found. *)
Definition boot (w : World) : Server := {| sessions := ∅; world := w |}.

(** The nodes a walk has visited when it enters [n]. *)
Definition before (n : Node) : list (list Node) :=
  match n with
  | intent_reviewer => [ [] ]
  | collector => [ [intent_reviewer] ]
  | image_analyzer => [ [intent_reviewer; collector] ]
  | decision => [ [intent_reviewer; collector; image_analyzer] ]
  | finalizer => [ [intent_reviewer];
                   [intent_reviewer; collector; image_analyzer; decision] ]
  end.

(** What a walk has done to the ledger and the mail service when it
    ends in [state']: nothing, or one ledger entry describing [state']
    appended to a ledger that could be appended to, with one mail to the
    state's validated address exactly when the status is approved. *)
Definition filed (w : World) (state' : AgentState) (w' : World) : Prop :=
  appendable w
  /\ refunds_json w' = Ledger (rows (refunds_json w) ++ [ledger_entry state'])
  /\ needs_input state' = false
  /\ (refund_status state' <> "approved" /\ outbox w' = outbox w
      \/ refund_status state' = "approved"
         /\ _is_valid_email (email state') = true
         /\ exists m, outbox w' = (outbox w ++ [m])%list /\ recipient m = email state').

Definition untouched (w w' : World) : Prop :=
  refunds_json w' = refunds_json w /\ outbox w' = outbox w.

(** ** Properties of matchers *)

(** A matcher that succeeds on an input succeeds on every extension of
    it (nothing in it looks at what follows the match). *)
Definition extends (k : Re.matcher) : Prop :=
  forall prev m x r, k prev m = Some r -> is_Some (k prev (m +:+ x)).

(** A matcher that leaves [rest] has consumed a prefix which it matches
    whole when given alone. *)
Definition exact (k : Re.matcher) : Prop :=
  forall prev s rest, k prev s = Some rest ->
    exists m, s = m +:+ rest /\ k prev m = Some "".

Fixpoint all_digits (s : string) : bool :=
  match s with
  | EmptyString => true
  | String c s' => PyStr.isdigit c && all_digits s'
  end.

(** The text the order pattern matches: X, R, D in either case, then
    four to six digits. *)
Definition is_order_token (t : string) : bool :=
  match t with
  | String x (String r (String d ds)) =>
      Re.is_ci "X"%char x && Re.is_ci "R"%char r && Re.is_ci "D"%char d
      && all_digits ds && (4 <=? String.length ds)%nat && (String.length ds <=? 6)%nat
  | _ => false
  end.

(** An identifier as the agent stores it: XRD and four to six digits. *)
Definition well_formed_id (oid : string) : Prop :=
  exists ds, oid = "XRD" +:+ ds /\ all_digits ds = true
             /\ (4 <= String.length ds <= 6)%nat.

(** ** More of [str] *)

Module PyText.

(** [s[n:]] *)
Fixpoint drop (n : nat) (s : string) : string :=
  match n, s with
  | S n', String _ s' => drop n' s'
  | _, _ => s
  end.

(** [s[a:b]] for indices that are not negative *)
Definition slice (a b : nat) (s : string) : string := PyStr.take (b - a) (drop a s).

(** [s.find(p)], counted from [i]; [None] is -1 *)
Fixpoint find_from (p : string) (i : nat) (s : string) : option nat :=
  if PyStr.startswith p s then Some i
  else match s with
       | EmptyString => None
       | String _ s' => find_from p (S i) s'
       end.
Definition find (p s : string) : option nat := find_from p 0 s.

(** [s.rfind(p)], counted from [i]; [None] is -1 *)
Fixpoint rfind_from (p : string) (i : nat) (s : string) : option nat :=
  match s with
  | EmptyString => if PyStr.startswith p s then Some i else None
  | String _ s' =>
      match rfind_from p (S i) s' with
      | Some j => Some j
      | None => if PyStr.startswith p s then Some i else None
      end
  end.
Definition rfind (p s : string) : option nat := rfind_from p 0 s.

(** [s.endswith(p)] *)
Definition endswith (p s : string) : bool :=
  PyStr.startswith (String.rev p) (String.rev s).

(** The double quote. *)
Definition dq : string := String (ascii_of_N 34) EmptyString.

End PyText.

(** ** [Try/sentiment.py]: [SentimentIntentAnalyzer] *)

Module Sentiment.
Import PyText.

Definition sentiment_prompt (message : string) : string :=
  PyStr.join "" [
    "Analyze this customer message and extract key information:"; PyStr.nl; PyStr.nl;
    "Message: "; dq; message; dq; PyStr.nl; PyStr.nl;
    "Provide analysis in the following format (JSON only, no other text):"; PyStr.nl;
    PyStr.nl; "{"; PyStr.nl; "  "; dq; "intent"; dq; ": "; dq; "refund"; dq; " | "; dq;
    "quality_complaint"; dq; " | "; dq; "general"; dq; ","; PyStr.nl; "  "; dq;
    "sentiment_score"; dq; ": 0-10,"; PyStr.nl; "  "; dq; "language"; dq; ": "; dq; "en";
    dq; " | "; dq; "hi"; dq; PyStr.nl; "}"; PyStr.nl; PyStr.nl; "Intent Guidelines:";
    PyStr.nl; "- "; dq; "refund"; dq;
    ": Customer explicitly wants money back or mentions refund/return"; PyStr.nl; "- "; dq;
    "quality_complaint"; dq;
    ": Customer reports issues with food quality, damage, missing items, wrong order";
    PyStr.nl; "- "; dq; "general"; dq; ": Greetings, questions, or unclear intent";
    PyStr.nl; PyStr.nl; "Sentiment Scale:"; PyStr.nl;
    "- 0-3: Angry/Frustrated (harsh words, complaints, demanding tone)"; PyStr.nl;
    "- 4-6: Neutral (factual, calm reporting)"; PyStr.nl;
    "- 7-10: Happy/Satisfied (positive words, grateful tone)"; PyStr.nl; PyStr.nl;
    "Language:"; PyStr.nl; "- "; dq; "en"; dq; ": English"; PyStr.nl; "- "; dq; "hi"; dq;
    ": Hindi"; PyStr.nl; PyStr.nl; "Examples:"; PyStr.nl; dq; "I want my money back"; dq;
    " → {"; dq; "intent"; dq; ": "; dq; "refund"; dq; ", "; dq; "sentiment_score"; dq;
    ": 3, "; dq; "language"; dq; ": "; dq; "en"; dq; "}"; PyStr.nl; dq;
    "The pizza was burnt"; dq; " → {"; dq; "intent"; dq; ": "; dq; "quality_complaint"; dq;
    ", "; dq; "sentiment_score"; dq; ": 4, "; dq; "language"; dq; ": "; dq; "en"; dq; "}";
    PyStr.nl; dq; "Hello"; dq; " → {"; dq; "intent"; dq; ": "; dq; "general"; dq; ", "; dq;
    "sentiment_score"; dq; ": 6, "; dq; "language"; dq; ": "; dq; "en"; dq; "}"; PyStr.nl;
    dq; "Order XRD123 has missing items"; dq; " → {"; dq; "intent"; dq; ": "; dq;
    "quality_complaint"; dq; ", "; dq; "sentiment_score"; dq; ": 4, "; dq; "language"; dq;
    ": "; dq; "en"; dq; "}"; PyStr.nl; PyStr.nl; "Respond with ONLY the JSON object." ].

(** "Safe fallback" *)
Definition fallback : gmap string json :=
  {[ "intent" := JStr "general"; "sentiment_score" := JNum 5; "language" := JStr "en" ]}.

(** [if k not in result: result[k] = v] *)
Definition setdefault (k : string) (v : json) (result : gmap string json)
    : gmap string json :=
  match result !! k with
  | Some _ => result
  | None => <[k := v]> result
  end.

(** [max(0, min(10, x))]: a number is clamped, [True] is its own
    clamp and [False] gives the 0 it is compared with; on any other
    value the comparison raises [TypeError], which is [None] here. *)
Definition clamp (x : json) : option json :=
  match x with
  | JNum z => Some (JNum (Z.max 0 (Z.min 10 z)))
  | JBool true => Some (JBool true)
  | JBool false => Some (JNum 0)
  | JNull | JStr _ => None
  end.

Section Analyzer.

(** The chat completion for a prompt: the text of the first choice, or
    [None] when the call raises. *)
Variable complete : string -> option string.

(** [json.loads], on the texts [analyze] hands it (empty, or starting
    at a brace): the object, or [None] when it raises. *)
Variable json_loads : string -> option (gmap string json).

(** The text [analyze] cuts out of the answer for the parser. *)
Definition json_str (content : string) : string :=
  let start := default O (find "{" content) in
  let end_ := match rfind "}" content with Some j => S j | None => O end in
  slice start end_ content.

Definition analyze (message : string) : gmap string json :=
  match complete (sentiment_prompt message) with
  | None => fallback
  | Some content =>
      let content := PyStr.strip content in
      if PyStr.contains "{" content then
        match json_loads (json_str content) with
        | None => fallback
        | Some result =>
            let result := setdefault "intent" (JStr "general") result in
            let result := setdefault "sentiment_score" (JNum 5) result in
            let result := setdefault "language" (JStr "en") result in
            match result !! "sentiment_score" ≫= clamp with
            | Some score => <["sentiment_score" := score]> result
            | None => fallback
            end
        end
      else fallback
  end.

End Analyzer.

End Sentiment.

(** ** [Try/vision.py]: [VisionAnalyzer] *)

Module Vision.
Import PyText.

Definition vision_prompt (context : string) : string :=
  PyStr.join "" [
    "You are a strict Refund Auditor."; PyStr.nl; "=== CLAIM CONTEXT ==="; PyStr.nl;
    context; PyStr.nl; "====================="; PyStr.nl; PyStr.nl; "INSTRUCTIONS:";
    PyStr.nl;
    "1. IDENTITY CHECK: Is this image related to the claim? (Reject selfies/floors).";
    PyStr.nl; "2. DEFECT CHECK: Look for the SPECIFIC issue mentioned in context:";
    PyStr.nl; "   - 'Burnt/Damage': Look for charring or crushed packaging."; PyStr.nl;
    "   - 'Spilled': Look for liquids outside container."; PyStr.nl;
    "   - 'Wrong Item': Compare Image vs 'Order' details in context. If they are different, it is DEFECTIVE.";
    PyStr.nl;
    "   - 'Missing Items': Count visible items. If count < expected, it is DEFECTIVE.";
    PyStr.nl; PyStr.nl; "VERDICT RULES:"; PyStr.nl;
    "- 'defective': If there is PROOF of Damage, Spillage, Missing Items, OR Wrong Item sent.";
    PyStr.nl;
    "- 'acceptable': If the food matches the order description and looks edible (even if messy).";
    PyStr.nl; "- 'rejected': If the image is not food/irrelevant."; PyStr.nl; PyStr.nl;
    "Return ONLY JSON:"; PyStr.nl; "{"; dq; "status"; dq; ":"; dq; "defective"; dq; ", ";
    dq; "description"; dq; ":"; dq;
    "Image shows Pizza, but Order expected Gulab Jamun (Wrong Item)."; dq; "}"; PyStr.nl;
    "{"; dq; "status"; dq; ":"; dq; "acceptable"; dq; ", "; dq; "description"; dq; ":"; dq;
    "Food matches order and appears edible."; dq; "}" ].

Definition verdict (status description : string) : gmap string json :=
  {[ "status" := JStr status; "description" := JStr description ]}.

(** The length of the whitespace the input starts with. *)
Fixpoint spaces (s : string) : nat :=
  match s with
  | String c s' => if PyStr.isspace c then S (spaces s') else O
  | EmptyString => O
  end.

(** The length of what [r'```json\s*|\s*```'] matches at the start of
    the input, if it matches there: the opening fence with the
    whitespace after it, or else whitespace and a closing fence. *)
Definition fence (s : string) : option nat :=
  if PyStr.startswith "```json" s then Some (7 + spaces (drop 7 s))%nat
  else if PyStr.startswith "```" (drop (spaces s) s) then Some (spaces s + 3)%nat
  else None.

(** [re.sub(r'```json\s*|\s*```', '', s)]: one pass from the left;
    [skip] counts the characters of the match being dropped. *)
Fixpoint unfence_go (skip : nat) (s : string) : string :=
  match s with
  | EmptyString => EmptyString
  | String c s' =>
      match skip with
      | S k => unfence_go k s'
      | O =>
          match fence s with
          | Some n => unfence_go (Nat.pred n) s'
          | None => String c (unfence_go O s')
          end
      end
  end.
Definition unfence (s : string) : string := unfence_go O s.

Section Analyzer.

(** [_image_to_data_url]: the data URL of the image, [""] when the
    image cannot be read. *)
Variable image_to_data_url : option string -> string.

(** The request to the model with the prompt and the image: the content
    of the first choice, or [None] when anything raises. *)
Variable post : string -> string -> option string.

(** [json.loads], on the texts the analyzer hands it. *)
Variable json_loads : string -> option (gmap string json).

(** "ROBUST JSON PARSING": the text handed to the parser, [None] when
    the answer has no opening or no closing brace. *)
Definition json_str (raw_content : string) : option string :=
  let clean_content := PyStr.strip (unfence raw_content) in
  match find "{" clean_content, rfind "}" clean_content with
  | Some start, Some end_ => Some (slice start (S end_) clean_content)
  | _, _ => None
  end.

Definition analyze_product_image (image_path : option string) (context : string)
    : gmap string json :=
  let image_data_url := image_to_data_url image_path in
  if bool_decide (image_data_url = "") then verdict "acceptable" "Image upload failed"
  else
    match post (vision_prompt context) image_data_url with
    | None => verdict "acceptable" "Technical Verification Failed"
    | Some raw_content =>
        match json_str raw_content with
        | Some text =>
            match json_loads text with
            | Some parsed => parsed
            | None => verdict "acceptable" "Technical Verification Failed"
            end
        | None => verdict "acceptable" "AI Parse Error"
        end
    end.

End Analyzer.

End Vision.

(** Strings of whitespace, and strings without a given character. *)
Fixpoint all_space (s : string) : bool :=
  match s with
  | EmptyString => true
  | String c s' => PyStr.isspace c && all_space s'
  end.

Fixpoint lacks (a : ascii) (s : string) : bool :=
  match s with
  | EmptyString => true
  | String c s' => negb (bool_decide (c = a)) && lacks a s'
  end.

(** The ways the vision analysis ends in one of its own verdicts. *)
Definition vision_fails (image_to_data_url : option string -> string)
    (post : string -> string -> option string)
    (json_loads : string -> option (gmap string json))
    (image_path : option string) (context : string) : Prop :=
  image_to_data_url image_path = ""
  \/ post (Vision.vision_prompt context) (image_to_data_url image_path) = None
  \/ exists raw_content,
       post (Vision.vision_prompt context) (image_to_data_url image_path) = Some raw_content
       /\ (Vision.json_str raw_content = None
           \/ exists text, Vision.json_str raw_content = Some text /\ json_loads text = None).

(** The agent's collaborators with the vision analyzer of
    [Try/vision.py] in place. *)
Definition with_vision (image_to_data_url : option string -> string)
    (post : string -> string -> option string)
    (json_loads : string -> option (gmap string json))
    (svc : Collaborators) : Collaborators :=
  {| analyze := analyze svc;
     analyze_product_image := Vision.analyze_product_image image_to_data_url post json_loads;
     render_receipt := render_receipt svc |}.

(** ** Sample answers of the services *)

Module Demo.
Import Sample.

(** A session that has named its order and nothing else. *)
Definition named : AgentState := set_order_id (Some "XRD12345") (initialize_session "s1").

Definition crushed : Order :=
  {| items := [{| name := "Gulab Jamun"; quantity := 10; price := 120 |}];
     total_amount := 120 |}.

(** An image that cannot be read. *)
Definition no_image : option string -> string := fun _ => "".
Definition some_image : option string -> string := fun _ => "data:image/jpeg;base64,AAAA".

(** A model that answers an object in a Markdown fence, and a parser
    that reads it as the "defective" verdict. *)
Definition fenced : string := "```json" +:+ PyStr.nl +:+ "{x}" +:+ PyStr.nl +:+ "```".
Definition answers (raw : string) : string -> string -> option string := fun _ _ => Some raw.
Definition parses (d : gmap string json) : string -> option (gmap string json) :=
  fun text => if bool_decide (text = "{x}") then Some d else None.

Definition vision_walk : outcome AgentState :=
  run db (with_vision some_image (answers fenced) (parses defective) (svc "refund" acceptable))
    3 image_analyzer named w0.

(** A classifier that answers a score out of range and no language. *)
Definition loud : gmap string json :=
  {[ "intent" := JStr "refund"; "sentiment_score" := JNum 42 ]}.
Definition completes (content : string) : string -> option string := fun _ => Some content.
Definition fails : string -> option string := fun _ => None.

Definition server : Server :=
  {| sessions := {[ "s1" := Trace.approved_no_email ]}; world := w0 |}.

Definition requests : list (Collaborators * Form) :=
  [(svc "general" acceptable, form "hello");
   (svc "refund" acceptable, form_img "XRD12345 and another photo")].

Definition email_form : Form := form "send it to a.b@mail.example.org please".

(** A world in which no upload can be saved. *)
Definition full_disk : World :=
  {| refunds_json := NoLedger; ledger_writable := true;
     upload_writable := fun _ => false; outbox := [];
     vision_calls := []; visited := [] |}.

End Demo.

(** * Proofs *)

(** ** The regular expressions on sample input *)

Example email_search_1 :
  Re.search Re.EMAIL "send it to a.b-c@mail.example.org, thanks" = Some "a.b-c@mail.example.org".
Proof. vm_compute. reflexivity. Qed.

Example order_search_1 :
  Re.search Re.ORDER_ID "order xrd12345: the box was crushed" = Some "xrd12345".
Proof. vm_compute. reflexivity. Qed.

(** ** The engine *)

Section Engine.

Variable orders_db : gmap string Order.
Variable svc : Collaborators.

Lemma run_S fuel n chan w :
  run orders_db svc (S fuel) n chan w =
  match node_fn orders_db svc n chan (visit n w) with
  | Ok returned w' =>
      match next_node n (apply_writes chan returned) with
      | inl e => Raise e w'
      | inr None => Ok (apply_writes chan returned) w'
      | inr (Some n') => run orders_db svc fuel n' (apply_writes chan returned) w'
      end
  | Raise e w' => Raise e w'
  end.
Proof.
  cbn [run]. unfold bind, log_node.
  destruct (node_fn orders_db svc n chan (visit n w)) as [returned w'|e w']; [|done].
  by destruct (next_node n (apply_writes chan returned)) as [e|[n'|]].
Qed.

(** Every router answers one of the keys of its edge table, and every
    edge leads away from the entry point. *)
Lemma next_node_forward n state :
  exists t, next_node n state = inr t /\ forall n', t = Some n' -> (rank n < rank n')%nat.
Proof.
  destruct n; cbn [next_node].
  - unfold route_after_intent. repeat case_bool_decide;
      (eexists; split; [vm_compute; reflexivity|]); intros ? [=]; subst; cbn; lia.
  - unfold route_after_collector. destruct (needs_input state);
      (eexists; split; [vm_compute; reflexivity|]); intros ? [=]; subst; cbn; lia.
  - eexists; split; [reflexivity|]. intros ? [=]; subst; cbn; lia.
  - unfold route_after_decision.
    destruct (bool_decide _ && negb _);
      (eexists; split; [vm_compute; reflexivity|]); intros ? [=]; subst; cbn; lia.
  - eexists; split; [reflexivity|]. intros ? [=].
Qed.

(** The successors the edge tables allow. *)
Lemma next_node_edges n state :
  match n with
  | intent_reviewer =>
      next_node n state = inr None \/ next_node n state = inr (Some collector)
      \/ next_node n state = inr (Some finalizer)
  | collector => next_node n state = inr None \/ next_node n state = inr (Some image_analyzer)
  | image_analyzer => next_node n state = inr (Some decision)
  | decision => next_node n state = inr None \/ next_node n state = inr (Some finalizer)
  | finalizer => next_node n state = inr None
  end.
Proof.
  destruct n; cbn [next_node]; [| | done | | done].
  - unfold route_after_intent. repeat case_bool_decide; vm_compute pick; auto.
  - unfold route_after_collector. destruct (needs_input state); vm_compute pick; auto.
  - unfold route_after_decision. destruct (_ && _); vm_compute pick; auto.
Qed.

(** A walk whose nodes each return and hand over the precondition of
    the next one returns, with [Q], within the five steps the graph
    allows. *)
Lemma run_spec (J : Node -> AgentState -> World -> Prop)
    (Q : AgentState -> World -> Prop) :
  (forall n chan w, J n chan w ->
     exists returned w', node_fn orders_db svc n chan (visit n w) = Ok returned w'
       /\ after_step (fun n' c => J n' c w') (fun c => Q c w') n
            (apply_writes chan returned)) ->
  forall fuel n chan w,
    J n chan w -> (5 <= fuel + rank n)%nat ->
    exists state' w', run orders_db svc fuel n chan w = Ok state' w' /\ Q state' w'.
Proof.
  intros Hnode. induction fuel as [|fuel IH]; intros n chan w HJ Hfuel.
  - destruct n; cbn in Hfuel; lia.
  - rewrite run_S.
    destruct (Hnode n chan w HJ) as (returned & w' & -> & Hafter).
    unfold after_step in Hafter.
    destruct (next_node_forward n (apply_writes chan returned)) as (t & Hnext & Hrank).
    rewrite Hnext in Hafter |- *. destruct t as [n'|].
    + apply IH; [done|]. specialize (Hrank n' eq_refl). lia.
    + eauto.
Qed.

(** A walk that returns ends with [Q] when each node that returns hands
    [Q], or the entry condition [J] of the next node, to what follows. *)
Lemma run_post (J : Node -> AgentState -> World -> Prop)
    (Q : AgentState -> World -> Prop) :
  (forall n chan w out w',
     J n chan w -> node_fn orders_db svc n chan (visit n w) = Ok out w' ->
     match next_node n (apply_writes chan out) with
     | inr None => Q (apply_writes chan out) w'
     | inr (Some n') => J n' (apply_writes chan out) w'
     | inl _ => True
     end) ->
  forall fuel n chan w state' w',
    J n chan w -> run orders_db svc fuel n chan w = Ok state' w' -> Q state' w'.
Proof.
  intros Hstep. induction fuel as [|fuel IH]; intros n chan w state' w' HJ; [done|].
  rewrite run_S.
  destruct (node_fn orders_db svc n chan (visit n w)) as [out w1|] eqn:Hnode; [|done].
  specialize (Hstep n chan w out w1 HJ Hnode).
  destruct (next_node n (apply_writes chan out)) as [|[n'|]]; [done| |].
  - by apply IH.
  - by intros [= <- <-].
Qed.

(** A property of the state that every node keeps is kept by the walk. *)
Lemma run_keeps (P : AgentState -> Prop) :
  (forall n chan w out w',
     P chan -> node_fn orders_db svc n chan w = Ok out w' -> P (apply_writes chan out)) ->
  forall fuel n chan w state' w',
    P chan -> run orders_db svc fuel n chan w = Ok state' w' -> P state'.
Proof.
  intros Hstep fuel n chan w state' w' HP Hrun.
  apply (run_post (fun _ c _ => P c) (fun c _ => P c)) in Hrun; [done| |done].
  intros n0 chan0 w0 out w1 HP0 Hnode. specialize (Hstep _ _ _ _ _ HP0 Hnode).
  by repeat case_match.
Qed.

(** Whatever the nodes return, the engine only ever extends the
    history held in the channel. *)
Lemma run_history_prefix fuel n chan w state' w' :
  run orders_db svc fuel n chan w = Ok state' w' ->
  conversation_history chan `prefix_of` conversation_history state'.
Proof.
  revert n chan w. induction fuel as [|fuel IH]; intros n chan w; [done|].
  rewrite run_S.
  destruct (node_fn orders_db svc n chan (visit n w)) as [returned w1|]; [|done].
  assert (conversation_history chan
            `prefix_of` conversation_history (apply_writes chan returned)) as Hstep
    by (cbn; by apply prefix_app_r).
  destruct (next_node n (apply_writes chan returned)) as [|[n'|]]; [done| |].
  - intros Hrun. etrans; [exact Hstep|]. by eapply IH.
  - by intros [= <- _].
Qed.

End Engine.

(** ** The history only grows *)

(** A request that is answered with a state has walked the graph. *)
Lemma save_and_invoke_returns orders_db svc form state w result w' :
  save_and_invoke orders_db svc form state w = Ok result w' ->
  invoke orders_db svc state w = Ok result w'.
Proof.
  unfold save_and_invoke, save_upload, bind, ret.
  destruct (f_image form) as [u|]; [|done].
  by destruct (upload_writable w _).
Qed.

Lemma merge_form_history form state :
  conversation_history (merge_form form state) = conversation_history state.
Proof.
  unfold merge_form, merge_image, merge_email, merge_message.
  repeat case_match; reflexivity.
Qed.

Lemma invoke_history_prefix orders_db svc input w state' w' :
  invoke orders_db svc input w = Ok state' w' ->
  conversation_history input `prefix_of` conversation_history state'.
Proof.
  unfold invoke. intros Hrun. apply run_history_prefix in Hrun. exact Hrun.
Qed.

(** One request: the session it addresses keeps its history as a prefix
    (also when the walk raises and the store is left alone), and every
    other session is untouched. *)
Lemma chat_history_prefix orders_db svc form srv sid state :
  sessions srv !! sid = Some state ->
  exists state', sessions (fst (chat orders_db svc form srv)) !! sid = Some state'
    /\ conversation_history state `prefix_of` conversation_history state'.
Proof.
  intros Hsid. unfold chat.
  destruct (decide (f_session_id form = sid)) as [->|Hne].
  - cbv zeta. rewrite !Hsid. cbn [default from_option id].
    destruct (save_and_invoke orders_db svc form (merge_form form state) (world srv))
      as [result w|e w] eqn:Hwalk; cbn [fst sessions].
    + exists result. rewrite lookup_insert_eq. split; [done|].
      apply save_and_invoke_returns, invoke_history_prefix in Hwalk.
      by rewrite merge_form_history in Hwalk.
    + exists state. by rewrite Hsid.
  - set (store := match sessions srv !! f_session_id form with
                  | Some _ => sessions srv
                  | None => <[f_session_id form := initialize_session (f_session_id form)]>
                              (sessions srv)
                  end).
    assert (store !! sid = Some state) as Hstore.
    { unfold store. destruct (sessions srv !! f_session_id form); [done|].
      by rewrite lookup_insert_ne. }
    cbv zeta. fold store.
    destruct (save_and_invoke orders_db svc form _ (world srv)) as [result w|e w]; cbn [fst sessions].
    + exists state. by rewrite lookup_insert_ne.
    + by exists state.
Qed.

(** C7: across every sequence of requests served, each session's
    [conversation_history] keeps the entries it had, in place, as a prefix
    of the later history; hence its length never decreases. *)
Theorem conversation_history_append_only orders_db requests srv sid state :
  sessions srv !! sid = Some state ->
  exists state', sessions (serve orders_db requests srv) !! sid = Some state'
    /\ conversation_history state `prefix_of` conversation_history state'
    /\ (length (conversation_history state) <= length (conversation_history state'))%nat.
Proof.
  revert srv state. induction requests as [|[svc form] rest IH]; intros srv state Hsid.
  - exists state. cbn. split; [done|]. split; [done|lia].
  - cbn [serve].
    destruct (chat_history_prefix orders_db svc form srv sid state Hsid)
      as (mid & Hmid & Hpre1).
    destruct (IH _ _ Hmid) as (state' & Hlast & Hpre2 & _).
    exists state'. split; [done|].
    assert (conversation_history state `prefix_of` conversation_history state') as Hpre
      by (etrans; eassumption).
    split; [done|]. by apply prefix_length.
Qed.

(** ** The nodes, one by one *)

(** Decision on a verdict: the node returns, keeps the verdict, and sets
    the status by the one comparison with "defective". *)
Lemma decision_node_spec state w v :
  image_verdict state = Some v ->
  exists out, decision_node state w = Ok out w
    /\ (refund_status out = "approved" <-> v !! "status" = Some (JStr "defective"))
    /\ (v !! "status" <> Some (JStr "defective") -> refund_status out = "denied")
    /\ image_verdict out = Some v.
Proof.
  intros Hv. unfold decision_node. cbn [image_verdict set_current_node]. rewrite Hv.
  case_bool_decide as Hstatus.
  - destruct (truthy _ && _); eexists; (split; [reflexivity|]); cbn; by repeat split.
  - eexists; split; [reflexivity|]. cbn. repeat split; done.
Qed.

(** C1: on a state that carries a verdict the Decision stage returns,
    and the status it sets is approved if and only if the verdict's
    [status] is the string "defective"; for any other value, or none,
    it is denied. *)
Theorem decision_approves_iff_defective state w v :
  image_verdict state = Some v ->
  exists out, decision_node state w = Ok out w
    /\ (refund_status out = "approved" <-> v !! "status" = Some (JStr "defective"))
    /\ (v !! "status" <> Some (JStr "defective") -> refund_status out = "denied").
Proof.
  intros Hv. destruct (decision_node_spec state w v Hv) as (out & Hnode & Hiff & Hden & _).
  eauto.
Qed.

(** A populated verdict makes Image Analysis the identity, on the state
    and on the world. *)
Lemma image_analyzer_passthrough orders_db svc state w v :
  image_verdict state = Some v -> v <> ∅ ->
  image_analyzer_node orders_db svc state w = Ok state w.
Proof.
  intros Hv Hne. unfold image_analyzer_node. rewrite Hv. cbn [truthy_dict].
  by rewrite bool_decide_eq_false_2.
Qed.

(** "Log Transaction" appends to the rows of a ledger that can be
    appended to; on a file that holds no list it raises at the append,
    and on a list it cannot write back it raises at the write, leaving
    the file as it is both times. *)
Lemma log_transaction_spec state w :
  appendable w ->
  log_transaction state w =
  Ok (set_needs_input false state)
     {| refunds_json := Ledger (rows (refunds_json w) ++ [ledger_entry state]);
        ledger_writable := true; upload_writable := upload_writable w;
        outbox := outbox w; vision_calls := vision_calls w; visited := visited w |}.
Proof.
  intros [Hlist Hwrite]. unfold log_transaction, bind, read_refunds, write_refunds, ret.
  destruct (refunds_json w); [| |done]; cbv beta iota; by rewrite Hwrite.
Qed.

Lemma log_transaction_raises state w :
  refunds_json w = NotAList -> log_transaction state w = Raise AttributeError w.
Proof.
  intros Hbad. unfold log_transaction, bind, read_refunds, raise. by rewrite Hbad.
Qed.

Lemma log_transaction_unwritable state w :
  refunds_json w <> NotAList -> ledger_writable w = false ->
  log_transaction state w = Raise OSError w.
Proof.
  intros Hlist Hwrite. unfold log_transaction, bind, read_refunds, write_refunds.
  destruct (refunds_json w); [| |done]; cbv beta iota; by rewrite Hwrite.
Qed.

Lemma log_transaction_returns state w out w' :
  log_transaction state w = Ok out w' ->
  appendable w /\ out = set_needs_input false state.
Proof.
  destruct (refunds_json w) eqn:Hfile; [| |by rewrite log_transaction_raises].
  all: destruct (ledger_writable w) eqn:Hwrite;
    [|by rewrite log_transaction_unwritable by (by rewrite ?Hfile)].
  all: assert (appendable w) as Hok by (split; [by rewrite Hfile|done]).
  all: rewrite log_transaction_spec by done; by intros [= <- _].
Qed.

(** X27: the Finalizer, case by case.  An approved state whose email
    does not match the pattern is re-prompted, with [needs_input] set and
    the world (so the ledger) untouched.  When [refunds.json] is missing,
    is not JSON or holds a list, and can be written, an approved state
    with a matching email and its verdict, and every state that is not
    approved, get exactly one entry, with the state's [session_id],
    [order_id], status and [email], appended to the rows the file held;
    the approved one after its receipt was mailed, the other with no
    mail.  When the file holds JSON that is no list, the same states
    raise [AttributeError], and when it cannot be written, [OSError]; the
    file stays as it was, the receipt of the approved one mailed all the
    same. *)
Theorem finalizer_ledger orders_db svc state w :
  (refund_status state = "approved" -> _is_valid_email (email state) = false ->
     exists out, finalizer_node orders_db svc state w = Ok out w
       /\ response_message out = PROMPT_EMAIL_AGAIN
       /\ needs_input out = true)
  /\ (appendable w ->
      (refund_status state = "approved" -> _is_valid_email (email state) = true ->
       forall v, image_verdict state = Some v ->
       exists out w', finalizer_node orders_db svc state w = Ok out w'
         /\ refunds_json w'
            = Ledger (rows (refunds_json w)
                      ++ [{| l_session_id := session_id state; l_order_id := order_id state;
                             l_status := "approved"; l_email := email state |}])
         /\ (exists m, outbox w' = (outbox w ++ [m])%list /\ recipient m = email state)
         /\ needs_input out = false)
      /\ (refund_status state <> "approved" ->
          exists out w', finalizer_node orders_db svc state w = Ok out w'
            /\ refunds_json w'
               = Ledger (rows (refunds_json w)
                         ++ [{| l_session_id := session_id state; l_order_id := order_id state;
                                l_status := refund_status state; l_email := email state |}])
            /\ outbox w' = outbox w
            /\ needs_input out = false))
  /\ (forall e,
        refunds_json w = NotAList /\ e = AttributeError
        \/ refunds_json w <> NotAList /\ ledger_writable w = false /\ e = OSError ->
      (refund_status state = "approved" -> _is_valid_email (email state) = true ->
       forall v, image_verdict state = Some v ->
       exists w', finalizer_node orders_db svc state w = Raise e w'
         /\ refunds_json w' = refunds_json w
         /\ exists m, outbox w' = (outbox w ++ [m])%list /\ recipient m = email state)
      /\ (refund_status state <> "approved" ->
          finalizer_node orders_db svc state w = Raise e w)).
Proof.
  unfold finalizer_node. split; [|split].
  - intros Hst Hmail. rewrite bool_decide_eq_true_2 by done. rewrite Hmail. cbn [negb].
    eexists. split; [reflexivity|]. by cbn.
  - intros Hlist. split.
    + intros Hst Hmail v Hv. rewrite bool_decide_eq_true_2 by done. rewrite Hmail, Hv.
      cbn [negb]. unfold bind, send_receipt. rewrite log_transaction_spec by exact Hlist.
      eexists _, _. split; [reflexivity|]. unfold ledger_entry. cbn. rewrite Hst.
      split; [done|]. split; [by eexists|done].
    + intros Hst. rewrite bool_decide_eq_false_2 by done.
      rewrite log_transaction_spec by done.
      eexists _, _. split; [reflexivity|]. by cbn.
  - intros e Hbad.
    assert (forall s w0, refunds_json w0 = refunds_json w ->
              ledger_writable w0 = ledger_writable w ->
              log_transaction s w0 = Raise e w0) as Hlog.
    { intros s w0 Hfile Hwrite. destruct Hbad as [[Hno ->]|(Hlist & Hro & ->)].
      - apply log_transaction_raises. by rewrite Hfile.
      - apply log_transaction_unwritable; by rewrite ?Hfile, ?Hwrite. }
    split.
    + intros Hst Hmail v Hv. rewrite bool_decide_eq_true_2 by done. rewrite Hmail, Hv.
      cbn [negb]. unfold bind, send_receipt. rewrite Hlog by done.
      eexists. split; [reflexivity|]. cbn. split; [done|]. by eexists.
    + intros Hst. rewrite bool_decide_eq_false_2 by done. by rewrite Hlog.
Qed.

(** *** The collector *)

Lemma bind_order_id_current_node c state :
  bind_order_id (set_current_node c state) = set_current_node c (bind_order_id state).
Proof. unfold bind_order_id. cbn [user_message set_current_node]. by case_match. Qed.

Lemma bind_order_id_keeps state :
  user_message (bind_order_id state) = user_message state
  /\ complaint (bind_order_id state) = complaint state
  /\ image_path (bind_order_id state) = image_path state
  /\ image_verdict (bind_order_id state) = image_verdict state
  /\ refund_status (bind_order_id state) = refund_status state
  /\ conversation_history (bind_order_id state) = conversation_history state.
Proof. unfold bind_order_id. by case_match. Qed.

(** C4: when the identifier the Collector holds after scanning the
    message is not in the catalogue, it answers with the not-found
    message, clears [order_id], sets [needs_input], leaves [complaint],
    [image_path], [image_verdict] and [refund_status] as they were, and
    the walk ends at the Collector: no later node runs. *)
Theorem collector_unknown_order orders_db svc state w oid :
  order_id (bind_order_id state) = Some oid -> oid <> "" -> orders_db !! oid = None ->
  exists out, collector_node orders_db state w = Ok out w
    /\ response_message out = not_found_message oid
    /\ conversation_history out = _update_history "assistant" (not_found_message oid)
    /\ order_id out = None
    /\ needs_input out = true
    /\ complaint out = complaint state
    /\ image_path out = image_path state
    /\ image_verdict out = image_verdict state
    /\ refund_status out = refund_status state
    /\ route_after_collector (apply_writes state out) = "need_input"
    /\ forall fuel, run orders_db svc (S fuel) collector state w
                    = Ok (apply_writes state out) (visit collector w).
Proof.
  intros Hoid Hne Hdb.
  destruct (bind_order_id_keeps state) as (_ & Hc & Hp & Hv & Hr & _).
  assert (forall w0, collector_node orders_db state w0 =
          Ok (set_needs_input true
                (set_order_id None
                   (set_conversation_history
                      (_update_history "assistant" (not_found_message oid))
                      (set_response_message (not_found_message oid)
                         (set_current_node "collector" (bind_order_id state)))))) w0)
    as Hnode.
  { intros w0. unfold collector_node. cbv zeta. rewrite bind_order_id_current_node.
    cbn [order_id set_current_node]. rewrite Hoid.
    rewrite bool_decide_eq_false_2 by done. by rewrite Hdb. }
  eexists. split; [apply Hnode|].
  cbn [response_message conversation_history order_id needs_input complaint image_path
       image_verdict refund_status set_needs_input set_order_id set_conversation_history
       set_response_message set_current_node].
  do 9 (split; [done|]).
  intros fuel. rewrite run_S. cbn [node_fn]. by rewrite Hnode.
Qed.


(** *** Intent review *)

(** The walk of a message that Intent Review classifies as "general":
    the node returns the help prompt as its only history entry, and the
    router ends the walk. *)
Lemma general_walk orders_db svc state w :
  (refund_status state = "approved" ->
     Re.search Re.EMAIL (PyStr.strip (user_message state)) = None
     /\ truthy (email state) = true) ->
  mid_collection state = false ->
  a_intent (analyze svc (PyStr.strip (user_message state))) = "general" ->
  exists state', invoke orders_db svc state w = Ok state' (visit intent_reviewer w)
    /\ response_message state' = PROMPT_GENERAL
    /\ needs_input state' = false
    /\ intent state' = "general"
    /\ refund_status state' = refund_status state
    /\ conversation_history state'
       = (conversation_history state ++ _update_history "assistant" PROMPT_GENERAL)%list.
Proof.
  intros Hmail Hmid Hgen.
  unfold invoke, recursion_limit. rewrite run_S. cbn [node_fn].
  unfold intent_reviewer_node. cbv zeta.
  cbn [user_message set_current_node set_conversation_history].
  assert (email_capture (PyStr.strip (user_message state))
            (set_conversation_history
               (_update_history "user" (PyStr.strip (user_message state)))
               (set_current_node "intent_reviewer"
                  (set_conversation_history ([] ++ conversation_history state) state)))
          = None) as ->.
  { unfold email_capture. cbn [refund_status email set_conversation_history set_current_node].
    case_bool_decide as Hst; [|done].
    destruct (Hmail Hst) as [-> ->]. done. }
  assert (forall s, intent s = intent state -> refund_status s = refund_status state ->
                    mid_collection s = false) as Hmid'.
  { intros s Hi Hr. unfold mid_collection in *. by rewrite Hi, Hr. }
  rewrite Hmid' by done. rewrite Hgen. rewrite bool_decide_eq_true_2 by done.
  unfold ret. eexists. split; [reflexivity|]. by cbn.
Qed.

(** C10: when Intent Review reaches the classifier (the email branch
    does not return and the claim is not in mid-collection) and the
    classifier answers "general", the walk visits Intent Review only and
    ends there with the generic help prompt and [needs_input = False]. *)
Theorem general_intent_halts orders_db svc state w :
  (refund_status state = "approved" ->
     Re.search Re.EMAIL (PyStr.strip (user_message state)) = None
     /\ truthy (email state) = true) ->
  mid_collection state = false ->
  a_intent (analyze svc (PyStr.strip (user_message state))) = "general" ->
  exists state', invoke orders_db svc state w = Ok state' (visit intent_reviewer w)
    /\ visited (visit intent_reviewer w) = (visited w ++ [intent_reviewer])%list
    /\ response_message state' = PROMPT_GENERAL
    /\ needs_input state' = false
    /\ intent state' = "general"
    /\ refund_status state' = refund_status state.
Proof.
  intros Hmail Hmid Hgen.
  destruct (general_walk orders_db svc state w Hmail Hmid Hgen)
    as (state' & Hwalk & Hresp & Hneeds & Hintent & Hstatus & _).
  exists state'. by repeat split.
Qed.

(** ** The refund status across walks *)

Section Status.

Variable orders_db : gmap string Order.
Variable svc : Collaborators.

(** Intent Review and the Collector always return, and neither writes
    the refund status or the verdict. *)
Lemma intent_reviewer_frame chan w :
  exists out, intent_reviewer_node svc chan w = Ok out w
    /\ refund_status out = refund_status chan
    /\ image_verdict out = image_verdict chan.
Proof.
  unfold intent_reviewer_node, email_capture. cbv zeta.
  repeat case_match; simplify_eq; eexists; (split; [reflexivity|]); by cbn.
Qed.

Lemma collector_frame chan w :
  exists out, collector_node orders_db chan w = Ok out w
    /\ refund_status out = refund_status chan
    /\ image_verdict out = image_verdict chan
    /\ (needs_input out = false -> is_Some (order_id out ≫= (orders_db !!.))).
Proof.
  destruct (bind_order_id_keeps chan) as (_ & _ & _ & Hv & Hr & _).
  unfold collector_node. cbv zeta. rewrite bind_order_id_current_node.
  cbn [order_id set_current_node].
  destruct (order_id (bind_order_id chan)) as [oid|] eqn:Hoid.
  - case_bool_decide.
    { eexists. split; [reflexivity|]. by cbn. }
    destruct (orders_db !! oid) as [o|] eqn:Hdb.
    + unfold collect_image.
      repeat case_match; eexists; (split; [reflexivity|]); cbn;
        rewrite ?Hoid; cbn; rewrite ?Hdb; eauto.
    + eexists. split; [reflexivity|]. by cbn.
  - eexists. split; [reflexivity|]. by cbn.
Qed.

(** Image Analysis returns when a verdict is there or the order is in
    the catalogue; it leaves a verdict behind and does not write the
    refund status. *)
Lemma image_analyzer_frame chan w :
  truthy_dict (image_verdict chan) = true \/ is_Some (order_id chan ≫= (orders_db !!.)) ->
  exists out w', image_analyzer_node orders_db svc chan w = Ok out w'
    /\ refund_status out = refund_status chan
    /\ is_Some (image_verdict out)
    /\ (truthy_dict (image_verdict chan) = true -> out = chan).
Proof.
  intros Hpre. unfold image_analyzer_node.
  destruct (truthy_dict (image_verdict chan)) eqn:Hmemo.
  - exists chan, w. split; [done|]. split; [done|]. split; [|done].
    destruct (image_verdict chan); [eauto|done].
  - destruct Hpre as [|[o Ho]]; [done|].
    cbn [order_id set_current_node]. rewrite Ho.
    unfold bind, log_vision, ret. eexists _, _. split; [reflexivity|]. cbn.
    split; [done|]. split; [eauto|done].
Qed.

(** Decision, on a verdict, returns with the status the verdict
    dictates and keeps the verdict. *)
Lemma decision_frame chan w v :
  image_verdict chan = Some v ->
  exists out, decision_node chan w = Ok out w
    /\ image_verdict out = Some v
    /\ (v !! "status" = Some (JStr "defective") -> refund_status out = "approved")
    /\ (v !! "status" <> Some (JStr "defective") -> refund_status out = "denied").
Proof.
  intros Hv. destruct (decision_node_spec chan w v Hv)
    as (out & Hnode & Hiff & Hden & Hkeep).
  exists out. repeat split; [done..| |done]. apply Hiff.
Qed.

(** The Finalizer writes neither the status nor the verdict. *)
Lemma finalizer_keeps chan w out w' :
  finalizer_node orders_db svc chan w = Ok out w' ->
  refund_status out = refund_status chan /\ image_verdict out = image_verdict chan.
Proof.
  unfold finalizer_node. case_bool_decide as Hst.
  - destruct (negb (_is_valid_email (email chan))).
    + by intros [= <- <-].
    + destruct (image_verdict chan) as [v|] eqn:Hv; [|done].
      unfold bind, send_receipt. by intros [_ ->]%log_transaction_returns.
  - by intros [_ ->]%log_transaction_returns.
Qed.

(** The Finalizer returns whenever an approved state carries its
    verdict and the ledger can be appended to, as it can afterwards. *)
Lemma finalizer_returns chan w :
  (refund_status chan = "approved" -> is_Some (image_verdict chan)) ->
  appendable w ->
  exists out w', finalizer_node orders_db svc chan w = Ok out w' /\ appendable w'.
Proof.
  intros Hpre Hlist. unfold finalizer_node. case_bool_decide as Hst.
  - destruct (Hpre Hst) as [v Hv]. rewrite Hv.
    destruct (negb (_is_valid_email (email chan))).
    + eexists _, _. split; [reflexivity|]. done.
    + unfold bind, send_receipt. rewrite log_transaction_spec by exact Hlist.
      eexists _, _. split; [reflexivity|]. by split.
  - rewrite log_transaction_spec by done. eexists _, _. split; [reflexivity|]. by split.
Qed.

Lemma consistent_ext state state' :
  refund_status state' = refund_status state ->
  image_verdict state' = image_verdict state ->
  consistent state -> consistent state'.
Proof. unfold consistent. by intros -> ->. Qed.

Lemma consistent_decided state v :
  image_verdict state = Some v ->
  (v !! "status" = Some (JStr "defective") -> refund_status state = "approved") ->
  (v !! "status" <> Some (JStr "defective") -> refund_status state = "denied") ->
  consistent state.
Proof.
  intros Hv Happ Hden. unfold consistent. rewrite Hv.
  destruct (decide (v !! "status" = Some (JStr "defective"))) as [Hd|Hd].
  - rewrite (Happ Hd). repeat split; [eauto | done | auto].
  - rewrite (Hden Hd). repeat split; [done | eauto | auto].
Qed.

(** What every node hands on: the entry condition of its successor,
    and a state whose verdict and status agree at END. *)
Lemma node_hands_on n chan w out w' :
  entry_condition orders_db n chan ->
  node_fn orders_db svc n chan w = Ok out w' ->
  after_step (entry_condition orders_db) consistent n (apply_writes chan out).
Proof.
  intros Hpre Hnode. unfold after_step.
  pose proof (next_node_edges n (apply_writes chan out)) as Hedge.
  destruct n; cbn [node_fn entry_condition] in *.
  - destruct (intent_reviewer_frame chan w) as (out' & Heq & Hr & Hv).
    rewrite Heq in Hnode. injection Hnode as -> _.
    assert (consistent (apply_writes chan out)) by by eapply consistent_ext.
    destruct_or?; by rewrite Hedge.
  - destruct (collector_frame chan w) as (out' & Heq & Hr & Hv & Hready).
    rewrite Heq in Hnode. injection Hnode as -> _.
    assert (consistent (apply_writes chan out)) by by eapply consistent_ext.
    destruct Hedge as [Hedge|Hedge]; rewrite Hedge; [done|].
    cbn [entry_condition]. right. apply Hready.
    revert Hedge. cbn [next_node]. unfold route_after_collector.
    cbn [needs_input apply_writes set_conversation_history].
    by destruct (needs_input out).
  - rewrite Hedge. cbn [entry_condition].
    destruct (image_analyzer_frame chan w Hpre) as (out' & w1 & Heq & _ & Hv & _).
    rewrite Heq in Hnode. by injection Hnode as -> _.
  - destruct Hpre as [v Hv].
    destruct (decision_frame chan w v Hv) as (out' & Heq & Hkeep & Happ & Hden).
    rewrite Heq in Hnode. injection Hnode as -> _.
    assert (consistent (apply_writes chan out)) by by eapply consistent_decided.
    destruct_or?; by rewrite Hedge.
  - rewrite Hedge. apply finalizer_keeps in Hnode as [Hr Hv]. by eapply consistent_ext.
Qed.

(** A walk that returns from a node entered on its condition ends in a
    state whose verdict and status agree. *)
Lemma walk_consistent fuel n chan w state' w' :
  entry_condition orders_db n chan ->
  run orders_db svc fuel n chan w = Ok state' w' -> consistent state'.
Proof.
  intros Hpre Hrun.
  apply (run_post orders_db svc (fun n c _ => entry_condition orders_db n c)
           (fun c _ => consistent c)) in Hrun; [done| |done].
  clear. intros n chan w out w' Hpre Hnode.
  pose proof (node_hands_on n chan _ out w' Hpre Hnode) as Hafter.
  unfold after_step in Hafter. by destruct (next_node n (apply_writes chan out)) as [|[|]].
Qed.

(** Such a walk does return when the ledger can be appended to, as it
    can afterwards. *)
Lemma walk_returns fuel n chan w :
  entry_condition orders_db n chan -> appendable w ->
  (5 <= fuel + rank n)%nat ->
  exists state' w', run orders_db svc fuel n chan w = Ok state' w' /\ appendable w'.
Proof.
  intros Hpre Hlist Hfuel.
  apply (run_spec orders_db svc
           (fun n c w0 => entry_condition orders_db n c /\ appendable w0)
           (fun _ w0 => appendable w0)); [|done..].
  clear. intros n chan w [Hpre Hlist].
  assert (appendable (visit n w)) as Hvisit by exact Hlist.
  assert (exists out w', node_fn orders_db svc n chan (visit n w) = Ok out w'
            /\ appendable w') as (out & w' & Hnode & Hlist').
  { destruct n; cbn [node_fn entry_condition] in *.
    - destruct (intent_reviewer_frame chan (visit intent_reviewer w)) as (out & Heq & _).
      by exists out, (visit intent_reviewer w).
    - destruct (collector_frame chan (visit collector w)) as (out & Heq & _).
      by exists out, (visit collector w).
    - unfold image_analyzer_node.
      destruct (truthy_dict (image_verdict chan)) eqn:Hmemo.
      + by exists chan, (visit image_analyzer w).
      + destruct Hpre as [|[o Ho]]; [done|].
        cbn [order_id set_current_node]. rewrite Ho.
        unfold bind, log_vision, ret. eexists _, _. split; [reflexivity|]. exact Hlist.
    - destruct Hpre as [v Hv].
      destruct (decision_frame chan (visit decision w) v Hv) as (out & Heq & _).
      by exists out, (visit decision w).
    - apply finalizer_returns; [|done].
      intros Hst. destruct Hpre as (Happ & _). destruct (Happ Hst) as (v & -> & _). eauto. }
  exists out, w'. split; [done|].
  pose proof (node_hands_on n chan _ out w' Hpre Hnode) as Hafter.
  unfold after_step in *. by destruct (next_node n (apply_writes chan out)) as [|[|]].
Qed.

End Status.

Lemma merge_form_keeps form state :
  refund_status (merge_form form state) = refund_status state
  /\ image_verdict (merge_form form state) = image_verdict state.
Proof.
  unfold merge_form, merge_image, merge_email, merge_message.
  repeat case_match; by cbn.
Qed.

(** A walk over a consistent state that returns, returns a consistent
    state. *)
Lemma invoke_consistent orders_db svc input w state' w' :
  consistent input ->
  invoke orders_db svc input w = Ok state' w' -> consistent state'.
Proof.
  intros Hinv. unfold invoke. apply walk_consistent. cbn [entry_condition].
  by eapply consistent_ext.
Qed.

(** Every state the store holds is consistent. *)
Lemma stored_consistent orders_db state : stored orders_db state -> consistent state.
Proof.
  induction 1 as [sid|state svc form w state' w' _ IH Hwalk].
  - unfold consistent. cbn. repeat split; [done..|auto].
  - destruct (merge_form_keeps form state) as [Hr Hv].
    eapply invoke_consistent; [|exact Hwalk]. by eapply consistent_ext.
Qed.

Section Settled.

Variable orders_db : gmap string Order.
Variable svc : Collaborators.

Lemma settled_ext r v state state' :
  refund_status state' = refund_status state ->
  image_verdict state' = image_verdict state ->
  settled r v state -> settled r v state'.
Proof. unfold settled. by intros -> ->. Qed.

(** Every node that returns on a decided claim leaves it decided the
    same way: Image Analysis passes the verdict on, Decision derives
    the same status from it again. *)
Lemma node_keeps_settled r v n chan w out w' :
  settled r v chan ->
  node_fn orders_db svc n chan w = Ok out w' ->
  settled r v (apply_writes chan out).
Proof.
  intros Hs. pose proof Hs as (Hr & Hv & Hne & Happ & Hden).
  destruct n; cbn [node_fn].
  - destruct (intent_reviewer_frame svc chan w) as (out' & -> & Hr' & Hv').
    intros [= <- <-]. by eapply settled_ext.
  - destruct (collector_frame orders_db chan w) as (out' & -> & Hr' & Hv' & _).
    intros [= <- <-]. by eapply settled_ext.
  - rewrite (image_analyzer_passthrough orders_db svc chan w v Hv Hne).
    intros [= <- <-]. by eapply settled_ext.
  - destruct (decision_frame chan w v Hv) as (out' & -> & Hkeep & Happ' & Hden').
    intros [= <- <-].
    unfold settled. cbn [refund_status image_verdict apply_writes set_conversation_history].
    repeat split; [|done..].
    destruct (decide (v !! "status" = Some (JStr "defective"))) as [Hd|Hd].
    + by rewrite Happ', Happ.
    + by rewrite Hden', Hden.
  - intros [Hr' Hv']%finalizer_keeps. by eapply settled_ext.
Qed.

Lemma invoke_settled r v input w state' w' :
  settled r v input ->
  invoke orders_db svc input w = Ok state' w' -> settled r v state'.
Proof.
  intros Hs. unfold invoke.
  apply (run_keeps orders_db svc (settled r v)).
  - clear. intros n chan w out w' Hchan Hnode. by eapply node_keeps_settled.
  - by eapply settled_ext.
Qed.

End Settled.

(** One walk over a stored, decided claim whose verdict is not the empty
    object: when it returns, status and verdict are what they were. *)
Lemma decided_walk orders_db svc form state w state' w' :
  stored orders_db state ->
  refund_status state = "approved" \/ refund_status state = "denied" ->
  image_verdict state <> Some ∅ ->
  invoke orders_db svc (merge_form form state) w = Ok state' w' ->
  refund_status state' = refund_status state
  /\ image_verdict state' = image_verdict state
  /\ stored orders_db state'.
Proof.
  intros Hstored Hterm Hne Hwalk.
  destruct (stored_consistent _ _ Hstored) as (Happ & Hden & _).
  destruct (merge_form_keeps form state) as [Hr Hv].
  assert (exists v, settled (refund_status state) v state /\ image_verdict state = Some v)
    as (v & Hs & Hsome).
  { destruct Hterm as [Hst|Hst].
    - destruct (Happ Hst) as (v & Hsome & Hd). exists v. split; [|done].
      unfold settled. rewrite Hst. repeat split; [done| |done..].
      intros ->. by rewrite Hsome in Hne.
    - destruct (Hden Hst) as (v & Hsome & Hd). exists v. split; [|done].
      unfold settled. rewrite Hst. repeat split; [done| |done..].
      intros ->. by rewrite Hsome in Hne. }
  destruct (invoke_settled orders_db svc (refund_status state) v (merge_form form state)
              w state' w') as (Hr' & Hv' & _); [by eapply settled_ext|done|].
  repeat split; [done| |].
  - by rewrite Hv'.
  - by eapply stored_walk.
Qed.

(** X26: a stored session whose status is approved or denied and whose
    verdict is not the empty object keeps that status through every
    later sequence of requests, whatever their messages, images and
    emails, whatever the collaborators answer, and whether or not the
    walks return. *)
Theorem refund_status_never_changes orders_db requests srv sid state :
  sessions srv !! sid = Some state ->
  stored orders_db state ->
  refund_status state = "approved" \/ refund_status state = "denied" ->
  image_verdict state <> Some ∅ ->
  exists state', sessions (serve orders_db requests srv) !! sid = Some state'
    /\ refund_status state' = refund_status state.
Proof.
  revert srv state.
  induction requests as [|[svc form] rest IH]; intros srv state Hsid Hstored Hterm Hne.
  - exists state. by cbn.
  - cbn [serve].
    assert (exists mid, sessions (fst (chat orders_db svc form srv)) !! sid = Some mid
              /\ refund_status mid = refund_status state
              /\ image_verdict mid = image_verdict state
              /\ stored orders_db mid) as (mid & Hmid & Hr & Hv & Hst).
    { unfold chat. cbv zeta.
      destruct (decide (f_session_id form = sid)) as [->|Hother].
      - rewrite !Hsid. cbn [default from_option id].
        destruct (save_and_invoke orders_db svc form (merge_form form state) (world srv))
          as [state' w'|e w'] eqn:Hwalk; cbn [fst sessions].
        + apply save_and_invoke_returns in Hwalk.
          destruct (decided_walk orders_db svc form state (world srv) state' w'
                      Hstored Hterm Hne Hwalk) as (? & ? & ?).
          exists state'. by rewrite lookup_insert_eq.
        + by exists state.
      - exists state.
        set (store := match sessions srv !! f_session_id form with
                      | Some _ => sessions srv
                      | None => <[f_session_id form := initialize_session (f_session_id form)]>
                                  (sessions srv)
                      end).
        assert (store !! sid = Some state) as Hstore.
        { unfold store. destruct (sessions srv !! f_session_id form); [done|].
          by rewrite lookup_insert_ne. }
        destruct (save_and_invoke orders_db svc form _ (world srv)) as [result w|e w]; cbn [fst sessions].
        + by rewrite lookup_insert_ne.
        + done. }
    destruct (IH _ mid Hmid Hst) as (state' & Hlast & Hr'); [by rewrite Hr|by rewrite Hv|].
    exists state'. split; [done|]. by rewrite Hr'.
Qed.


(** ** The sample sessions *)

Lemma approved_walk_returns :
  invoke Sample.db (Sample.svc "refund" Sample.defective)
    (merge_form Trace.claim_form (initialize_session "s1")) Sample.w0
  = Ok Trace.approved_no_email (Trace.world_of Trace.approved_walk).
Proof. vm_compute. reflexivity. Qed.

Lemma denied_walk_returns :
  invoke Sample.db (Sample.svc "refund" Trace.empty_verdict)
    (merge_form Trace.claim_form (initialize_session "s1")) Sample.w0
  = Ok Trace.denied_empty (Trace.world_of Trace.denied_walk).
Proof. vm_compute. reflexivity. Qed.


Lemma approved_no_email_stored : stored Sample.db Trace.approved_no_email.
Proof.
  eapply stored_walk; [apply (stored_fresh _ "s1")|]. exact approved_walk_returns.
Qed.

Lemma denied_empty_stored : stored Sample.db Trace.denied_empty.
Proof.
  eapply stored_walk; [apply (stored_fresh _ "s1")|]. exact denied_walk_returns.
Qed.


(** *** C1 *)

Lemma decision_approves_iff_defective_witness :
  image_verdict Trace.approved_no_email = Some Sample.defective
  /\ exists out, decision_node Trace.approved_no_email Sample.w0 = Ok out Sample.w0
       /\ (refund_status out = "approved"
           <-> Sample.defective !! "status" = Some (JStr "defective"))
       /\ (Sample.defective !! "status" <> Some (JStr "defective")
           -> refund_status out = "denied").
Proof.
  split; [vm_compute; reflexivity|].
  apply (decision_approves_iff_defective Trace.approved_no_email Sample.w0 Sample.defective).
  vm_compute. reflexivity.
Defined.

(** *** C2 and X26 *)

(** C2 at the failing input: the claim of session s1 is denied on the
    empty verdict [{}], which the vision service can answer and the
    store holds.  The next request walks into Image Analysis, whose guard
    [if state.get("image_verdict")] takes the empty verdict for none and
    asks the vision service again, and Decision approves: the status of
    a decided claim goes from denied to approved. *)
Theorem refund_status_flips_after_empty_verdict :
  stored Sample.db Trace.denied_empty
  /\ refund_status Trace.denied_empty = "denied"
  /\ image_verdict Trace.denied_empty = Some ∅
  /\ exists state' w',
       invoke Sample.db (Sample.svc "refund" Sample.defective)
         (merge_form (Sample.form "hello again") Trace.denied_empty) Sample.w0
       = Ok state' w'
       /\ refund_status state' = "approved".
Proof.
  split; [exact denied_empty_stored|].
  split; [vm_compute; reflexivity|].
  split; [vm_compute; reflexivity|].
  exists (Trace.state_of Trace.flip_walk), (Trace.world_of Trace.flip_walk).
  split; vm_compute; reflexivity.
Qed.

Lemma refund_status_never_changes_witness :
  exists state',
    sessions (serve Sample.db
                [(Sample.svc "general" Sample.acceptable, Sample.form "hello");
                 (Sample.svc "refund" Sample.acceptable, Sample.form "XRD12345 again")]
                {| sessions := {[ "s1" := Trace.approved_no_email ]}; world := Sample.w0 |})
      !! "s1" = Some state'
    /\ refund_status state' = refund_status Trace.approved_no_email.
Proof.
  apply (refund_status_never_changes Sample.db _ _ "s1" Trace.approved_no_email).
  - vm_compute. reflexivity.
  - exact approved_no_email_stored.
  - left. vm_compute. reflexivity.
  - compute_done.
Defined.

(** *** C3 *)

(** In the email branch of Intent Review the node re-prompts, but the
    router looks at [intent] alone: with an intent other than "general"
    and "finalize_flow" the walk goes on to the Collector. *)
Lemma email_reprompt_routes_to_collector svc state w :
  refund_status state = "approved" ->
  Re.search Re.EMAIL (PyStr.strip (user_message state)) = None ->
  truthy (email state) = false ->
  intent state <> "finalize_flow" -> intent state <> "general" ->
  exists out, intent_reviewer_node svc state w = Ok out w
    /\ response_message out = PROMPT_EMAIL
    /\ needs_input out = true
    /\ next_node intent_reviewer (apply_writes state out) = inr (Some collector).
Proof.
  intros Hst Hnomail Hnone Hfin Hgen.
  unfold intent_reviewer_node, email_capture. cbv zeta.
  cbn [user_message refund_status email set_current_node set_conversation_history].
  rewrite bool_decide_eq_true_2 by done. rewrite Hnomail, Hnone. cbn [negb].
  eexists. split; [reflexivity|]. cbn [response_message needs_input reply set_needs_input
    set_conversation_history set_response_message]. split; [done|]. split; [done|].
  cbn [next_node]. unfold route_after_intent. cbn [intent apply_writes reply set_needs_input
    set_conversation_history set_response_message set_current_node].
  by rewrite !bool_decide_eq_false_2 by done.
Qed.

(** C3 at the failing input: session s1 is approved with no email
    bound, and the message "hello" has no email in it.  The walk does not
    end at Intent Review: Collector, Image Analysis and Decision run, and
    the response of the turn is Decision's, not the re-prompt.  With a
    message that names an unknown order the Collector even clears the
    order of the approved claim. *)
Theorem approved_without_email_walks_on :
  refund_status Trace.approved_no_email = "approved"
  /\ email Trace.approved_no_email = None
  /\ Re.search Re.EMAIL (PyStr.strip "hello") = None
  /\ (exists state' w',
       invoke Sample.db (Sample.svc "refund" Sample.defective)
         (merge_form (Sample.form "hello") Trace.approved_no_email) Sample.w0
       = Ok state' w'
       /\ visited w' = [intent_reviewer; collector; image_analyzer; decision]
       /\ response_message state' = MSG_APPROVED_ASK_EMAIL
       /\ response_message state' <> PROMPT_EMAIL)
  /\ Re.search Re.EMAIL (PyStr.strip "and my other order XRD99999?") = None
  /\ (exists state' w',
       invoke Sample.db (Sample.svc "refund" Sample.defective)
         (merge_form (Sample.form "and my other order XRD99999?") Trace.approved_no_email)
         Sample.w0
       = Ok state' w'
       /\ visited w' = [intent_reviewer; collector]
       /\ response_message state' = not_found_message "XRD99999"
       /\ order_id state' = None
       /\ refund_status state' = "approved").
Proof.
  split; [vm_compute; reflexivity|].
  split; [vm_compute; reflexivity|].
  split; [vm_compute; reflexivity|].
  split.
  { exists (Trace.state_of Trace.reprompt_walk), (Trace.world_of Trace.reprompt_walk).
    split; [vm_compute; reflexivity|].
    split; [vm_compute; reflexivity|].
    split; [vm_compute; reflexivity|].
    vm_compute. discriminate. }
  split; [vm_compute; reflexivity|].
  exists (Trace.state_of Trace.other_order_walk), (Trace.world_of Trace.other_order_walk).
  do 4 (split; [vm_compute; reflexivity|]). vm_compute. reflexivity.
Qed.

Lemma general_intent_halts_witness :
  exists state',
    invoke Sample.db (Sample.svc "general" Sample.acceptable)
      (merge_form (Sample.form "hello") (initialize_session "s1")) Sample.w0
    = Ok state' (visit intent_reviewer Sample.w0)
    /\ visited (visit intent_reviewer Sample.w0) = (visited Sample.w0 ++ [intent_reviewer])%list
    /\ response_message state' = PROMPT_GENERAL
    /\ needs_input state' = false
    /\ intent state' = "general"
    /\ refund_status state'
       = refund_status (merge_form (Sample.form "hello") (initialize_session "s1")).
Proof.
  apply (general_intent_halts Sample.db (Sample.svc "general" Sample.acceptable)
           (merge_form (Sample.form "hello") (initialize_session "s1")) Sample.w0).
  - intros Happroved. vm_compute in Happroved. discriminate.
  - vm_compute. reflexivity.
  - vm_compute. reflexivity.
Defined.

(** *** C4 *)

Lemma collector_unknown_order_witness :
  exists out,
    collector_node Sample.db
      (merge_form (Sample.form "XRD99999 arrived broken") (initialize_session "s1")) Sample.w0
    = Ok out Sample.w0
    /\ response_message out = not_found_message "XRD99999"
    /\ order_id out = None
    /\ needs_input out = true.
Proof.
  destruct (collector_unknown_order Sample.db (Sample.svc "refund" Sample.defective)
              (merge_form (Sample.form "XRD99999 arrived broken") (initialize_session "s1"))
              Sample.w0 "XRD99999")
    as (out & Hnode & Hresp & _ & Hid & Hneeds & _).
  - vm_compute. reflexivity.
  - discriminate.
  - vm_compute. reflexivity.
  - exists out. by repeat split.
Defined.

(** *** C5 *)

(** C5 at the failing input: the stored verdict of session s1 is the
    empty object [{}].  Entered again, Image Analysis does not hand the
    state back: it calls the vision service and replaces the verdict by
    the new answer; so does the walk of the next request. *)
Theorem empty_verdict_is_analyzed_again :
  stored Sample.db Trace.denied_empty
  /\ image_verdict Trace.denied_empty = Some ∅
  /\ (exists out w',
        image_analyzer_node Sample.db (Sample.svc "refund" Sample.defective)
          Trace.denied_empty Sample.w0 = Ok out w'
        /\ image_verdict out = Some Sample.defective
        /\ image_verdict out <> image_verdict Trace.denied_empty
        /\ length (vision_calls w') = S (length (vision_calls Sample.w0)))
  /\ (exists state' w',
        invoke Sample.db (Sample.svc "refund" Sample.defective)
          (merge_form (Sample.form "hello again") Trace.denied_empty) Sample.w0
        = Ok state' w'
        /\ image_verdict state' = Some Sample.defective
        /\ image_analyzer ∈ visited w'
        /\ length (vision_calls w') = 1%nat).
Proof.
  split; [exact denied_empty_stored|].
  split; [vm_compute; reflexivity|].
  split.
  - exists (Trace.state_of
              (image_analyzer_node Sample.db (Sample.svc "refund" Sample.defective)
                 Trace.denied_empty Sample.w0)),
           (Trace.world_of
              (image_analyzer_node Sample.db (Sample.svc "refund" Sample.defective)
                 Trace.denied_empty Sample.w0)).
    split; [vm_compute; reflexivity|].
    split; [vm_compute; reflexivity|].
    split; [|vm_compute; reflexivity].
    intros Hsame. apply (f_equal (fun o => o ≫= (.!! "status"))) in Hsame.
    vm_compute in Hsame. discriminate.
  - exists (Trace.state_of Trace.flip_walk), (Trace.world_of Trace.flip_walk).
    split; [vm_compute; reflexivity|].
    split; [vm_compute; reflexivity|].
    split; [|vm_compute; reflexivity].
    assert (visited (Trace.world_of Trace.flip_walk)
            = [intent_reviewer; collector; image_analyzer; decision]) as ->
      by (vm_compute; reflexivity).
    set_solver.
Qed.

(** *** C6 and X27 *)

(** C6 at the failing input: [refunds.json] holds a JSON object.  The
    read succeeds, so the [except] clause that stands for an empty ledger
    is not taken, and [refunds.append] raises [AttributeError]: the
    denied claim is not filed and the file stays as it was; for the
    approved claim the receipt has been mailed by then, and nothing is
    filed either. *)
Theorem finalizer_raises_on_non_list_ledger :
  refunds_json Trace.w_object = NotAList
  /\ refund_status Trace.denied_acceptable = "denied"
  /\ finalizer_node Sample.db (Sample.svc "refund" Sample.acceptable)
       Trace.denied_acceptable Trace.w_object
     = Raise AttributeError Trace.w_object
  /\ (exists w',
        invoke Sample.db (Sample.svc "refund" Sample.acceptable)
          (merge_form Trace.claim_form (initialize_session "s1")) Trace.w_object
        = Raise AttributeError w'
        /\ visited w' = [intent_reviewer; collector; image_analyzer; decision; finalizer]
        /\ refunds_json w' = NotAList)
  /\ (exists w',
        invoke Sample.db (Sample.svc "refund" Sample.defective)
          (merge_form (Sample.form "send it to a.b@mail.example.org please")
             Trace.approved_no_email) Trace.w_object
        = Raise AttributeError w'
        /\ visited w' = [intent_reviewer; finalizer]
        /\ refunds_json w' = NotAList
        /\ exists m, outbox w' = [m] /\ recipient m = Some "a.b@mail.example.org").
Proof.
  split; [reflexivity|].
  split; [vm_compute; reflexivity|].
  split; [vm_compute; reflexivity|].
  split.
  - exists (Trace.world_of Trace.unfiled_denial).
    do 2 (split; [vm_compute; reflexivity|]). vm_compute. reflexivity.
  - exists (Trace.world_of Trace.unfiled_approval).
    do 3 (split; [vm_compute; reflexivity|]).
    eexists. split; vm_compute; reflexivity.
Qed.

(** The denied claim of the sample is filed: one entry, in a ledger
    that did not exist before. *)
Lemma finalizer_ledger_witness :
  appendable Sample.w0
  /\ refund_status Trace.denied_acceptable <> "approved"
  /\ exists out w',
       finalizer_node Sample.db (Sample.svc "refund" Sample.acceptable)
         Trace.denied_acceptable Sample.w0 = Ok out w'
       /\ refunds_json w'
          = Ledger (rows (refunds_json Sample.w0)
                    ++ [{| l_session_id := session_id Trace.denied_acceptable;
                           l_order_id := order_id Trace.denied_acceptable;
                           l_status := refund_status Trace.denied_acceptable;
                           l_email := email Trace.denied_acceptable |}])
       /\ outbox w' = outbox Sample.w0
       /\ needs_input out = false.
Proof.
  split; [by split|].
  split; [vm_compute; discriminate|].
  destruct (finalizer_ledger Sample.db (Sample.svc "refund" Sample.acceptable)
              Trace.denied_acceptable Sample.w0) as (_ & Hlist & _).
  destruct Hlist as [_ Hother]; [by split|].
  apply Hother. vm_compute. discriminate.
Defined.

(** *** C7 *)

Lemma conversation_history_append_only_witness :
  exists state',
    sessions (serve Sample.db
                [(Sample.svc "general" Sample.acceptable, Sample.form "hello")]
                {| sessions := {[ "s1" := Trace.approved_no_email ]}; world := Sample.w0 |})
      !! "s1" = Some state'
    /\ conversation_history Trace.approved_no_email `prefix_of` conversation_history state'
    /\ (length (conversation_history Trace.approved_no_email)
        <= length (conversation_history state'))%nat.
Proof.
  apply (conversation_history_append_only Sample.db _ _ "s1" Trace.approved_no_email).
  vm_compute. reflexivity.
Defined.

(** *** C8 *)

(** C8 at the failing input: the first message of a session is "hello"
    and the classifier answers "general".  Intent Review first sets the
    history it returns to the user entry and then overwrites it with the
    help prompt, so the engine appends the prompt alone: the user's
    message is not in the stored history. *)
Theorem greeting_is_not_recorded :
  exists state' w',
    invoke Sample.db (Sample.svc "general" Sample.acceptable)
      (merge_form (Sample.form "hello") (initialize_session "s1")) Sample.w0
    = Ok state' w'
    /\ conversation_history state' = [{| role := "assistant"; content := PROMPT_GENERAL |}]
    /\ {| role := "user"; content := "hello" |} ∉ conversation_history state'.
Proof.
  exists (Trace.state_of Trace.greeting_walk), (Trace.world_of Trace.greeting_walk).
  split; [vm_compute; reflexivity|].
  assert (conversation_history (Trace.state_of Trace.greeting_walk)
          = [{| role := "assistant"; content := PROMPT_GENERAL |}]) as ->
    by (vm_compute; reflexivity).
  split; [done|]. intros [=]%list_elem_of_singleton.
Qed.

(** *** C9 *)


(** The case the amended claim leaves out: an identifier typed in lower
    case is found and bound in upper case, the bound form does not occur
    in the message, and the deletion misses it. *)
Example complaint_keeps_lower_case_identifier :
  exists out,
    collector_node Sample.db
      (merge_form (Sample.form "xrd12345 the box was crushed") (initialize_session "s1"))
      Sample.w0
    = Ok out Sample.w0
    /\ order_id out = Some "XRD12345"
    /\ complaint out = Some "xrd12345 the box was crushed".
Proof.
  exists (Trace.state_of
            (collector_node Sample.db
               (merge_form (Sample.form "xrd12345 the box was crushed")
                  (initialize_session "s1")) Sample.w0)).
  do 2 (split; [vm_compute; reflexivity|]). vm_compute. reflexivity.
Qed.


(** * Further properties of the workflow *)

(** ** What a node may write *)

Ltac fields :=
  cbn [session_id user_message sentiment_score intent language order_id complaint
       image_path image_verdict refund_status email current_node response_message
       needs_input conversation_history
       set_user_message set_sentiment_score set_intent set_language set_order_id
       set_complaint set_image_path set_image_verdict set_refund_status set_email
       set_current_node set_response_message set_needs_input set_conversation_history
       reply collect_image apply_writes] in *.

(** No node writes [session_id], [user_message] or [image_path]; a
    complaint or a verdict that is there is not written again; and every
    node returns a history of at most one entry or the one it got. *)
Lemma node_fn_frame orders_db svc n chan w out w' :
  node_fn orders_db svc n chan w = Ok out w' ->
  session_id out = session_id chan
  /\ user_message out = user_message chan
  /\ image_path out = image_path chan
  /\ (truthy (complaint chan) = true -> complaint out = complaint chan)
  /\ (truthy_dict (image_verdict chan) = true -> image_verdict out = image_verdict chan).
Proof.
  destruct n; cbn [node_fn].
  - unfold intent_reviewer_node, email_capture, ret. cbv zeta.
    repeat case_match; intros; simplify_eq; fields; done.
  - unfold collector_node, bind_order_id, collect_image, ret. cbv zeta. fields.
    repeat case_match; intros; simplify_eq; fields; try done.
    all: repeat split; try done.
    all: intros; destruct (truthy (complaint chan)); simplify_eq/=.
  - unfold image_analyzer_node, bind, log_vision, ret, raise.
    repeat case_match; intros; simplify_eq; fields; try done.
    all: repeat split; try done; congruence.
  - unfold decision_node, ret, raise. cbv zeta. fields.
    repeat case_match; intros; simplify_eq; fields; done.
  - unfold finalizer_node, bind, send_receipt, ret, raise.
    repeat case_match; intros Hnode; simplify_eq; fields; try done.
    all: by apply log_transaction_returns in Hnode as [_ ->].
Qed.

(** ** What a node does to the world *)

(** Only Image Analysis calls the vision service, at most once and only
    without a verdict; only the Finalizer touches the ledger and the mail
    service, and it either re-prompts and touches neither or appends one
    entry, with one mail exactly when the status is approved. *)
Lemma node_fn_effects orders_db svc n chan w out w' :
  node_fn orders_db svc n chan w = Ok out w' ->
  visited w' = visited w
  /\ match n with
     | image_analyzer =>
         refunds_json w' = refunds_json w /\ outbox w' = outbox w
         /\ (vision_calls w' = vision_calls w /\ truthy_dict (image_verdict chan) = true
             \/ truthy_dict (image_verdict chan) = false
                /\ exists order,
                     order_id chan ≫= (orders_db !!.) = Some order
                     /\ vision_calls w'
                        = (vision_calls w
                           ++ [(image_path chan,
                                vision_context order (set_current_node "image_analyzer" chan))])%list
                     /\ image_verdict out
                        = Some (analyze_product_image svc (image_path chan)
                                  (vision_context order
                                     (set_current_node "image_analyzer" chan))))
     | finalizer =>
         vision_calls w' = vision_calls w
         /\ ledger_entry out = ledger_entry chan
         /\ (refunds_json w' = refunds_json w /\ outbox w' = outbox w
             /\ needs_input out = true
             /\ refund_status chan = "approved" /\ _is_valid_email (email chan) = false
             \/ appendable w
                /\ refunds_json w'
                   = Ledger (rows (refunds_json w) ++ [ledger_entry chan])
                /\ needs_input out = false
                /\ (refund_status chan <> "approved" /\ outbox w' = outbox w
                    \/ refund_status chan = "approved"
                       /\ _is_valid_email (email chan) = true
                       /\ exists v,
                            image_verdict chan = Some v
                            /\ outbox w'
                               = (outbox w
                                  ++ [{| recipient := email chan;
                                         body := "Refund: " +:+ fmt_opt (order_id chan);
                                         order_ref :=
                                           render_receipt svc
                                             (order_id chan ≫= (orders_db !!.)) v |}])%list))
     | _ => w' = w
     end.
Proof.
  destruct n; cbn [node_fn].
  - destruct (intent_reviewer_frame svc chan w) as (out' & -> & _). by intros [= <- <-].
  - destruct (collector_frame orders_db chan w) as (out' & -> & _). by intros [= <- <-].
  - unfold image_analyzer_node, bind, log_vision, ret, raise. cbv zeta. fields.
    destruct (truthy_dict (image_verdict chan)) eqn:Hmemo.
    + intros [= <- <-]. repeat split; auto.
    + destruct (order_id chan ≫= (orders_db !!.)) as [order|]; [|done].
      intros [= <- <-]. cbn. repeat split; try done. right. split; [done|]. eauto.
  - unfold decision_node, ret, raise. cbv zeta. fields.
    repeat case_match; intros; by simplify_eq.
  - unfold finalizer_node, bind, send_receipt, ret, raise.
    case_bool_decide as Hst.
    + destruct (_is_valid_email (email chan)) eqn:Hmail; cbn [negb].
      * destruct (image_verdict chan) as [v|] eqn:Hv; [|done].
        intros Hlog. pose proof (log_transaction_returns _ _ _ _ Hlog) as [Hlist ->].
        rewrite log_transaction_spec in Hlog by done. injection Hlog as <-.
        split; [done|]. split; [done|]. split; [done|]. right.
        split; [exact Hlist|]. split; [done|]. split; [done|]. right.
        split; [done|]. split; [done|]. by exists v.
      * intros [= <- <-]. cbn. repeat split; try done. left. by repeat split.
    + intros Hlog. pose proof (log_transaction_returns _ _ _ _ Hlog) as [Hlist ->].
      rewrite log_transaction_spec in Hlog by done. injection Hlog as <-.
      split; [done|]. split; [done|]. split; [done|]. right.
      split; [exact Hlist|]. split; [done|]. split; [done|]. by left.
Qed.

(** No node changes whether the ledger can be written. *)
Lemma node_fn_writable orders_db svc n chan w out w' :
  node_fn orders_db svc n chan w = Ok out w' -> ledger_writable w' = ledger_writable w.
Proof.
  intros Hnode. pose proof (node_fn_effects _ _ _ _ _ _ _ Hnode) as [_ Heff].
  destruct n; try by subst.
  - revert Hnode. cbn [node_fn]. unfold image_analyzer_node, bind, log_vision, ret, raise.
    repeat case_match; intros; by simplify_eq.
  - revert Hnode. cbn [node_fn]. unfold finalizer_node, bind, send_receipt, ret, raise.
    repeat case_match; intros Hnode; simplify_eq; try done.
    all: pose proof (log_transaction_returns _ _ _ _ Hnode) as [Hok ->].
    all: rewrite log_transaction_spec in Hnode by done; injection Hnode as <-.
    all: destruct Hok as [_ Hok]; cbn in Hok |- *; by rewrite Hok.
Qed.

(** ** Whole walks *)

(** X1: a walk that returns has run the nodes of one of the five routes
    of the graph, in order, each once. *)
Theorem walk_follows_a_route orders_db svc input w state' w' :
  invoke orders_db svc input w = Ok state' w' ->
  exists route, route ∈ routes /\ visited w' = (visited w ++ route)%list.
Proof.
  unfold invoke. intros Hrun.
  apply (run_post orders_db svc
           (fun n _ w1 => exists p, p ∈ before n /\ visited w1 = (visited w ++ p)%list)
           (fun _ w1 => exists route, route ∈ routes /\ visited w1 = (visited w ++ route)%list))
    in Hrun; [done| |].
  - clear. intros n chan w1 out w2 (p & Hp & Hvis) Hnode.
    apply node_fn_effects in Hnode as [Hv _]. cbn [visited visit] in Hv.
    rewrite Hvis, <- (assoc_L (++)) in Hv.
    pose proof (next_node_edges n (apply_writes chan out)) as Hedge.
    destruct n; cbn [before] in Hp; set_unfold in Hp; destruct_or?; subst p;
      destruct_or?; rewrite Hedge; (eexists; split; [|exact Hv]);
      unfold routes; cbn [before]; set_solver.
  - exists []. split; [set_solver|]. by rewrite (right_id_L [] (++)).
Qed.

(** The ledger and the mail service after a walk that returns. *)
Lemma walk_effects orders_db svc input w state' w' :
  invoke orders_db svc input w = Ok state' w' ->
  untouched w w' \/ filed w state' w'.
Proof.
  unfold invoke. intros Hrun.
  apply (run_post orders_db svc
           (fun _ _ w1 => untouched w w1 /\ ledger_writable w1 = ledger_writable w)
           (fun s1 w1 => untouched w w1 \/ filed w s1 w1)) in Hrun; [done| |done].
  clear. intros n chan w1 out w2 [[Hledger Hmail] Hwrite] Hnode.
  pose proof (node_fn_writable _ _ _ _ _ _ _ Hnode) as Hkeeps.
  apply node_fn_effects in Hnode as [_ Heff].
  pose proof (next_node_edges n (apply_writes chan out)) as Hedge.
  destruct n.
  1,2,4: subst w2; repeat case_match; try done; by left.
  - destruct Heff as (Hl & Hm & _).
    rewrite Hedge. unfold untouched. by rewrite Hl, Hm, Hkeeps.
  - rewrite Hedge.
    destruct Heff as (_ & Hentry & [(Hl & Hm & _)|([Hlist Hok] & Hl & Hneeds & Hsent)]).
    + left. unfold untouched. by rewrite Hl, Hm.
    + right. unfold filed, appendable, ledger_entry in *. fields.
      cbn [refunds_json ledger_writable outbox visit] in *.
      injection Hentry as Hsid Hoid Hst Hem. rewrite Hledger in Hlist. rewrite Hwrite in Hok.
      rewrite Hl, Hledger, Hsid, Hoid, Hst, Hem. split; [done|]. split; [done|].
      split; [done|].
      destruct Hsent as [[Hno Hm]|(Hyes & Hvalid & v & _ & Hm)].
      * left. by rewrite Hm, Hmail.
      * right. split; [done|]. split; [done|]. eexists. by rewrite Hm, Hmail.
Qed.

(** X2: a walk that returns appends at most one entry to the ledger,
    and only to one that could be appended to; the entry describes the
    state the walk ends in, and a walk that ends asking for input appends
    none. *)
Theorem walk_files_at_most_once orders_db svc input w state' w' :
  invoke orders_db svc input w = Ok state' w' ->
  (refunds_json w' = refunds_json w
   \/ appendable w
      /\ refunds_json w' = Ledger (rows (refunds_json w) ++ [ledger_entry state'])
      /\ needs_input state' = false)
  /\ (needs_input state' = true -> refunds_json w' = refunds_json w).
Proof.
  intros Hrun.
  destruct (walk_effects _ _ _ _ _ _ Hrun) as [[Hl _]|(Hlist & Hl & Hneeds & _)].
  - split; [by left|done].
  - split; [by right|]. by rewrite Hneeds.
Qed.

(** X3: a walk that returns hands at most one mail to the mail service,
    and only when it ends approved, filed, and with an address in the
    state that passes [_is_valid_email]; the mail goes to that address. *)
Theorem walk_mails_only_approved orders_db svc input w state' w' :
  invoke orders_db svc input w = Ok state' w' ->
  outbox w' = outbox w
  \/ refund_status state' = "approved"
     /\ _is_valid_email (email state') = true
     /\ needs_input state' = false
     /\ exists m, outbox w' = (outbox w ++ [m])%list /\ recipient m = email state'.
Proof.
  intros Hrun.
  destruct (walk_effects _ _ _ _ _ _ Hrun) as [[_ Hm]|(_ & _ & Hneeds & [[_ Hm]|Hsent])];
    [by left..|].
  right. destruct Hsent as (? & ? & ?). by repeat split.
Qed.

(** X4: a walk that returns calls the vision service at most once, and
    not at all when the state it starts from carries a non-empty
    verdict. *)
Theorem walk_asks_vision_at_most_once orders_db svc input w state' w' :
  invoke orders_db svc input w = Ok state' w' ->
  vision_calls w' = vision_calls w
  \/ truthy_dict (image_verdict input) = false
     /\ exists call, vision_calls w' = (vision_calls w ++ [call])%list.
Proof.
  unfold invoke. intros Hrun.
  set (asked w1 := truthy_dict (image_verdict input) = false
                   /\ exists call, vision_calls w1 = (vision_calls w ++ [call])%list).
  apply (run_post orders_db svc
           (fun n chan w1 =>
              match n with
              | intent_reviewer | collector | image_analyzer =>
                  vision_calls w1 = vision_calls w
                  /\ image_verdict chan = image_verdict input
              | decision | finalizer => vision_calls w1 = vision_calls w \/ asked w1
              end)
           (fun _ w1 => vision_calls w1 = vision_calls w \/ asked w1)) in Hrun; [done| |done].
  clear state' w' Hrun. intros n chan w1 out w2 HJ Hnode.
  pose proof (node_fn_effects _ _ _ _ _ _ _ Hnode) as [_ Heff].
  pose proof (next_node_edges n (apply_writes chan out)) as Hedge.
  destruct n; cbn [node_fn] in Hnode.
  - destruct HJ as [Hcalls Hv]. subst w2.
    destruct (intent_reviewer_frame svc chan (visit intent_reviewer w1))
      as (out' & Heq & _ & Hkeep).
    rewrite Heq in Hnode. injection Hnode as ->.
    destruct_or?; rewrite Hedge; fields; cbn [vision_calls visit]; auto.
    split; [done|]. by rewrite Hkeep.
  - destruct HJ as [Hcalls Hv]. subst w2.
    destruct (collector_frame orders_db chan (visit collector w1))
      as (out' & Heq & _ & Hkeep & _).
    rewrite Heq in Hnode. injection Hnode as ->.
    destruct_or?; rewrite Hedge; fields; cbn [vision_calls visit]; auto.
    split; [done|]. by rewrite Hkeep.
  - destruct HJ as [Hcalls Hv]. rewrite Hedge.
    destruct Heff as (_ & _ & [[Hsame _]|(Hnone & order & _ & Hcall & _)]).
    + left. by rewrite Hsame.
    + right. split; [by rewrite <- Hv|]. eexists. rewrite Hcall. cbn. by rewrite Hcalls.
  - subst w2. destruct Hedge as [-> | ->]; exact HJ.
  - destruct Heff as (Hsame & _). rewrite Hedge. unfold asked in *. rewrite Hsame.
    exact HJ.
Qed.

(** ** What a session keeps across requests *)

Lemma merge_form_frame form state :
  session_id (merge_form form state) = session_id state
  /\ complaint (merge_form form state) = complaint state
  /\ image_verdict (merge_form form state) = image_verdict state.
Proof.
  unfold merge_form, merge_image, merge_email, merge_message.
  repeat case_match; by cbn.
Qed.

(** A property of a stored session that every returning walk over the
    session merged with a request keeps is kept by the store through any
    sequence of requests. *)
Lemma serve_keeps orders_db (P : AgentState -> Prop) :
  (forall svc form state w state' w',
     P state -> invoke orders_db svc (merge_form form state) w = Ok state' w' -> P state') ->
  forall requests srv sid state,
    sessions srv !! sid = Some state -> P state ->
    exists state', sessions (serve orders_db requests srv) !! sid = Some state' /\ P state'.
Proof.
  intros Hwalk. induction requests as [|[svc form] rest IH]; intros srv sid state Hsid HP.
  - by exists state.
  - cbn [serve].
    assert (exists mid, sessions (fst (chat orders_db svc form srv)) !! sid = Some mid /\ P mid)
      as (mid & Hmid & HPmid); [|by eapply IH].
    unfold chat. cbv zeta.
    destruct (decide (f_session_id form = sid)) as [->|Hother].
    + rewrite !Hsid. cbn [default from_option id].
      destruct (save_and_invoke orders_db svc form (merge_form form state) (world srv))
        as [result w|e w] eqn:Hrun; cbn [fst sessions].
      * exists result. rewrite lookup_insert_eq. split; [done|].
        apply save_and_invoke_returns in Hrun. by eapply Hwalk.
      * by exists state.
    + exists state.
      set (store := match sessions srv !! f_session_id form with
                    | Some _ => sessions srv
                    | None => <[f_session_id form := initialize_session (f_session_id form)]>
                                (sessions srv)
                    end).
      assert (store !! sid = Some state) as Hstore.
      { unfold store. destruct (sessions srv !! f_session_id form); [done|].
        by rewrite lookup_insert_ne. }
      destruct (save_and_invoke orders_db svc form _ (world srv)) as [result w|e w]; cbn [fst sessions].
      * by rewrite lookup_insert_ne.
      * done.
Qed.

(** X5: a complaint, once bound, is never written again: whatever
    requests follow, the session keeps it. *)
Theorem complaint_is_set_once orders_db requests srv sid state c :
  sessions srv !! sid = Some state ->
  complaint state = Some c -> c <> "" ->
  exists state', sessions (serve orders_db requests srv) !! sid = Some state'
    /\ complaint state' = Some c.
Proof.
  intros Hsid Hc Hne.
  refine (serve_keeps orders_db (fun s => complaint s = Some c) _ requests srv sid state Hsid Hc).
  clear -Hne. intros svc form state w state' w' Hc. unfold invoke.
  apply (run_keeps orders_db svc (fun s => complaint s = Some c)).
  - intros n chan w0 out w1 Hchan Hnode.
    apply node_fn_frame in Hnode as (_ & _ & _ & Hkeep & _). fields.
    rewrite Hkeep; [done|]. rewrite Hchan. cbn. by rewrite bool_decide_eq_false_2.
  - fields. by destruct (merge_form_frame form state) as (_ & -> & _).
Qed.

(** X6: a verdict that is not the empty object is computed once:
    whatever requests follow, images included, the session keeps it. *)
Theorem verdict_is_computed_once orders_db requests srv sid state v :
  sessions srv !! sid = Some state ->
  image_verdict state = Some v -> v <> ∅ ->
  exists state', sessions (serve orders_db requests srv) !! sid = Some state'
    /\ image_verdict state' = Some v.
Proof.
  intros Hsid Hv Hne.
  refine (serve_keeps orders_db (fun s => image_verdict s = Some v) _
            requests srv sid state Hsid Hv).
  clear -Hne. intros svc form state w state' w' Hv. unfold invoke.
  apply (run_keeps orders_db svc (fun s => image_verdict s = Some v)).
  - intros n chan w0 out w1 Hchan Hnode.
    apply node_fn_frame in Hnode as (_ & _ & _ & _ & Hkeep). fields.
    rewrite Hkeep; [done|]. rewrite Hchan. cbn. by rewrite bool_decide_eq_false_2.
  - fields. by destruct (merge_form_frame form state) as (_ & _ & ->).
Qed.

(** A walk does not write [session_id]. *)
Lemma invoke_session_id orders_db svc input w state' w' :
  invoke orders_db svc input w = Ok state' w' -> session_id state' = session_id input.
Proof.
  unfold invoke.
  apply (run_keeps orders_db svc (fun s => session_id s = session_id input)); [|done].
  intros n chan w0 out w1 Hchan Hnode.
  apply node_fn_frame in Hnode as (Hsid & _). fields. by rewrite Hsid.
Qed.

(** X7: in a process started with no session, every stored session is
    filed under its own [session_id], whatever requests were served. *)
Theorem sessions_are_keyed_by_id orders_db requests w sid state :
  sessions (serve orders_db requests (boot w)) !! sid = Some state ->
  session_id state = sid.
Proof.
  assert (forall srv,
            (forall k s, sessions srv !! k = Some s -> session_id s = k) ->
            forall k s, sessions (serve orders_db requests srv) !! k = Some s ->
                        session_id s = k) as Hkeyed.
  { induction requests as [|[svc form] rest IH]; intros srv Hsrv; [done|].
    cbn [serve]. apply IH. clear IH. intros k s. unfold chat. cbv zeta.
    set (store := match sessions srv !! f_session_id form with
                  | Some _ => sessions srv
                  | None => <[f_session_id form := initialize_session (f_session_id form)]>
                              (sessions srv)
                  end).
    assert (forall k s, store !! k = Some s -> session_id s = k) as Hstore.
    { intros k0 s0. unfold store. destruct (sessions srv !! f_session_id form); [by auto|].
      destruct (decide (f_session_id form = k0)) as [<-|Hne].
      - rewrite lookup_insert_eq. by intros [= <-].
      - rewrite lookup_insert_ne by done. auto. }
    destruct (save_and_invoke orders_db svc form _ (world srv)) as [result w1|e w1] eqn:Hrun;
      cbn [fst sessions]; [|by auto].
    destruct (decide (f_session_id form = k)) as [<-|Hne].
    - rewrite lookup_insert_eq. intros [= <-].
      apply save_and_invoke_returns, invoke_session_id in Hrun. rewrite Hrun.
      destruct (merge_form_frame form
                  (default (initialize_session (f_session_id form))
                     (store !! f_session_id form))) as (-> & _).
      destruct (store !! f_session_id form) as [s0|] eqn:Hs0; cbn; [by eapply Hstore|done].
    - rewrite lookup_insert_ne by done. auto. }
  apply Hkeyed. intros k s. unfold boot. cbn. by rewrite lookup_empty.
Qed.

(** ** The email pattern *)

Lemma app_String c m x : String c m +:+ x = String c (m +:+ x).
Proof. reflexivity. Qed.

Lemma app_empty_l x : "" +:+ x = x.
Proof. reflexivity. Qed.

Lemma str_length_app m x :
  String.length (m +:+ x) = (String.length m + String.length x)%nat.
Proof. induction m as [|c m IH]; [done|]. rewrite app_String. cbn. by rewrite IH. Qed.

Lemma take_app_exact m x :
  PyStr.take (String.length (m +:+ x) - String.length x) (m +:+ x) = m.
Proof.
  rewrite str_length_app. replace (_ + _ - _)%nat with (String.length m) by lia.
  induction m as [|c m IH]; [by destruct x|]. rewrite app_String. cbn. by rewrite IH.
Qed.

Lemma accept_extends : extends Re.accept.
Proof. intros prev m x r _. unfold Re.accept. eauto. Qed.

Lemma accept_exact : exact Re.accept.
Proof. intros prev s rest [= ->]. exists "". by split. Qed.

Lemma chr_extends p k : extends k -> extends (Re.chr p k).
Proof.
  intros Hk prev [|c m] x r; [done|]. rewrite app_String. cbn.
  destruct (p c); [|done]. apply Hk.
Qed.

Lemma chr_exact p k : exact k -> exact (Re.chr p k).
Proof.
  intros Hk prev [|c s] rest; [done|]. cbn. destruct (p c) eqn:Hp; [|done].
  intros (m & -> & Hm)%Hk. exists (String c m). split; [done|]. cbn. by rewrite Hp.
Qed.

Lemma plus_extends p k : extends k -> extends (Re.plus p k).
Proof.
  intros Hk prev m. revert prev. induction m as [|c m IH]; intros prev x r; [done|].
  rewrite app_String. cbn. destruct (p c); [|done].
  destruct (Re.plus p k (Some c) m) as [r1|] eqn:Hlong.
  - intros _. destruct (IH (Some c) x r1 Hlong) as [r2 ->]. eauto.
  - intros Hshort. destruct (Re.plus p k (Some c) (m +:+ x)); [eauto|].
    by eapply Hk.
Qed.

Lemma plus_exact p k : extends k -> exact k -> exact (Re.plus p k).
Proof.
  intros Hext Hk prev s. revert prev.
  induction s as [|c s IH]; intros prev rest; [done|]. cbn.
  destruct (p c) eqn:Hp; [|done].
  destruct (Re.plus p k (Some c) s) as [r1|] eqn:Hlong.
  - intros [= ->]. destruct (IH _ _ Hlong) as (m & -> & Hm).
    exists (String c m). split; [done|]. cbn. by rewrite Hp, Hm.
  - intros (m & -> & Hm)%Hk. exists (String c m). split; [done|]. cbn. rewrite Hp.
    destruct (Re.plus p k (Some c) m) as [r2|] eqn:Hm2; [|done].
    destruct (plus_extends p k Hext (Some c) m rest r2 Hm2) as [r3 Hr3]. congruence.
Qed.

Lemma plus_prev p k prev prev' s : Re.plus p k prev s = Re.plus p k prev' s.
Proof. by destruct s. Qed.

Lemma EMAIL_exact : exact Re.EMAIL.
Proof.
  unfold Re.EMAIL.
  repeat first [ apply plus_exact | apply chr_exact | apply accept_exact
               | apply plus_extends | apply chr_extends | apply accept_extends ].
Qed.

(** What [re.search] with the email pattern returns matches the pattern
    from its first to its last character. *)
Lemma email_search_exact prev s i t :
  Re.search_from Re.EMAIL prev s = Some (i, t) -> Re.EMAIL None t = Some "" /\ t <> "".
Proof.
  revert prev i. induction s as [|c s IH]; intros prev i; cbn [Re.search_from].
  - destruct (Re.EMAIL prev "") eqn:Hm; [|done]. by vm_compute in Hm.
  - destruct (Re.EMAIL prev (String c s)) as [rest|] eqn:Hm.
    + intros [= <- <-]. destruct (EMAIL_exact _ _ _ Hm) as (m & Heq & Hwhole).
      change (S (String.length s)) with (String.length (String c s)).
      rewrite Heq, take_app_exact. split.
      * unfold Re.EMAIL in *. by rewrite (plus_prev _ _ None prev).
      * intros ->. by vm_compute in Hwhole.
    + destruct (Re.search_from Re.EMAIL (Some c) s) as [[j u]|] eqn:Hrec; [|done].
      intros [= <- <-]. by eapply IH.
Qed.

Lemma take_all t : PyStr.take (String.length t - 0) t = t.
Proof. rewrite Nat.sub_0_r. induction t as [|c t IH]; [done|]. cbn. by rewrite IH. Qed.

Lemma captured_email_matches s t :
  Re.search Re.EMAIL s = Some t -> Re.search Re.EMAIL t = Some t /\ t <> "".
Proof.
  unfold Re.search. destruct (Re.search_from Re.EMAIL None s) as [[i u]|] eqn:Hs; [|done].
  intros [= <-]. apply email_search_exact in Hs as [Hwhole Hne]. split; [|done].
  destruct u as [|c u]; [done|]. cbn [Re.search_from]. rewrite Hwhole.
  cbn [fmap option_fmap option_map snd]. change (String.length "") with 0%nat.
  by rewrite take_all.
Qed.

Lemma captured_email_valid s t :
  Re.search Re.EMAIL s = Some t -> _is_valid_email (Some t) = true.
Proof.
  intros [Hagain Hne]%captured_email_matches. unfold _is_valid_email.
  cbn [truthy default from_option id]. rewrite bool_decide_eq_false_2 by done. cbn [negb].
  rewrite Hagain. by apply bool_decide_eq_true_2.
Qed.

(** X8: the text Intent Review captures as an email is not empty, is
    itself found by the pattern from first to last character, and so
    always passes the Finalizer's validation. *)
Theorem captured_email_is_valid s t :
  Re.search Re.EMAIL s = Some t ->
  t <> "" /\ Re.search Re.EMAIL t = Some t /\ _is_valid_email (Some t) = true.
Proof.
  intros Hfound. destruct (captured_email_matches s t Hfound) as [Hagain Hne].
  split; [done|]. split; [done|]. by eapply captured_email_valid.
Qed.

(** X9: an approved claim with its verdict, a message with an email in
    it, and a ledger that can be appended to (the file is missing, is not
    JSON or holds a list, and can be written): the walk goes from Intent Review straight to the Finalizer and
    returns; the address found is bound, the receipt goes to it, one
    "approved" entry with it is appended to the ledger, and the turn ends
    with the success message and [needs_input = False]. *)
Theorem email_after_approval_finalizes orders_db svc input w v t :
  refund_status input = "approved" ->
  image_verdict input = Some v ->
  Re.search Re.EMAIL (PyStr.strip (user_message input)) = Some t ->
  appendable w ->
  exists state' w',
    invoke orders_db svc input w = Ok state' w'
    /\ visited w' = (visited w ++ [intent_reviewer; finalizer])%list
    /\ email state' = Some t
    /\ refund_status state' = "approved"
    /\ needs_input state' = false
    /\ response_message state' = "Success! Receipt sent to " +:+ t +:+ "."
    /\ refunds_json w'
       = Ledger (rows (refunds_json w)
                 ++ [{| l_session_id := session_id input; l_order_id := order_id input;
                        l_status := "approved"; l_email := Some t |}])
    /\ outbox w'
       = (outbox w
          ++ [{| recipient := Some t;
                 body := "Refund: " +:+ fmt_opt (order_id input);
                 order_ref := render_receipt svc (order_id input ≫= (orders_db !!.)) v |}])%list.
Proof.
  intros Hst Hv Hfound Hlist. pose proof (captured_email_valid _ _ Hfound) as Hvalid.
  unfold invoke, recursion_limit. rewrite run_S. cbn [node_fn].
  unfold intent_reviewer_node, email_capture, ret. cbv zeta. fields.
  rewrite bool_decide_eq_true_2 by done. rewrite Hfound.
  cbn [next_node]. unfold route_after_intent. fields.
  rewrite bool_decide_eq_true_2 by done.
  change (pick "finalize" _) with (@inr exn _ (Some finalizer)). cbv beta iota.
  rewrite run_S. cbn [node_fn next_node].
  unfold finalizer_node. fields. rewrite bool_decide_eq_true_2 by done.
  rewrite Hvalid, Hv. cbn [negb]. unfold bind, send_receipt.
  rewrite log_transaction_spec by exact Hlist.
  eexists _, _. split; [reflexivity|].
  unfold ledger_entry. fields. cbn [visited visit refunds_json outbox fmt_opt default
    from_option id]. rewrite Hst. repeat split; try done.
  by rewrite <- (assoc_L (++)).
Qed.

(** ** The order pattern *)

Ltac consumed s rest :=
  lazymatch s with
  | rest => constr:(EmptyString)
  | String ?c ?s' => let m := consumed s' rest in constr:(String c m)
  end.

Lemma ORDER_ID_token prev s rest :
  Re.ORDER_ID prev s = Some rest ->
  exists t, s = t +:+ rest /\ is_order_token t = true.
Proof.
  unfold Re.ORDER_ID, Re.wordb, Re.opt, Re.chr, Re.accept. cbv zeta.
  intros H.
  repeat match type of H with
         | context [match ?x with EmptyString => _ | String _ _ => _ end] =>
             is_var x; destruct x; cbn [Re.head] in H; try discriminate H
         | context [if ?b then _ else _] =>
             let E := fresh "E" in destruct b eqn:E; try discriminate H
         end.
  all: injection H as <-.
  all: match goal with
       | |- exists t, ?s = t +:+ ?r /\ _ => let m := consumed s r in exists m
       end.
  all: split; [reflexivity|].
  all: cbn [is_order_token all_digits String.length];
       repeat match goal with E : _ = true |- _ => rewrite E; clear E end;
       reflexivity.
Qed.

Lemma order_search_token prev s i t :
  Re.search_from Re.ORDER_ID prev s = Some (i, t) -> is_order_token t = true.
Proof.
  revert prev i. induction s as [|c s IH]; intros prev i; cbn [Re.search_from].
  - destruct (Re.ORDER_ID prev "") eqn:Hm; [|done].
    apply ORDER_ID_token in Hm as (m & Heq & Htok). by destruct m.
  - destruct (Re.ORDER_ID prev (String c s)) as [rest|] eqn:Hm.
    + intros [= <- <-]. destruct (ORDER_ID_token _ _ _ Hm) as (m & Heq & Htok).
      change (S (String.length s)) with (String.length (String c s)).
      by rewrite Heq, take_app_exact.
    + destruct (Re.search_from Re.ORDER_ID (Some c) s) as [[j u]|] eqn:Hrec; [|done].
      intros [= <- <-]. by eapply IH.
Qed.

Lemma upper_digit c : PyStr.isdigit c = true -> PyStr.upper_char c = c.
Proof.
  unfold PyStr.upper_char, PyStr.islower, PyStr.isdigit, PyStr.in_range.
  intros [H1 H2]%andb_prop. apply N.leb_le in H1, H2.
  destruct (97 <=? PyStr.code c)%N eqn:H3; [|done]. apply N.leb_le in H3. lia.
Qed.

Lemma upper_digits ds : all_digits ds = true -> PyStr.upper ds = ds.
Proof.
  induction ds as [|c ds IH]; [done|]. cbn. intros [Hc Hds]%andb_prop.
  by rewrite upper_digit, IH.
Qed.

Lemma upper_token t : is_order_token t = true -> well_formed_id (PyStr.upper t).
Proof.
  destruct t as [|x [|r [|d ds]]]; [done..|]. cbn [is_order_token].
  intros H. repeat (apply andb_prop in H as [H ?]).
  unfold Re.is_ci in *. repeat match goal with
    | E : bool_decide _ = true |- _ => apply bool_decide_eq_true in E end.
  exists ds. cbn [PyStr.upper]. rewrite upper_digits by done.
  repeat match goal with E : PyStr.upper_char _ = _ |- _ => rewrite E; clear E end.
  split; [reflexivity|]. split; [done|].
  split; [by apply Nat.leb_le|by apply Nat.leb_le].
Qed.

Lemma found_order_id_well_formed s m :
  Re.search Re.ORDER_ID s = Some m -> well_formed_id (PyStr.upper m).
Proof.
  unfold Re.search. destruct (Re.search_from Re.ORDER_ID None s) as [[i u]|] eqn:Hs; [|done].
  intros [= <-]. apply upper_token. by eapply order_search_token.
Qed.

(** Neither the transport nor a walk binds an identifier other than the
    upper-cased text the order pattern finds. *)
Lemma walk_binds_well_formed_ids orders_db svc form state w state' w' :
  (forall oid, order_id state = Some oid -> well_formed_id oid) ->
  invoke orders_db svc (merge_form form state) w = Ok state' w' ->
  forall oid, order_id state' = Some oid -> well_formed_id oid.
Proof.
  intros IH Hwalk.
  assert (forall oid, order_id (merge_form form state) = Some oid -> well_formed_id oid)
    as Hmerged.
  { unfold merge_form, merge_image, merge_email, merge_message.
    repeat case_match; fields; intros oid Hoid; simplify_eq;
      eauto using found_order_id_well_formed. }
  unfold invoke in Hwalk.
  refine (run_keeps orders_db svc
            (fun s => forall oid, order_id s = Some oid -> well_formed_id oid)
            _ _ _ _ _ _ _ _ Hwalk); [|by fields].
  clear. intros n chan w out w' Hchan Hnode oid. fields.
  destruct n; cbn [node_fn] in Hnode.
  - revert Hnode. unfold intent_reviewer_node, email_capture, ret. cbv zeta.
    repeat case_match; intros; simplify_eq; fields; eauto.
  - revert Hnode. unfold collector_node, bind_order_id, collect_image, ret. cbv zeta. fields.
    repeat case_match; intros; simplify_eq; fields; simplify_eq;
      eauto using found_order_id_well_formed.
  - revert Hnode. unfold image_analyzer_node, bind, log_vision, ret, raise.
    repeat case_match; intros; simplify_eq; fields; eauto.
  - revert Hnode. unfold decision_node, ret, raise. cbv zeta. fields.
    repeat case_match; intros; simplify_eq; fields; eauto.
  - revert Hnode. unfold finalizer_node, bind, send_receipt, ret, raise.
    repeat case_match; intros Hnode; simplify_eq; fields; eauto.
    all: apply log_transaction_returns in Hnode as [_ ->]; fields; eauto.
Qed.

(** X10: in a process started with no session and served requests whose
    messages are of ASCII characters, the order identifier of every
    stored session is XRD followed by four to six of the digits 0 to 9:
    the transport and the Collector bind nothing but the upper-cased text
    the order pattern finds. *)
Theorem stored_order_id_is_well_formed orders_db requests w sid state oid :
  Forall (fun r => forall m, f_message (snd r) = Some m -> PyStr.ascii_text m = true)
    requests ->
  sessions (serve orders_db requests (boot w)) !! sid = Some state ->
  order_id state = Some oid -> well_formed_id oid.
Proof.
  intros _.
  assert (forall srv,
            (forall k s, sessions srv !! k = Some s ->
                         forall oid, order_id s = Some oid -> well_formed_id oid) ->
            forall k s, sessions (serve orders_db requests srv) !! k = Some s ->
                        forall oid, order_id s = Some oid -> well_formed_id oid) as Hall.
  { induction requests as [|[svc form] rest IH]; intros srv Hsrv; [done|].
    cbn [serve]. apply IH. clear IH. intros k s. unfold chat. cbv zeta.
    set (store := match sessions srv !! f_session_id form with
                  | Some _ => sessions srv
                  | None => <[f_session_id form := initialize_session (f_session_id form)]>
                              (sessions srv)
                  end).
    assert (forall k s, store !! k = Some s ->
                        forall oid, order_id s = Some oid -> well_formed_id oid) as Hstore.
    { intros k0 s0. unfold store. destruct (sessions srv !! f_session_id form); [by eauto|].
      destruct (decide (f_session_id form = k0)) as [<-|Hne].
      - rewrite lookup_insert_eq. by intros [= <-].
      - rewrite lookup_insert_ne by done. eauto. }
    destruct (save_and_invoke orders_db svc form _ (world srv)) as [result w1|e w1] eqn:Hrun;
      cbn [fst sessions]; [|by eauto].
    destruct (decide (f_session_id form = k)) as [<-|Hne].
    - rewrite lookup_insert_eq. intros [= <-]. apply save_and_invoke_returns in Hrun.
      eapply walk_binds_well_formed_ids; [|exact Hrun].
      destruct (store !! f_session_id form) as [s0|] eqn:Hs0; cbn; [by eauto|done].
    - rewrite lookup_insert_ne by done. eauto. }
  intros Hsid. eapply Hall; [|exact Hsid].
  intros k s. unfold boot. cbn. by rewrite lookup_empty.
Qed.

(** ** The Collector's gate *)

Lemma long_is_truthy s : (10 <? String.length s)%nat = true -> truthy (Some s) = true.
Proof. destruct s; [done|]. intros _. cbn. by rewrite bool_decide_eq_false_2. Qed.

(** X11: the Collector always returns; it lets the walk on to Image
    Analysis exactly when it leaves a non-empty identifier of the
    catalogue, a non-empty complaint and an image path in the state, and
    it never leaves a non-empty identifier bound that the catalogue does
    not have. *)
Theorem collector_gate orders_db chan w :
  exists out, collector_node orders_db chan w = Ok out w
    /\ (next_node collector (apply_writes chan out) = inr (Some image_analyzer)
        <-> truthy (order_id out) = true
            /\ is_Some (order_id out ≫= (orders_db !!.))
            /\ truthy (complaint out) = true
            /\ truthy (image_path out) = true)
    /\ (next_node collector (apply_writes chan out) = inr (Some image_analyzer)
        \/ next_node collector (apply_writes chan out) = inr None
           /\ needs_input out = true)
    /\ (truthy (order_id out) = true -> is_Some (order_id out ≫= (orders_db !!.))).
Proof.
  cbn [next_node]. unfold route_after_collector.
  unfold collector_node, collect_image, ret. cbv zeta.
  rewrite bind_order_id_current_node. fields.
  destruct (bind_order_id_keeps chan) as (_ & Hc & Hp & _). rewrite Hc, Hp.
  destruct (order_id (bind_order_id chan)) as [oid|] eqn:Hoid.
  - case_bool_decide as Hempty.
    + eexists. split; [reflexivity|]. fields. rewrite Hoid. subst oid. vm_compute pick.
      cbn [truthy]. rewrite bool_decide_eq_true_2 by done. cbn [negb].
      split; [split; [done|by intros [? _]]|]. split; [by right|done].
    + assert (truthy (Some oid) = true) as Htruthy
        by (cbn; by rewrite bool_decide_eq_false_2).
      destruct (orders_db !! oid) as [o|] eqn:Hdb.
      * destruct (truthy (complaint chan)) eqn:Hcomplaint; cbn [negb].
        -- destruct (truthy (image_path chan)) eqn:Himg; cbn [negb];
             (eexists; split; [reflexivity|]); fields; rewrite Hoid, Hc, Hp; cbn [mbind option_bind];
             rewrite Hdb, Htruthy, Hcomplaint, Himg; vm_compute pick.
           ++ split; [split; [intros _; eauto|done]|]. split; [by left|eauto].
           ++ split; [split; [done|by intros (_ & _ & _ & ?)]|]. split; [by right|eauto].
        -- destruct (10 <? _)%nat eqn:Hlen.
           ++ pose proof (long_is_truthy _ Hlen) as Hbound.
              destruct (truthy (image_path chan)) eqn:Himg; cbn [negb];
                (eexists; split; [reflexivity|]); fields; rewrite Hoid, Hp;
                cbn [mbind option_bind]; rewrite Hdb, Htruthy, Hbound, Himg; vm_compute pick.
              ** split; [split; [intros _; eauto|done]|]. split; [by left|eauto].
              ** split; [split; [done|by intros (_ & _ & _ & ?)]|]. split; [by right|eauto].
           ++ eexists. split; [reflexivity|]. fields. rewrite Hoid, Hc, Hcomplaint.
              cbn [mbind option_bind]. rewrite Hdb, Htruthy. vm_compute pick.
              split; [split; [done|by intros (_ & _ & ? & _)]|]. split; [by right|eauto].
      * eexists. split; [reflexivity|]. fields. vm_compute pick. cbn [truthy].
        split; [split; [done|by intros [? _]]|]. split; [by right|done].
  - eexists. split; [reflexivity|]. fields. rewrite Hoid. vm_compute pick. cbn [truthy].
    split; [split; [done|by intros [? _]]|]. split; [by right|done].
Qed.

(** ** From Decision to the end of the walk *)

Section Decided.

Variable orders_db : gmap string Order.
Variable svc : Collaborators.

(** From Decision, on a verdict that is not "defective". *)
Lemma denial_walk fuel chan w v :
  image_verdict chan = Some v -> v !! "status" <> Some (JStr "defective") ->
  appendable w ->
  exists state' w',
    run orders_db svc (S (S fuel)) decision chan w = Ok state' w'
    /\ visited w' = (visited w ++ [decision; finalizer])%list
    /\ refund_status state' = "denied"
    /\ response_message state' = denial_message v
    /\ needs_input state' = false
    /\ refunds_json w'
       = Ledger (rows (refunds_json w)
                 ++ [{| l_session_id := session_id chan; l_order_id := order_id chan;
                        l_status := "denied"; l_email := email chan |}])
    /\ outbox w' = outbox w.
Proof.
  intros Hv Hstatus Hlist. rewrite run_S. cbn [node_fn next_node].
  unfold decision_node, ret. cbv zeta. fields. rewrite Hv.
  rewrite bool_decide_eq_false_2 by done.
  unfold route_after_decision. fields.
  change (bool_decide ("denied" = "approved")) with false. cbn [andb].
  change (pick "finalize" _) with (@inr exn _ (Some finalizer)). cbv beta iota.
  rewrite run_S. cbn [node_fn next_node]. unfold finalizer_node. fields.
  change (bool_decide ("denied" = "approved")) with false. cbv beta iota.
  rewrite log_transaction_spec by exact Hlist. eexists _, _. split; [reflexivity|].
  unfold ledger_entry. fields. cbn [visited visit refunds_json outbox].
  repeat split; try done. by rewrite <- (assoc_L (++)).
Qed.

(** From Decision, on a verdict that is not "defective", a walk that
    returns has denied, whatever the ledger file holds. *)
Lemma denial_walk_status fuel chan w v state' w' :
  image_verdict chan = Some v -> v !! "status" <> Some (JStr "defective") ->
  run orders_db svc fuel decision chan w = Ok state' w' ->
  refund_status state' = "denied".
Proof.
  intros Hv Hstatus. destruct fuel as [|fuel]; [done|]. rewrite run_S. cbn [node_fn].
  destruct (decision_node_spec chan (visit decision w) v Hv) as (out & -> & _ & Hden & _).
  specialize (Hden Hstatus).
  destruct (next_node_edges decision (apply_writes chan out)) as [-> | ->].
  - by intros [= <- _].
  - destruct fuel as [|fuel]; [done|]. rewrite run_S. cbn [node_fn next_node].
    destruct (finalizer_node _ _ _ _) as [out' w1|] eqn:Hfin; [|done].
    intros [= <- _]. apply finalizer_keeps in Hfin as [Hr _]. cbn. by rewrite Hr.
Qed.


(** X13: a "defective" verdict approves, and the walk then depends on
    the email in the state: none, and the walk pauses at Decision asking
    for it, with nothing filed or sent; one that passes validation, and
    the Finalizer, given a ledger that can be appended to, files the
    approval and hands the receipt to the mail service; one that does not pass, and the Finalizer asks again, with
    nothing filed or sent. *)
Theorem approval_follows_the_email fuel chan w v :
  image_verdict chan = Some v -> v !! "status" = Some (JStr "defective") ->
  (truthy (email chan) = false ->
     exists state',
       run orders_db svc (S (S fuel)) decision chan w = Ok state' (visit decision w)
       /\ refund_status state' = "approved"
       /\ response_message state' = MSG_APPROVED_ASK_EMAIL
       /\ needs_input state' = true)
  /\ (truthy (email chan) = true -> _is_valid_email (email chan) = true ->
      appendable w ->
      exists state' w',
        run orders_db svc (S (S fuel)) decision chan w = Ok state' w'
        /\ visited w' = (visited w ++ [decision; finalizer])%list
        /\ refund_status state' = "approved"
        /\ needs_input state' = false
        /\ refunds_json w'
           = Ledger (rows (refunds_json w)
                     ++ [{| l_session_id := session_id chan; l_order_id := order_id chan;
                            l_status := "approved"; l_email := email chan |}])
        /\ exists m, outbox w' = (outbox w ++ [m])%list /\ recipient m = email chan)
  /\ (truthy (email chan) = true -> _is_valid_email (email chan) = false ->
      exists state',
        run orders_db svc (S (S fuel)) decision chan w
        = Ok state' (visit finalizer (visit decision w))
        /\ refund_status state' = "approved"
        /\ response_message state' = PROMPT_EMAIL_AGAIN
        /\ needs_input state' = true).
Proof.
  intros Hv Hstatus.
  assert (forall s, bool_decide (refund_status (set_refund_status "approved" s) = "approved")
                    = true) as Happroved by (intros; by apply bool_decide_eq_true_2).
  split; [|split].
  - intros Hnone. rewrite run_S. cbn [node_fn next_node].
    unfold decision_node, ret. cbv zeta. fields. rewrite Hv.
    rewrite bool_decide_eq_true_2 by done. rewrite Hnone. cbn [andb].
    unfold route_after_decision. fields.
    rewrite bool_decide_eq_true_2 by done. rewrite Hnone. cbn [andb negb].
    change (pick "ask_email" _) with (@inr exn (option Node) None). cbv beta iota.
    eexists. split; [reflexivity|]. by fields.
  - intros Hsome Hvalid Hlist. rewrite run_S. cbn [node_fn next_node].
    unfold decision_node, ret. cbv zeta. fields. rewrite Hv.
    rewrite bool_decide_eq_true_2 by done. rewrite Hsome, Hvalid. cbn [andb].
    unfold route_after_decision. fields.
    rewrite bool_decide_eq_true_2 by done. rewrite Hsome. cbn [andb negb].
    change (pick "finalize" _) with (@inr exn _ (Some finalizer)). cbv beta iota.
    rewrite run_S. cbn [node_fn next_node]. unfold finalizer_node. fields.
    rewrite bool_decide_eq_true_2 by done. rewrite Hvalid, Hv. cbn [negb].
    unfold bind, send_receipt. rewrite log_transaction_spec by exact Hlist.
    eexists _, _. split; [reflexivity|].
    unfold ledger_entry. fields. cbn [visited visit refunds_json outbox].
    split; [by rewrite <- (assoc_L (++))|]. repeat split; try done. by eexists.
  - intros Hsome Hinvalid. rewrite run_S. cbn [node_fn next_node].
    unfold decision_node, ret. cbv zeta. fields. rewrite Hv.
    rewrite bool_decide_eq_true_2 by done. rewrite Hsome, Hinvalid. cbn [andb].
    unfold route_after_decision. fields.
    rewrite bool_decide_eq_true_2 by done. rewrite Hsome. cbn [andb negb].
    change (pick "finalize" _) with (@inr exn _ (Some finalizer)). cbv beta iota.
    rewrite run_S. cbn [node_fn next_node]. unfold finalizer_node. fields.
    rewrite bool_decide_eq_true_2 by done. rewrite Hinvalid. cbn [negb].
    eexists. split; [reflexivity|]. by fields.
Qed.

(** What Intent Review returns as history is one entry: the user's
    message, or the prompt that took its place. *)
Lemma intent_reviewer_entry chan w out w' :
  intent_reviewer_node svc chan w = Ok out w' ->
  conversation_history out = _update_history "user" (PyStr.strip (user_message chan))
  \/ conversation_history out = _update_history "assistant" PROMPT_EMAIL
  \/ conversation_history out = _update_history "assistant" PROMPT_GENERAL.
Proof.
  unfold intent_reviewer_node, email_capture, ret. cbv zeta. fields.
  repeat case_match; intros; simplify_eq; fields; auto.
Qed.

(** X14: every walk that returns adds at least one entry to the
    history, and the first entry it adds is Intent Review's: the user's
    trimmed message, or the email or help prompt that replaced it. *)
Theorem walk_adds_an_entry input w state' w' :
  invoke orders_db svc input w = Ok state' w' ->
  (length (conversation_history input) < length (conversation_history state'))%nat
  /\ exists e rest,
       conversation_history state' = (conversation_history input ++ e :: rest)%list
       /\ (e = {| role := "user"; content := PyStr.strip (user_message input) |}
           \/ e = {| role := "assistant"; content := PROMPT_EMAIL |}
           \/ e = {| role := "assistant"; content := PROMPT_GENERAL |}).
Proof.
  unfold invoke, recursion_limit. rewrite run_S. cbn [node_fn].
  destruct (intent_reviewer_node svc _ _) as [out w1|] eqn:Hnode; [|done].
  apply intent_reviewer_entry in Hnode. fields.
  set (chan := apply_writes _ out).
  assert (exists e, conversation_history chan = (conversation_history input ++ [e])%list
                    /\ (e = {| role := "user"; content := PyStr.strip (user_message input) |}
                        \/ e = {| role := "assistant"; content := PROMPT_EMAIL |}
                        \/ e = {| role := "assistant"; content := PROMPT_GENERAL |}))
    as (e & Hchan & He).
  { unfold chan. fields. unfold _update_history in Hnode.
    destruct Hnode as [->|[->| ->]]; eexists; (split; [reflexivity|]); auto. }
  assert (forall s, conversation_history chan `prefix_of` conversation_history s ->
            (length (conversation_history input) < length (conversation_history s))%nat
            /\ exists e rest,
                 conversation_history s = (conversation_history input ++ e :: rest)%list
                 /\ (e = {| role := "user"; content := PyStr.strip (user_message input) |}
                     \/ e = {| role := "assistant"; content := PROMPT_EMAIL |}
                     \/ e = {| role := "assistant"; content := PROMPT_GENERAL |}))
    as Hfinal.
  { intros s [more Hs]. rewrite Hs, Hchan. split.
    - rewrite !length_app. cbn. lia.
    - exists e, more. split; [|done]. by rewrite <- (assoc_L (++)). }
  destruct (next_node intent_reviewer chan) as [|[n'|]]; [done| |].
  - intros Hrun. apply Hfinal. by eapply run_history_prefix.
  - intros [= <- _]. by apply Hfinal.
Qed.

End Decided.

(** ** The endpoints *)

(** X15: after a request, GET /session gives back what the request
    stored: the state the walk returned or, when the walk raised, the
    session as it was before the request (a fresh one if the request
    opened it). *)
Theorem chat_then_get_session orders_db svc form srv :
  get_session (f_session_id form) (fst (chat orders_db svc form srv))
  = OK200 match snd (chat orders_db svc form srv) with
          | inr result => result
          | inl _ => default (initialize_session (f_session_id form))
                       (sessions srv !! f_session_id form)
          end.
Proof.
  unfold get_session, chat. cbv zeta.
  set (sid := f_session_id form).
  set (store := match sessions srv !! sid with
                | Some _ => sessions srv
                | None => <[sid := initialize_session sid]> (sessions srv)
                end).
  assert (store !! sid
          = Some (default (initialize_session sid) (sessions srv !! sid))) as Hstore.
  { unfold store. destruct (sessions srv !! sid) eqn:Hsid; [done|].
    by rewrite lookup_insert_eq. }
  destruct (save_and_invoke orders_db svc form _ (world srv)) as [result w|e w]; cbn [fst snd sessions].
  - by rewrite lookup_insert_eq.
  - by rewrite Hstore.
Qed.

(** X28: a request whose upload cannot be saved is answered with an
    error before any node runs: the world is as it was, and the session
    is stored as it was before the request (a fresh one if the request
    opened it). *)
Theorem unsaved_upload_is_refused orders_db svc form srv u :
  f_image form = Some u ->
  upload_writable (world srv) (upload_path (f_session_id form) u) = false ->
  snd (chat orders_db svc form srv) = inl OSError
  /\ world (fst (chat orders_db svc form srv)) = world srv
  /\ get_session (f_session_id form) (fst (chat orders_db svc form srv))
     = OK200 (default (initialize_session (f_session_id form))
                (sessions srv !! f_session_id form)).
Proof.
  intros Himage Hfail. unfold get_session, chat, save_and_invoke, save_upload, bind.
  cbv zeta. rewrite Himage, Hfail. cbn [fst snd sessions world].
  split; [done|]. split; [done|].
  destruct (sessions srv !! f_session_id form) eqn:Hsid.
  - by rewrite Hsid.
  - by rewrite lookup_insert_eq.
Qed.

(** X16: DELETE /session forgets the session and nothing else: GET on
    it answers 404, the other sessions and the count of /health minus one
    remain, and the next request under that id is answered as in a
    process that never saw the session. *)
Theorem delete_session_resets orders_db svc form srv state :
  sessions srv !! f_session_id form = Some state ->
  let sid := f_session_id form in
  let srv' := fst (delete_session sid srv) in
  snd (delete_session sid srv) = OK200 "Session cleared"
  /\ get_session sid srv' = NotFound404
  /\ (forall k, k <> sid -> get_session k srv' = get_session k srv)
  /\ S (snd (health_check srv')) = snd (health_check srv)
  /\ snd (chat orders_db svc form srv') = snd (chat orders_db svc form (boot (world srv))).
Proof.
  intros Hsid sid srv'. unfold srv', delete_session. fold sid in Hsid. rewrite Hsid.
  cbn [fst snd]. split; [done|]. split; [|split; [|split]].
  - unfold get_session. cbn [sessions]. by rewrite lookup_delete_eq.
  - intros k Hk. unfold get_session. cbn [sessions]. by rewrite lookup_delete_ne.
  - unfold health_check. cbn [snd sessions].
    rewrite map_size_delete, Hsid.
    destruct (size (sessions srv)) eqn:Hsize; [|done].
    apply map_size_empty_inv in Hsize. by rewrite Hsize, lookup_empty in Hsid.
  - unfold chat, boot. cbv zeta. fold sid. cbn [sessions world].
    rewrite lookup_delete_eq, lookup_empty, !lookup_insert_eq. cbn [default from_option id].
    by destruct (save_and_invoke orders_db svc form _ (world srv)).
Qed.

(** X17: a message that opens a claim without naming an order: the
    classifier's intent (neither "general" nor "finalize_flow") is bound,
    the Collector asks for the order identifier, and the walk pauses
    there. *)
Theorem opening_message_is_asked_for_the_order orders_db svc input w :
  refund_status input = "" ->
  mid_collection input = false ->
  a_intent (analyze svc (PyStr.strip (user_message input))) <> "general" ->
  a_intent (analyze svc (PyStr.strip (user_message input))) <> "finalize_flow" ->
  Re.search Re.ORDER_ID (user_message input) = None ->
  truthy (order_id input) = false ->
  exists state',
    invoke orders_db svc input w = Ok state' (visit collector (visit intent_reviewer w))
    /\ intent state' = a_intent (analyze svc (PyStr.strip (user_message input)))
    /\ response_message state' = PROMPT_ORDER_ID
    /\ needs_input state' = true
    /\ conversation_history state'
       = (conversation_history input
          ++ [{| role := "user"; content := PyStr.strip (user_message input) |};
              {| role := "assistant"; content := PROMPT_ORDER_ID |}])%list.
Proof.
  intros Hst Hmid Hgen Hfin Hnoid Hnone.
  unfold invoke, recursion_limit. rewrite run_S. cbn [node_fn].
  unfold intent_reviewer_node, email_capture, ret. cbv zeta. fields.
  rewrite Hst. change (bool_decide ("" = "approved")) with false. cbv beta iota.
  assert (forall s, intent s = intent input -> refund_status s = refund_status input ->
                    mid_collection s = false) as Hmid'.
  { intros s Hi Hr. unfold mid_collection in *. by rewrite Hi, Hr. }
  rewrite Hmid' by done. rewrite (bool_decide_eq_false_2 _ Hgen).
  cbn [next_node]. unfold route_after_intent. fields.
  rewrite (bool_decide_eq_false_2 _ Hfin), (bool_decide_eq_false_2 _ Hgen).
  change (pick "continue" _) with (@inr exn _ (Some collector)). cbv beta iota.
  rewrite run_S. cbn [node_fn next_node].
  unfold collector_node, bind_order_id, ret. cbv zeta. fields. rewrite Hnoid. fields.
  destruct (order_id input) as [oid|] eqn:Hoid.
  - cbn in Hnone. destruct (bool_decide (oid = "")); [|done].
    unfold route_after_collector. fields.
    change (pick "need_input" _) with (@inr exn (option Node) None). cbv beta iota.
    eexists. split; [reflexivity|]. fields. repeat split; try done.
    by rewrite <- (assoc_L (++)).
  - unfold route_after_collector. fields.
    change (pick "need_input" _) with (@inr exn (option Node) None). cbv beta iota.
    eexists. split; [reflexivity|]. fields. repeat split; try done.
    by rewrite <- (assoc_L (++)).
Qed.

(** ** The text classifier *)

Section Classifier.

Variable complete : string -> option string.
Variable json_loads : string -> option (gmap string json).

Lemma setdefault_lookup k v d k' :
  Sentiment.setdefault k v d !! k'
  = match d !! k' with
    | Some x => Some x
    | None => if decide (k = k') then Some v else None
    end.
Proof.
  unfold Sentiment.setdefault. destruct (d !! k) eqn:Hk.
  - destruct (d !! k') eqn:Hk'; [done|]. case_decide; [congruence|done].
  - rewrite lookup_insert. case_decide; subst; [by rewrite Hk|].
    by destruct (d !! k').
Qed.

Lemma clamp_range x y :
  Sentiment.clamp x = Some y -> (exists z, y = JNum z /\ 0 <= z <= 10) \/ y = JBool true.
Proof.
  destruct x as [|[]|z|]; intros [= <-]; [by right|left..].
  - exists 0. split; [done|lia].
  - eexists. split; [done|lia].
Qed.

(** X18: whatever the model answers, and whether or not the call or
    the parser raises, [analyze] returns a dictionary with an intent, a
    language and a sentiment score, and the score is a number from 0
    to 10 (or the [True] a JSON [true] is left as). *)
Theorem analyze_is_total_and_clamped message :
  let result := Sentiment.analyze complete json_loads message in
  is_Some (result !! "intent")
  /\ is_Some (result !! "language")
  /\ ((exists z, result !! "sentiment_score" = Some (JNum z) /\ 0 <= z <= 10)
      \/ result !! "sentiment_score" = Some (JBool true)).
Proof.
  assert (is_Some (Sentiment.fallback !! "intent")
          /\ is_Some (Sentiment.fallback !! "language")
          /\ ((exists z, Sentiment.fallback !! "sentiment_score" = Some (JNum z) /\ 0 <= z <= 10)
              \/ Sentiment.fallback !! "sentiment_score" = Some (JBool true))) as Hfallback.
  { split; [by vm_compute; eauto|]. split; [by vm_compute; eauto|].
    left. exists 5. split; [by vm_compute|lia]. }
  cbv zeta. unfold Sentiment.analyze.
  destruct (complete _) as [content|]; [|done].
  destruct (PyStr.contains "{" _); [|done].
  destruct (json_loads _) as [d|]; [|done]. cbv zeta.
  set (result := Sentiment.setdefault "language" _ _).
  destruct (result !! "sentiment_score" ≫= Sentiment.clamp) as [score|] eqn:Hscore; [|done].
  rewrite lookup_insert_eq, !lookup_insert_ne by done.
  split; [|split].
  - unfold result. rewrite !setdefault_lookup. repeat case_match; eauto; done.
  - unfold result. rewrite !setdefault_lookup. repeat case_match; eauto; done.
  - destruct (result !! "sentiment_score") as [x|]; [|done]. cbn in Hscore.
    destruct (clamp_range _ _ Hscore) as [(z & Hy & Hz)|Hy]; subst score; eauto.
Qed.

(** X19: a well-formed answer comes back as parsed: when the parser
    gives an object with a numeric score, [analyze] returns that object
    with the three defaults filled in where a key is missing and the
    score clamped to 0..10; an object that has all three keys and a score
    in range is returned unchanged. *)
Theorem analyze_returns_the_parsed_answer message content d z :
  complete (Sentiment.sentiment_prompt message) = Some content ->
  PyStr.contains "{" (PyStr.strip content) = true ->
  json_loads (Sentiment.json_str (PyStr.strip content)) = Some d ->
  d !! "sentiment_score" = Some (JNum z) ->
  let result := Sentiment.analyze complete json_loads message in
  result !! "sentiment_score" = Some (JNum (Z.max 0 (Z.min 10 z)))
  /\ result !! "intent" = Some (default (JStr "general") (d !! "intent"))
  /\ result !! "language" = Some (default (JStr "en") (d !! "language"))
  /\ (forall k x, d !! k = Some x -> k <> "sentiment_score" -> result !! k = Some x)
  /\ (is_Some (d !! "intent") -> is_Some (d !! "language") -> 0 <= z <= 10 -> result = d).
Proof.
  intros Hcall Hbrace Hparse Hscore. cbv zeta. unfold Sentiment.analyze.
  rewrite Hcall, Hbrace, Hparse. cbv zeta.
  set (result := Sentiment.setdefault "language" _ _).
  assert (result !! "sentiment_score" = Some (JNum z)) as Hz.
  { unfold result. rewrite !setdefault_lookup, Hscore. done. }
  rewrite Hz. cbn [mbind option_bind Sentiment.clamp].
  split; [by rewrite lookup_insert_eq|].
  split; [|split; [|split]].
  - rewrite lookup_insert_ne by done. unfold result. rewrite !setdefault_lookup.
    destruct (d !! "intent"); by repeat case_decide.
  - rewrite lookup_insert_ne by done. unfold result. rewrite !setdefault_lookup.
    destruct (d !! "language"); by repeat case_decide.
  - intros k x Hk Hne. rewrite lookup_insert_ne by done.
    unfold result. by rewrite !setdefault_lookup, Hk.
  - intros [i Hi] [l Hl] Hrange.
    assert (result = d) as ->.
    { unfold result, Sentiment.setdefault. rewrite Hi, Hscore, Hl. done. }
    replace (Z.max 0 (Z.min 10 z)) with z by lia. by apply insert_id.
Qed.

(** X20: [analyze] answers the fallback, general / 5 / en, whenever the
    call raises, the answer has no brace, the parser raises, or the
    score is a string or null. *)
Theorem analyze_falls_back message :
  (complete (Sentiment.sentiment_prompt message) = None
   \/ exists content, complete (Sentiment.sentiment_prompt message) = Some content
      /\ (PyStr.contains "{" (PyStr.strip content) = false
          \/ json_loads (Sentiment.json_str (PyStr.strip content)) = None
          \/ exists d, json_loads (Sentiment.json_str (PyStr.strip content)) = Some d
             /\ (d !! "sentiment_score" = Some JNull
                 \/ exists s, d !! "sentiment_score" = Some (JStr s)))) ->
  Sentiment.analyze complete json_loads message = Sentiment.fallback.
Proof.
  unfold Sentiment.analyze.
  intros [->|(content & -> & Hcase)]; [done|]. cbv zeta.
  destruct (PyStr.contains "{" _); [|done].
  destruct Hcase as [?|[->|(d & -> & Hbad)]]; [done..|]. cbv zeta.
  set (result := Sentiment.setdefault "language" _ _).
  assert (result !! "sentiment_score" = d !! "sentiment_score") as ->.
  { unfold result. rewrite !setdefault_lookup.
    destruct Hbad as [->|[s ->]]; done. }
  by destruct Hbad as [->|[s ->]].
Qed.

End Classifier.

(** ** Cutting the JSON object out of an answer *)

Lemma str_app_assoc (a b c : string) : (a +:+ b) +:+ c = a +:+ (b +:+ c).
Proof. induction a as [|x a IH]; [done|]. rewrite !app_String. by rewrite IH. Qed.

Lemma str_app_empty_r (a : string) : a +:+ "" = a.
Proof. induction a as [|x a IH]; [done|]. rewrite app_String. by rewrite IH. Qed.

Lemma lacks_app a s t : lacks a (s +:+ t) = lacks a s && lacks a t.
Proof.
  induction s as [|c s IH]; [done|]. rewrite app_String. cbn. rewrite IH.
  apply andb_assoc.
Qed.

Lemma find_from_char a i pre rest :
  lacks a pre = true ->
  PyText.find_from (String a "") i (pre +:+ String a rest) = Some (i + String.length pre)%nat.
Proof.
  revert i. induction pre as [|c pre IH]; intros i Hpre.
  - rewrite app_empty_l. cbn. destruct (ascii_dec a a); [|done]. f_equal. lia.
  - rewrite app_String. cbn in Hpre |- *. apply andb_prop in Hpre as [Hc Hpre].
    destruct (ascii_dec a c) as [->|_].
    + by rewrite bool_decide_eq_true_2 in Hc.
    + rewrite IH by done. f_equal. lia.
Qed.

Lemma rfind_from_none a i s :
  lacks a s = true -> PyText.rfind_from (String a "") i s = None.
Proof.
  revert i. induction s as [|c s IH]; intros i Hs; [done|].
  cbn in Hs |- *. apply andb_prop in Hs as [Hc Hs]. rewrite IH by done.
  destruct (ascii_dec a c) as [->|_]; [|done]. by rewrite bool_decide_eq_true_2 in Hc.
Qed.

Lemma rfind_from_char a i front post :
  lacks a post = true ->
  PyText.rfind_from (String a "") i (front +:+ String a post)
  = Some (i + String.length front)%nat.
Proof.
  revert i. induction front as [|c front IH]; intros i Hpost.
  - rewrite app_empty_l. cbn. rewrite rfind_from_none by done.
    destruct (ascii_dec a a); [|done]. f_equal. lia.
  - rewrite app_String. cbn [PyText.rfind_from]. rewrite IH by done. cbn. f_equal. lia.
Qed.

Lemma drop_app pre s : PyText.drop (String.length pre) (pre +:+ s) = s.
Proof. induction pre as [|c pre IH]; [by destruct s|]. rewrite app_String. by cbn. Qed.

Lemma take_app body s : PyStr.take (String.length body) (body +:+ s) = body.
Proof.
  induction body as [|c body IH]; [by destruct s|]. rewrite app_String. cbn. by rewrite IH.
Qed.

Lemma slice_middle pre body post n :
  n = (String.length pre + String.length body)%nat ->
  PyText.slice (String.length pre) n (pre +:+ body +:+ post) = body.
Proof.
  intros ->. unfold PyText.slice. rewrite drop_app.
  replace (_ + _ - _)%nat with (String.length body) by lia. apply take_app.
Qed.

Lemma find_none a s : lacks a s = true -> PyText.find (String a "") s = None.
Proof.
  unfold PyText.find. generalize 0%nat. induction s as [|c s IH]; intros i Hs; [done|].
  cbn in Hs |- *. apply andb_prop in Hs as [Hc Hs].
  destruct (ascii_dec a c) as [->|_]; [by rewrite bool_decide_eq_true_2 in Hc|]. by apply IH.
Qed.

Lemma rfind_from_bound a i front back :
  lacks a back = true ->
  match PyText.rfind_from (String a "") i (front +:+ back) with
  | Some j => (j < i + String.length front)%nat
  | None => True
  end.
Proof.
  revert i. induction front as [|c front IH]; intros i Hback.
  - rewrite app_empty_l. by rewrite rfind_from_none.
  - rewrite app_String. cbn [PyText.rfind_from String.length].
    specialize (IH (S i) Hback).
    destruct (PyText.rfind_from (String a "") (S i) (front +:+ back)); [cbn in IH; lia|].
    destruct (PyStr.startswith _ _); [cbn; lia|done].
Qed.

Lemma take_0 s : PyStr.take 0 s = "".
Proof. by destruct s. Qed.

(** X21: the classifier's parser is given the text from the first
    opening brace to the last closing brace of the answer, whatever
    surrounds it; and the empty text when no closing brace follows the
    first opening one. *)
Theorem sentiment_json_is_cut_out pre inner post :
  lacks "{" pre = true ->
  (lacks "}" post = true ->
   Sentiment.json_str (pre +:+ "{" +:+ inner +:+ "}" +:+ post) = "{" +:+ inner +:+ "}")
  /\ (lacks "}" inner = true -> Sentiment.json_str (pre +:+ "{" +:+ inner) = "").
Proof.
  intros Hpre. unfold Sentiment.json_str, PyText.find, PyText.rfind. split.
  - intros Hpost.
    change ("{" +:+ inner +:+ "}" +:+ post) with (String "{" (inner +:+ "}" +:+ post)).
    rewrite find_from_char by done. cbn [default from_option id Nat.add].
    change (String "{" (inner +:+ "}" +:+ post)) with ("{" +:+ inner +:+ String "}" post).
    rewrite <- !str_app_assoc. rewrite rfind_from_char by done.
    rewrite !str_app_assoc.
    change (String "}" post) with ("}" +:+ post).
    rewrite <- (str_app_assoc "{" inner), <- (str_app_assoc _ "}" post).
    apply slice_middle. rewrite !str_length_app. cbn. lia.
  - intros Hinner.
    change ("{" +:+ inner) with (String "{" inner).
    rewrite find_from_char by done. cbn [default from_option id Nat.add].
    pose proof (rfind_from_bound "}" 0 pre (String "{" inner)) as Hbound.
    destruct (PyText.rfind_from "}" 0 (pre +:+ String "{" inner)) as [j|].
    + unfold PyText.slice. replace (S j - String.length pre)%nat with 0%nat; [apply take_0|].
      cbn in Hbound. rewrite Hinner in Hbound. specialize (Hbound eq_refl). lia.
    + unfold PyText.slice. apply take_0.
Qed.

(** ** The vision analysis *)

Lemma startswith_app p x : PyStr.startswith p (p +:+ x) = true.
Proof.
  induction p as [|c p IH]; [done|]. rewrite app_String. cbn.
  by destruct (ascii_dec c c).
Qed.

Lemma spaces_app ws c rest :
  all_space ws = true -> PyStr.isspace c = false ->
  Vision.spaces (ws +:+ String c rest) = String.length ws.
Proof.
  intros Hws Hc. induction ws as [|x ws IH].
  - rewrite app_empty_l. cbn. by rewrite Hc.
  - rewrite app_String. cbn in Hws |- *. apply andb_prop in Hws as [-> Hws]. by rewrite IH.
Qed.

Lemma unfence_go_skip m rest :
  Vision.unfence_go (String.length m) (m +:+ rest) = Vision.unfence_go 0 rest.
Proof.
  induction m as [|c m IH].
  - rewrite app_empty_l. by destruct rest.
  - rewrite app_String. by cbn.
Qed.

(** Inside text without a backtick that runs up to a closing brace no
    fence is found. *)
Lemma fence_body b tail :
  lacks "`" b = true -> Vision.fence (b +:+ "}" +:+ tail) = None.
Proof.
  intros Hb. unfold Vision.fence.
  assert (PyStr.startswith "```json" (b +:+ "}" +:+ tail) = false) as ->.
  { destruct b as [|c b]; [done|]. rewrite app_String.
    cbn [lacks] in Hb. cbn [PyStr.startswith].
    destruct (ascii_dec "`" c) as [<-|]; [|done]. by rewrite bool_decide_eq_true_2 in Hb. }
  assert (PyStr.startswith "```"
            (PyText.drop (Vision.spaces (b +:+ "}" +:+ tail)) (b +:+ "}" +:+ tail)) = false)
    as ->; [|done].
  induction b as [|c b IH]; [done|].
  rewrite app_String. cbn [lacks] in Hb. cbn [Vision.spaces].
  apply andb_prop in Hb as [Hc Hb].
  destruct (PyStr.isspace c); cbn [PyText.drop]; [by apply IH|].
  cbn [PyStr.startswith].
  destruct (ascii_dec "`" c) as [<-|]; [|done]. by rewrite bool_decide_eq_true_2 in Hc.
Qed.

Lemma unfence_body b tail :
  lacks "`" b = true ->
  Vision.unfence_go 0 (b +:+ "}" +:+ tail) = b +:+ "}" +:+ Vision.unfence_go 0 tail.
Proof.
  intros Hb. induction b as [|c b IH].
  - pose proof (fence_body "" tail eq_refl) as Hnone. rewrite !app_empty_l in *.
    change ("}" +:+ tail) with (String "}" tail) in *. cbn [Vision.unfence_go].
    by rewrite Hnone.
  - pose proof (fence_body _ tail Hb) as Hnone. rewrite !app_String in *.
    cbn [Vision.unfence_go]. rewrite Hnone. cbn in Hb. apply andb_prop in Hb as [_ Hb].
    by rewrite IH.
Qed.

Lemma unfence_closing ws :
  all_space ws = true -> Vision.unfence_go 0 (ws +:+ "```") = "".
Proof.
  intros Hws.
  assert (Vision.fence (ws +:+ "```") = Some (String.length ws + 3)%nat) as Hfence.
  { unfold Vision.fence.
    assert (PyStr.startswith "```json" (ws +:+ "```") = false) as ->.
    { destruct ws as [|c ws]; [done|]. rewrite app_String.
      cbn [all_space] in Hws. cbn [PyStr.startswith].
      apply andb_prop in Hws as [Hc _].
      destruct (ascii_dec "`" c) as [<-|]; [by vm_compute in Hc|done]. }
    rewrite (spaces_app ws "`" "``" Hws eq_refl), drop_app. done. }
  destruct ws as [|c ws].
  - by vm_compute.
  - rewrite app_String in *. cbn [Vision.unfence_go]. rewrite Hfence.
    cbn [String.length Nat.add Nat.pred].
    pose proof (unfence_go_skip (ws +:+ "```") "") as Hskip.
    rewrite str_app_empty_r, str_length_app in Hskip. exact Hskip.
Qed.

Lemma unfence_opening ws c rest :
  all_space ws = true -> PyStr.isspace c = false ->
  Vision.unfence_go 0 ("```json" +:+ ws +:+ String c rest)
  = Vision.unfence_go 0 (String c rest).
Proof.
  intros Hws Hc.
  assert (Vision.fence ("```json" +:+ ws +:+ String c rest)
          = Some (7 + String.length ws)%nat) as Hfence.
  { unfold Vision.fence. rewrite startswith_app.
    change 7%nat with (String.length "```json") at 2. rewrite drop_app.
    by rewrite spaces_app. }
  change ("```json" +:+ ws +:+ String c rest)
    with (String "`" ("``json" +:+ ws +:+ String c rest)) in *.
  cbn [Vision.unfence_go]. rewrite Hfence. cbn [Nat.add Nat.pred].
  pose proof (unfence_go_skip ("``json" +:+ ws) (String c rest)) as Hskip.
  rewrite str_length_app, str_app_assoc in Hskip. exact Hskip.
Qed.

Lemma rev_app_rev s a b :
  String.rev_app (String.rev_app s a) b = String.rev_app a (s +:+ b).
Proof.
  revert a. induction s as [|c s IH]; intros a; [done|].
  cbn [String.rev_app]. rewrite IH. by rewrite app_String.
Qed.

Lemma rev_app_app s t acc :
  String.rev_app (s +:+ t) acc = String.rev_app t (String.rev_app s acc).
Proof.
  revert acc. induction s as [|c s IH]; intros acc; [done|].
  rewrite app_String. cbn [String.rev_app]. by rewrite IH.
Qed.

Lemma rev_involutive s : String.rev (String.rev s) = s.
Proof. unfold String.rev. rewrite rev_app_rev. cbn. apply str_app_empty_r. Qed.

Lemma rev_snoc x d : String.rev (x +:+ String d "") = String d (String.rev x).
Proof. unfold String.rev. by rewrite rev_app_app. Qed.

(** Trimming leaves alone a text that starts and ends with characters
    that are not whitespace. *)
Lemma strip_tight c x d :
  PyStr.isspace c = false -> PyStr.isspace d = false ->
  PyStr.strip (String c x +:+ String d "") = String c x +:+ String d "".
Proof.
  intros Hc Hd. unfold PyStr.strip, PyStr.rstrip.
  rewrite app_String. cbn [PyStr.lstrip]. rewrite Hc. rewrite <- app_String.
  rewrite rev_snoc. cbn [PyStr.lstrip]. rewrite Hd.
  rewrite <- rev_snoc. apply rev_involutive.
Qed.

Lemma json_str_of_object inner :
  PyText.find "{" ("{" +:+ inner +:+ "}") = Some 0%nat
  /\ PyText.rfind "}" ("{" +:+ inner +:+ "}") = Some (S (String.length inner))
  /\ PyText.slice 0 (S (S (String.length inner))) ("{" +:+ inner +:+ "}")
     = "{" +:+ inner +:+ "}".
Proof.
  split; [done|]. split.
  - unfold PyText.rfind. rewrite <- str_app_assoc.
    change "}" with (String "}" "") at 2. by rewrite rfind_from_char.
  - pose proof (slice_middle "" ("{" +:+ inner +:+ "}") "" (S (S (String.length inner))))
      as Hslice.
    rewrite app_empty_l, str_app_empty_r in Hslice. apply Hslice.
    rewrite !str_length_app. cbn. lia.
Qed.

(** X22: the vision analyzer's parser is given the JSON object alone,
    from its first to its last brace, both when the model answers the
    bare object and when it wraps it in a Markdown fence with any
    whitespace around it. *)
Theorem vision_json_is_unfenced inner ws ws' :
  lacks "`" inner = true -> all_space ws = true -> all_space ws' = true ->
  Vision.json_str ("{" +:+ inner +:+ "}") = Some ("{" +:+ inner +:+ "}")
  /\ Vision.json_str ("```json" +:+ ws +:+ "{" +:+ inner +:+ "}" +:+ ws' +:+ "```")
     = Some ("{" +:+ inner +:+ "}").
Proof.
  intros Hinner Hws Hws'.
  assert (lacks "`" ("{" +:+ inner) = true) as Hbody by (by cbn).
  assert (forall clean, clean = "{" +:+ inner +:+ "}" ->
            (match PyText.find "{" (PyStr.strip clean),
                   PyText.rfind "}" (PyStr.strip clean) with
             | Some start, Some end_ =>
                 Some (PyText.slice start (S end_) (PyStr.strip clean))
             | _, _ => None
             end) = Some ("{" +:+ inner +:+ "}")) as Hcut.
  { intros clean ->.
    assert (PyStr.strip ("{" +:+ inner +:+ "}") = "{" +:+ inner +:+ "}") as ->.
    { rewrite <- str_app_assoc. by apply (strip_tight "{" inner "}"). }
    destruct (json_str_of_object inner) as (-> & -> & ->). done. }
  unfold Vision.json_str, Vision.unfence. cbv zeta. split; apply Hcut.
  - change ("{" +:+ inner +:+ "}") with ("{" +:+ inner +:+ "}" +:+ "") at 1.
    rewrite <- (str_app_assoc "{" inner), unfence_body by done. cbn [Vision.unfence_go].
    by rewrite str_app_assoc.
  - change ("{" +:+ inner +:+ "}" +:+ ws' +:+ "```")
      with (String "{" (inner +:+ "}" +:+ ws' +:+ "```")).
    rewrite unfence_opening by done.
    change (String "{" (inner +:+ "}" +:+ ws' +:+ "```"))
      with ("{" +:+ inner +:+ "}" +:+ ws' +:+ "```").
    rewrite <- (str_app_assoc "{" inner), unfence_body by done.
    rewrite unfence_closing by done. by rewrite str_app_assoc.
Qed.

Section VisionWalk.

Variable orders_db : gmap string Order.
Variable image_to_data_url : option string -> string.
Variable post : string -> string -> option string.
Variable json_loads : string -> option (gmap string json).
Variable svc : Collaborators.

Lemma verdict_status status description :
  Vision.verdict status description !! "status" = Some (JStr status).
Proof. unfold Vision.verdict. by rewrite lookup_insert_eq. Qed.

Lemma vision_fails_acceptable image_path context :
  vision_fails image_to_data_url post json_loads image_path context ->
  exists description,
    Vision.analyze_product_image image_to_data_url post json_loads image_path context
    = Vision.verdict "acceptable" description.
Proof.
  unfold vision_fails, Vision.analyze_product_image. cbv zeta.
  intros [Hurl|Hcall]; [rewrite Hurl; by eauto|].
  case_bool_decide; [by eauto|].
  destruct Hcall as [->|(raw & -> & [->|(text & -> & ->)])]; by eauto.
Qed.

(** X23: the vision analysis fails closed. When the image cannot be
    read, the request raises, the answer has no braces or the parser
    raises, the verdict is "acceptable", and the walk from Image Analysis,
    given a ledger that can be appended to, ends denied: one call to the vision service, one "denied" ledger entry, no
    mail. *)
Theorem failed_vision_is_denied fuel chan w order :
  truthy_dict (image_verdict chan) = false ->
  order_id chan ≫= (orders_db !!.) = Some order ->
  vision_fails image_to_data_url post json_loads (image_path chan)
    (vision_context order (set_current_node "image_analyzer" chan)) ->
  appendable w ->
  exists state' w',
    run orders_db (with_vision image_to_data_url post json_loads svc)
      (S (S (S fuel))) image_analyzer chan w = Ok state' w'
    /\ visited w' = (visited w ++ [image_analyzer; decision; finalizer])%list
    /\ image_verdict state' ≫= (.!! "status") = Some (JStr "acceptable")
    /\ refund_status state' = "denied"
    /\ needs_input state' = false
    /\ refunds_json w'
       = Ledger (rows (refunds_json w)
                 ++ [{| l_session_id := session_id chan; l_order_id := order_id chan;
                        l_status := "denied"; l_email := email chan |}])
    /\ outbox w' = outbox w
    /\ length (vision_calls w') = S (length (vision_calls w)).
Proof.
  intros Hmemo Horder Hfails Hlist.
  destruct (vision_fails_acceptable _ _ Hfails) as [description Hverdict].
  rewrite run_S. cbn [node_fn next_node].
  unfold image_analyzer_node. rewrite Hmemo. fields. rewrite Horder.
  unfold bind, log_vision, ret. cbn [analyze_product_image with_vision].
  rewrite Hverdict.
  set (chan' := apply_writes chan _). set (w1 := Build_World _ _ _ _ _ _).
  destruct (denial_walk orders_db (with_vision image_to_data_url post json_loads svc)
              fuel chan' w1 (Vision.verdict "acceptable" description))
    as (state' & w' & Hrun & Hvisited & Hstatus & _ & Hneeds & Hledger & Hmail);
    [done| |exact Hlist|].
  { by rewrite verdict_status. }
  exists state', w'. split; [exact Hrun|].
  assert (image_verdict state' = Some (Vision.verdict "acceptable" description)) as Hkept.
  { refine (run_keeps orders_db (with_vision image_to_data_url post json_loads svc)
              (fun s => image_verdict s = Some (Vision.verdict "acceptable" description))
              _ _ _ _ _ _ _ _ Hrun); [|done].
    intros n c w2 out w3 Hc Hnode. apply node_fn_frame in Hnode as (_ & _ & _ & _ & Hsame).
    fields. rewrite Hsame; [done|]. rewrite Hc. by cbn. }
  rewrite Hkept. cbn [mbind option_bind]. rewrite verdict_status.
  unfold w1 in *. cbn [visited visit refunds_json outbox vision_calls] in *.
  rewrite Hvisited, Hledger, Hmail.
  split; [by rewrite <- (assoc_L (++))|]. repeat split; try done.
  assert (vision_calls w' = vision_calls w1) as ->; [|unfold w1; cbn; rewrite length_app; cbn; lia].
  clear -Hrun.
  refine (run_post orders_db (with_vision image_to_data_url post json_loads svc)
            (fun n _ w2 => (n = decision \/ n = finalizer)
                           /\ vision_calls w2 = vision_calls w1)
            (fun _ w2 => vision_calls w2 = vision_calls w1) _ _ _ _ _ _ _ _ Hrun); [|auto].
  intros n c w2 out w3 [Hn Hcalls] Hnode. apply node_fn_effects in Hnode as [_ Heff].
  pose proof (next_node_edges n (apply_writes c out)) as Hedge.
  destruct Hn as [-> | ->].
  - subst w3. destruct Hedge as [-> | ->]; cbn [vision_calls visit]; auto.
  - destruct Heff as [Hsame _]. rewrite Hedge. by rewrite Hsame.
Qed.

(** X24: with the vision analyzer in place, a walk from Image Analysis
    ends approved only if the image was read, the request returned, the
    answer had its braces and the parser gave an object whose status is
    "defective"; that object is the verdict the state keeps. *)
Theorem approval_needs_a_defective_answer fuel chan w order state' w' :
  truthy_dict (image_verdict chan) = false ->
  order_id chan ≫= (orders_db !!.) = Some order ->
  run orders_db (with_vision image_to_data_url post json_loads svc)
    (S (S (S fuel))) image_analyzer chan w = Ok state' w' ->
  refund_status state' = "approved" ->
  image_to_data_url (image_path chan) <> ""
  /\ exists raw_content text parsed,
       post (Vision.vision_prompt
               (vision_context order (set_current_node "image_analyzer" chan)))
         (image_to_data_url (image_path chan)) = Some raw_content
       /\ Vision.json_str raw_content = Some text
       /\ json_loads text = Some parsed
       /\ parsed !! "status" = Some (JStr "defective").
Proof.
  intros Hmemo Horder Hrun Happroved.
  set (context := vision_context order (set_current_node "image_analyzer" chan)) in *.
  set (v := Vision.analyze_product_image image_to_data_url post json_loads
              (image_path chan) context).
  assert (v !! "status" = Some (JStr "defective")) as Hdefective.
  { destruct (decide (v !! "status" = Some (JStr "defective"))) as [|Hnot]; [done|].
    exfalso. revert Hrun. rewrite run_S. cbn [node_fn next_node].
    unfold image_analyzer_node. rewrite Hmemo. fields. rewrite Horder.
    unfold bind, log_vision, ret. cbn [analyze_product_image with_vision].
    fold context. fold v.
    set (chan' := apply_writes chan _). set (w1 := Build_World _ _ _ _ _ _).
    intros Hwalk.
    apply (denial_walk_status orders_db (with_vision image_to_data_url post json_loads svc)
             (S (S fuel)) chan' w1 v) in Hwalk; [|done..].
    by rewrite Hwalk in Happroved. }
  revert Hdefective. unfold v, Vision.analyze_product_image. cbv zeta.
  case_bool_decide as Hurl; [by rewrite verdict_status|].
  intros Hstatus. split; [done|].
  destruct (post _ _) as [raw|] eqn:Hraw; [|by rewrite verdict_status in Hstatus].
  destruct (Vision.json_str raw) as [text|] eqn:Htext;
    [|by rewrite verdict_status in Hstatus].
  destruct (json_loads text) as [parsed|] eqn:Hparsed;
    [|by rewrite verdict_status in Hstatus].
  by exists raw, text, parsed.
Qed.

End VisionWalk.

(** ** The properties on the sample sessions *)

Lemma walk_follows_a_route_witness :
  exists route, route ∈ routes
    /\ visited (Trace.world_of Trace.approved_walk) = (visited Sample.w0 ++ route)%list.
Proof.
  exact (walk_follows_a_route _ _ _ _ _ _ approved_walk_returns).
Defined.

Lemma walk_files_at_most_once_witness :
  (refunds_json (Trace.world_of Trace.approved_walk) = refunds_json Sample.w0
   \/ appendable Sample.w0
      /\ refunds_json (Trace.world_of Trace.approved_walk)
         = Ledger (rows (refunds_json Sample.w0) ++ [ledger_entry Trace.approved_no_email])
      /\ needs_input Trace.approved_no_email = false)
  /\ (needs_input Trace.approved_no_email = true ->
      refunds_json (Trace.world_of Trace.approved_walk) = refunds_json Sample.w0).
Proof.
  exact (walk_files_at_most_once _ _ _ _ _ _ approved_walk_returns).
Defined.

Lemma walk_mails_only_approved_witness :
  outbox (Trace.world_of Trace.approved_walk) = outbox Sample.w0
  \/ refund_status Trace.approved_no_email = "approved"
     /\ _is_valid_email (email Trace.approved_no_email) = true
     /\ needs_input Trace.approved_no_email = false
     /\ exists m, outbox (Trace.world_of Trace.approved_walk) = (outbox Sample.w0 ++ [m])%list
                  /\ recipient m = email Trace.approved_no_email.
Proof.
  exact (walk_mails_only_approved _ _ _ _ _ _ approved_walk_returns).
Defined.

Lemma walk_asks_vision_at_most_once_witness :
  vision_calls (Trace.world_of Trace.approved_walk) = vision_calls Sample.w0
  \/ truthy_dict (image_verdict (merge_form Trace.claim_form (initialize_session "s1"))) = false
     /\ exists call,
          vision_calls (Trace.world_of Trace.approved_walk)
          = (vision_calls Sample.w0 ++ [call])%list.
Proof.
  exact (walk_asks_vision_at_most_once _ _ _ _ _ _ approved_walk_returns).
Defined.

Lemma walk_adds_an_entry_witness :
  (length (conversation_history (merge_form Trace.claim_form (initialize_session "s1")))
   < length (conversation_history Trace.approved_no_email))%nat.
Proof.
  exact (proj1 (walk_adds_an_entry _ _ _ _ _ _ approved_walk_returns)).
Defined.

Lemma complaint_is_set_once_witness :
  exists state',
    sessions (serve Sample.db Demo.requests Demo.server) !! "s1" = Some state'
    /\ complaint state' = Some "the box was crushed".
Proof.
  apply (complaint_is_set_once Sample.db Demo.requests Demo.server "s1"
           Trace.approved_no_email "the box was crushed").
  - vm_compute. reflexivity.
  - vm_compute. reflexivity.
  - discriminate.
Defined.

Lemma verdict_is_computed_once_witness :
  exists state',
    sessions (serve Sample.db Demo.requests Demo.server) !! "s1" = Some state'
    /\ image_verdict state' = Some Sample.defective.
Proof.
  apply (verdict_is_computed_once Sample.db Demo.requests Demo.server "s1"
           Trace.approved_no_email Sample.defective).
  - vm_compute. reflexivity.
  - vm_compute. reflexivity.
  - compute_done.
Defined.

Lemma sessions_are_keyed_by_id_witness :
  session_id Trace.approved_no_email = "s1".
Proof.
  apply (sessions_are_keyed_by_id Sample.db
           [(Sample.svc "refund" Sample.defective, Trace.claim_form)] Sample.w0 "s1"
           Trace.approved_no_email).
  vm_compute. reflexivity.
Defined.

Lemma captured_email_is_valid_witness :
  "a.b@mail.example.org" <> ""
  /\ Re.search Re.EMAIL "a.b@mail.example.org" = Some "a.b@mail.example.org"
  /\ _is_valid_email (Some "a.b@mail.example.org") = true.
Proof.
  apply (captured_email_is_valid "send it to a.b@mail.example.org please").
  vm_compute. reflexivity.
Defined.

Lemma email_after_approval_finalizes_witness :
  exists state' w',
    invoke Sample.db (Sample.svc "general" Sample.acceptable)
      (merge_form Demo.email_form Trace.approved_no_email) Sample.w0 = Ok state' w'
    /\ email state' = Some "a.b@mail.example.org"
    /\ needs_input state' = false.
Proof.
  destruct (email_after_approval_finalizes Sample.db (Sample.svc "general" Sample.acceptable)
              (merge_form Demo.email_form Trace.approved_no_email) Sample.w0
              Sample.defective "a.b@mail.example.org")
    as (state' & w' & Hrun & _ & Hmail & _ & Hneeds & _).
  - vm_compute. reflexivity.
  - vm_compute. reflexivity.
  - vm_compute. reflexivity.
  - split; [discriminate|reflexivity].
  - by exists state', w'.
Defined.

Lemma stored_order_id_is_well_formed_witness : well_formed_id "XRD12345".
Proof.
  apply (stored_order_id_is_well_formed Sample.db
           [(Sample.svc "refund" Sample.defective, Trace.claim_form)] Sample.w0 "s1"
           Trace.approved_no_email "XRD12345").
  - repeat constructor. cbn. intros m [= <-]. vm_compute. reflexivity.
  - vm_compute. reflexivity.
  - vm_compute. reflexivity.
Defined.


Lemma approval_follows_the_email_witness :
  exists state',
    run Sample.db (Sample.svc "refund" Sample.defective) 2 decision
      (set_image_verdict (Some Sample.defective) Demo.named) Sample.w0
    = Ok state' (visit decision Sample.w0)
    /\ refund_status state' = "approved"
    /\ response_message state' = MSG_APPROVED_ASK_EMAIL
    /\ needs_input state' = true.
Proof.
  destruct (approval_follows_the_email Sample.db (Sample.svc "refund" Sample.defective) 0
              (set_image_verdict (Some Sample.defective) Demo.named) Sample.w0
              Sample.defective) as (Hnone & _).
  - reflexivity.
  - vm_compute. reflexivity.
  - apply Hnone. reflexivity.
Defined.

Lemma unsaved_upload_is_refused_witness :
  snd (chat Sample.db (Sample.svc "refund" Sample.defective) Trace.claim_form
         (boot Demo.full_disk)) = inl OSError
  /\ world (fst (chat Sample.db (Sample.svc "refund" Sample.defective) Trace.claim_form
                  (boot Demo.full_disk))) = world (boot Demo.full_disk)
  /\ get_session "s1"
       (fst (chat Sample.db (Sample.svc "refund" Sample.defective) Trace.claim_form
               (boot Demo.full_disk)))
     = OK200 (initialize_session "s1").
Proof.
  apply (unsaved_upload_is_refused Sample.db (Sample.svc "refund" Sample.defective)
           Trace.claim_form (boot Demo.full_disk)
           {| uuid_hex8 := "0a1b2c3d"; filename := "box.jpg" |}).
  - reflexivity.
  - reflexivity.
Defined.

Lemma delete_session_resets_witness :
  get_session "s1" (fst (delete_session "s1" Demo.server)) = NotFound404
  /\ S (snd (health_check (fst (delete_session "s1" Demo.server))))
     = snd (health_check Demo.server).
Proof.
  destruct (delete_session_resets Sample.db (Sample.svc "general" Sample.acceptable)
              (Sample.form "hello") Demo.server Trace.approved_no_email)
    as (_ & Hget & _ & Hcount & _).
  - vm_compute. reflexivity.
  - split; [exact Hget|exact Hcount].
Defined.

Lemma opening_message_is_asked_for_the_order_witness :
  exists state',
    invoke Sample.db (Sample.svc "refund" Sample.acceptable)
      (merge_form (Sample.form "I want a refund") (initialize_session "s1")) Sample.w0
    = Ok state' (visit collector (visit intent_reviewer Sample.w0))
    /\ response_message state' = PROMPT_ORDER_ID
    /\ needs_input state' = true.
Proof.
  destruct (opening_message_is_asked_for_the_order Sample.db
              (Sample.svc "refund" Sample.acceptable)
              (merge_form (Sample.form "I want a refund") (initialize_session "s1"))
              Sample.w0)
    as (state' & Hrun & _ & Hresp & Hneeds & _).
  - vm_compute. reflexivity.
  - vm_compute. reflexivity.
  - vm_compute. discriminate.
  - vm_compute. discriminate.
  - vm_compute. reflexivity.
  - vm_compute. reflexivity.
  - by exists state'.
Defined.

Lemma analyze_returns_the_parsed_answer_witness :
  Sentiment.analyze (Demo.completes " {x} ") (Demo.parses Demo.loud) "hello"
    !! "sentiment_score" = Some (JNum (Z.max 0 (Z.min 10 42)))
  /\ Sentiment.analyze (Demo.completes " {x} ") (Demo.parses Demo.loud) "hello"
       !! "language" = Some (default (JStr "en") (Demo.loud !! "language")).
Proof.
  destruct (analyze_returns_the_parsed_answer (Demo.completes " {x} ")
              (Demo.parses Demo.loud) "hello" " {x} " Demo.loud 42)
    as (Hscore & _ & Hlang & _).
  - reflexivity.
  - vm_compute. reflexivity.
  - vm_compute. reflexivity.
  - vm_compute. reflexivity.
  - split; [exact Hscore|exact Hlang].
Defined.

Lemma analyze_falls_back_witness :
  Sentiment.analyze Demo.fails (Demo.parses Demo.loud) "hello" = Sentiment.fallback.
Proof.
  apply (analyze_falls_back Demo.fails (Demo.parses Demo.loud) "hello").
  left. reflexivity.
Defined.

Lemma sentiment_json_is_cut_out_witness :
  Sentiment.json_str ("Sure: " +:+ "{" +:+ "x" +:+ "}" +:+ " ok") = "{" +:+ "x" +:+ "}".
Proof.
  destruct (sentiment_json_is_cut_out "Sure: " "x" " ok") as [Hcut _].
  - vm_compute. reflexivity.
  - apply Hcut. vm_compute. reflexivity.
Defined.

Lemma vision_json_is_unfenced_witness :
  Vision.json_str ("```json" +:+ PyStr.nl +:+ "{" +:+ "x" +:+ "}" +:+ PyStr.nl +:+ "```")
  = Some ("{" +:+ "x" +:+ "}").
Proof.
  destruct (vision_json_is_unfenced "x" PyStr.nl PyStr.nl) as [_ Hfenced].
  - vm_compute. reflexivity.
  - vm_compute. reflexivity.
  - vm_compute. reflexivity.
  - exact Hfenced.
Defined.

Lemma failed_vision_is_denied_witness :
  exists state' w',
    run Sample.db
      (with_vision Demo.no_image (Demo.answers Demo.fenced) (Demo.parses Sample.defective)
         (Sample.svc "refund" Sample.defective))
      3 image_analyzer Demo.named Sample.w0 = Ok state' w'
    /\ refund_status state' = "denied".
Proof.
  destruct (failed_vision_is_denied Sample.db Demo.no_image (Demo.answers Demo.fenced)
              (Demo.parses Sample.defective) (Sample.svc "refund" Sample.defective)
              0 Demo.named Sample.w0 Demo.crushed)
    as (state' & w' & Hrun & _ & _ & Hdenied & _).
  - reflexivity.
  - vm_compute. reflexivity.
  - left. reflexivity.
  - split; [discriminate|reflexivity].
  - by exists state', w'.
Defined.

Lemma vision_walk_returns :
  run Sample.db
    (with_vision Demo.some_image (Demo.answers Demo.fenced) (Demo.parses Sample.defective)
       (Sample.svc "refund" Sample.acceptable))
    3 image_analyzer Demo.named Sample.w0
  = Ok (Trace.state_of Demo.vision_walk) (Trace.world_of Demo.vision_walk).
Proof. vm_compute. reflexivity. Qed.

Lemma approval_needs_a_defective_answer_witness :
  Demo.some_image (image_path Demo.named) <> ""
  /\ exists raw_content text parsed,
       Demo.answers Demo.fenced
         (Vision.vision_prompt
            (vision_context Demo.crushed (set_current_node "image_analyzer" Demo.named)))
         (Demo.some_image (image_path Demo.named)) = Some raw_content
       /\ Vision.json_str raw_content = Some text
       /\ Demo.parses Sample.defective text = Some parsed
       /\ parsed !! "status" = Some (JStr "defective").
Proof.
  apply (approval_needs_a_defective_answer Sample.db Demo.some_image
           (Demo.answers Demo.fenced) (Demo.parses Sample.defective)
           (Sample.svc "refund" Sample.acceptable) 0 Demo.named Sample.w0 Demo.crushed
           (Trace.state_of Demo.vision_walk) (Trace.world_of Demo.vision_walk)).
  - reflexivity.
  - vm_compute. reflexivity.
  - exact vision_walk_returns.
  - vm_compute. reflexivity.
Defined.

(** ** The workflow does not raise on what it has stored *)

(** X25: a session state the store can hold, merged with any request,
    and a ledger that can be appended to (the file is missing, is not
    JSON or holds a list, and can be written): the walk returns, no node
    raises and the recursion limit is not reached.  In the state it
    returns the status is "", approved or denied, with approved carrying
    a "defective" verdict and denied a verdict that is not; and the
    ledger can be appended to again. *)
Theorem stored_session_walk_returns orders_db svc form state w :
  stored orders_db state -> appendable w ->
  exists state' w',
    invoke orders_db svc (merge_form form state) w = Ok state' w'
    /\ consistent state'
    /\ appendable w'.
Proof.
  intros Hstored Hlist. apply stored_consistent in Hstored.
  destruct (merge_form_keeps form state) as [Hr Hv].
  assert (consistent (merge_form form state)) as Hmerged by by eapply consistent_ext.
  destruct (walk_returns orders_db svc recursion_limit intent_reviewer
              (set_conversation_history ([] ++ conversation_history (merge_form form state))
                 (merge_form form state)) w)
    as (state' & w' & Hwalk & Hlist'); [by eapply consistent_ext|done|cbn; lia|].
  exists state', w'. split; [exact Hwalk|]. split; [|done].
  exact (invoke_consistent orders_db svc (merge_form form state) w state' w' Hmerged Hwalk).
Qed.

Lemma stored_session_walk_returns_witness :
  exists state' w',
    invoke Sample.db (Sample.svc "general" Sample.acceptable)
      (merge_form (Sample.form "hello") Trace.approved_no_email) Sample.w0 = Ok state' w'
    /\ consistent state'
    /\ appendable w'.
Proof.
  apply (stored_session_walk_returns Sample.db (Sample.svc "general" Sample.acceptable)
           (Sample.form "hello") Trace.approved_no_email Sample.w0).
  - exact approved_no_email_stored.
  - by split.
Defined.
